(** * MOFA: the model-building entry point [runMOFA]

    A shallow embedding of [mofa/core/build_model.py].  [runMOFA] is glue
    code: it reads three option dictionaries, decides a few branches and
    calls its collaborators ([time], [scipy.random], [os], [maskData],
    [initModel] and its [init*] methods, [addMarkovBlanket], [BayesNet],
    [saveModel]) in a fixed order.  The embedding keeps that shape: the
    function is a program in a small monad whose effects are the calls to
    the collaborators, and whose meaning is given by a handler that answers
    each call (with a value or with an exception). *)

From Stdlib Require Import QArith Qcanon Ascii String.
From Stdlib Require SpecFloat.
From stdpp Require Import gmap strings list fin_maps numbers pretty sorting.

Set Warnings "-register-all".
Local Open Scope Z_scope.

(** ** Python values *)

(** The option dictionaries hold numbers, strings, lists (arrays) and nested
    dictionaries.  Integers and floats are one constructor, as Python compares
    them by value ([1 == 1.0]); a finite float is the rational it denotes. *)
Inductive PyVal :=
| VNone
| VBool (b : bool)
| VNum (q : Qc)
| VNaN
| VStr (s : string)
| VList (l : list PyVal)
| VDict (d : gmap string PyVal).

Abbreviation PyDict := (gmap string PyVal).

Inductive exn :=
| KeyError (k : string)
| TypeError (what : string)
| IndexError
| Raised (what : string).      (* an exception raised inside a collaborator *)

Global Instance exn_eq_dec : EqDecision exn.
Proof. solve_decision. Defined.

(** A Python float is an IEEE 754 binary64, as the Standard Library
    specifies them ([SpecFloat], precision 53, largest exponent 1024). *)
Abbreviation float := SpecFloat.spec_float.

(** A [pandas.DataFrame]: row labels, column labels, and the cells (a missing
    cell is [None]). *)
Record DataFrame := {
  df_index : list string;
  df_columns : list string;
  df_values : list (list (option Qc));
}.

Abbreviation Data := (list DataFrame).

Definition shape0 (df : DataFrame) : nat := length (df_index df).
Definition shape1 (df : DataFrame) : nat := length (df_columns df).

(** [dim = {'M':M, 'N':N, 'D':D, 'K':K}] *)
Record Dim := { dim_M : nat; dim_N : nat; dim_D : list nat; dim_K : PyVal }.

(** Object references (the [init] object, the nodes, the network). *)
Abbreviation ref := nat (only parsing).

(** Keyword arguments of a call, in the order they are written. *)
Abbreviation kwargs := (list (string * PyVal)).

(** ** The calls [runMOFA] makes

    One constructor per call that leaves [runMOFA]; the index is the type of
    the value the call returns. *)
Inductive Cmd : Type → Type :=
| Time : Cmd float                                        (* time() *)
| RandomSeed (seed : Z) : Cmd unit                     (* s.random.seed(seed) *)
| IsDir (path : string) : Cmd bool                     (* os.path.isdir(path) *)
| MakeDirs (path : string) : Cmd unit                  (* os.makedirs(path) *)
| Print (line : string) : Cmd unit
| Sleep (secs : Z) : Cmd unit
| MaskData (data : Data) (data_opts : PyDict) : Cmd Data
| InitModel (dim : Dim) (data : Data) (lik : PyVal) (seed : Z) : Cmd ref
| InitZ (init : ref) (kw : kwargs) : Cmd unit
| InitSW (init : ref) (kw : kwargs) : Cmd unit
| InitAlphaW_mk (init : ref) (kw : kwargs) : Cmd unit
| InitTau (init : ref) (kw : kwargs) : Cmd unit
| InitThetaMixed (init : ref) (kw : kwargs) : Cmd unit
| InitThetaConst (init : ref) (kw : kwargs) : Cmd unit
| InitY (init : ref) : Cmd unit
| GetNodes (init : ref) : Cmd (gmap string ref)
| AddMarkovBlanket (node : ref) (blanket : list (string * ref)) : Cmd unit
| BayesNet (dim : Dim) (schedule : PyVal) (nodes : gmap string ref)
           (options : PyDict) : Cmd ref
| Iterate (net : ref) : Cmd unit
| SaveModel (net : ref) (outfile view_names : PyVal)
            (sample_names : list string) (feature_names : list (list string))
            (train_opts model_opts : PyDict) : Cmd unit.

(** ** Programs *)

Inductive Prog (A : Type) : Type :=
| Ret (a : A)
| Raise (e : exn)
| Call {X : Type} (c : Cmd X) (k : X → Prog A).

Arguments Ret {A} a.
Arguments Raise {A} e.
Arguments Call {A X} c k.

Fixpoint bind {A B} (p : Prog A) (f : A → Prog B) : Prog B :=
  match p with
  | Ret a => f a
  | Raise e => Raise e
  | Call c k => Call c (λ x, bind (k x) f)
  end.

Global Instance Prog_ret : MRet Prog := @Ret.
Global Instance Prog_bind : MBind Prog := λ A B f p, bind p f.

Definition call {X} (c : Cmd X) : Prog X := Call c Ret.

(** ** Python primitives used by [runMOFA] *)

(** [d[k]] on a dictionary. *)
Definition getitem (d : PyDict) (k : string) : Prog PyVal :=
  match d !! k with
  | Some v => Ret v
  | None => Raise (KeyError k)
  end.

(** [v[k]] on a value that should be a dictionary. *)
Definition subscript (v : PyVal) (k : string) : Prog PyVal :=
  match v with
  | VDict d => getitem d k
  | _ => Raise (TypeError "subscript")
  end.

(** [k in d] *)
Definition contains (d : PyDict) (k : string) : bool :=
  bool_decide (is_Some (d !! k)).

(** Truth value of a Python object. *)
Definition truthy (v : PyVal) : bool :=
  match v with
  | VNone => false
  | VBool b => b
  | VNum q => bool_decide (q ≠ 0%Qc)
  | VNaN => true
  | VStr s => bool_decide (s ≠ "")
  | VList l => bool_decide (l ≠ [])
  | VDict d => bool_decide (d ≠ ∅)
  end.

(** The built-in [any]: its argument has to be iterable.  Iterating a
    string yields its characters (all truthy), iterating a dictionary its
    keys. *)
Definition py_any (v : PyVal) : Prog bool :=
  match v with
  | VList l => Ret (existsb truthy l)
  | VStr s => Ret (bool_decide (s ≠ ""))
  | VDict d => Ret (existsb (λ k, bool_decide (k ≠ "")) (map fst (map_to_list d)))
  | _ => Raise (TypeError "not iterable")
  end.

(** The argument of [os.path.dirname] and of [%s] here is a string. *)
Definition as_str (v : PyVal) : Prog string :=
  match v with
  | VStr s => Ret s
  | _ => Raise (TypeError "str expected")
  end.

(** [os.path.dirname] of [posixpath]: the part up to the last slash, with
    trailing slashes removed unless it consists of slashes only. *)
Fixpoint drop_while {A} (f : A → bool) (l : list A) : list A :=
  match l with
  | [] => []
  | x :: l' => if f x then drop_while f l' else l
  end.

Definition is_slash (c : ascii) : bool := bool_decide (c = "/"%char).

Definition dirname (p : string) : string :=
  let head := rev (drop_while (λ c, negb (is_slash c)) (rev (list_ascii_of_string p))) in
  string_of_list_ascii
    (if forallb is_slash head then head else rev (drop_while is_slash (rev head))).

(** [s * n] on strings. *)
Fixpoint str_repeat (s : string) (n : nat) : string :=
  match n with
  | O => ""
  | S n' => s +:+ str_repeat s n'
  end.

Definition nl : string := String (ascii_of_nat 10) "".

(** [float(z)] and [x * y] on floats: the nearest binary64, halves to the
    even one. *)
Definition float_of_Z (z : Z) : float := SpecFloat.binary_normalize 53 1024 z 0 false.
Definition float_mul (x y : float) : float := SpecFloat.SFmul 53 1024 x y.
Definition float_add (x y : float) : float := SpecFloat.SFadd 53 1024 x y.

(** [round(x)] on the finite float [x = ± m * 2^e].  [round] is Python 2's
    (the repository is Python 2 code: [test.py] uses the [print] statement):
    the nearest integer, a half goes away from zero.  The integer is a
    binary64 again, so that nothing is lost. *)
Definition round_half_away (sg : bool) (m : positive) (e : Z) : Z :=
  SpecFloat.cond_Zopp sg
    (if bool_decide (0 ≤ e) then Z.pos m * 2 ^ e
     else (Z.pos m + 2 ^ (- e - 1)) `div` 2 ^ (- e)).

(** [int(round(x) % 1e6)] on a float.  On an integer-valued float [% 1e6]
    is exact and has the sign of [1e6]; for an infinity or a NaN,
    [round(x) % 1e6] is a NaN, which [int] refuses. *)
Definition int_round_mod (x : float) : exn + Z :=
  match x with
  | SpecFloat.S754_zero _ => inr 0
  | SpecFloat.S754_finite sg m e => inr (round_half_away sg m e `mod` 1000000)
  | _ => inl (Raised "ValueError: cannot convert float NaN to integer")
  end.

(** [int(round(t*1000) % 1e6)] for the clock reading [t]: the product is
    the float product, rounded to binary64, of [t] and [1000.0]. *)
Definition clock_seed (t : float) : exn + Z :=
  int_round_mod (float_mul t (float_of_Z 1000)).

(** A value computed without a call, or the exception it raises. *)
Definition of_result {A} (r : exn + A) : Prog A :=
  match r with
  | inr a => Ret a
  | inl e => Raise e
  end.

(** [numpy.unique] on an array of finite numbers: nested lists are
    flattened, the distinct values are returned in increasing order.
    Booleans count as 0 and 1.  An array that holds anything else (a NaN,
    a string, [None]) is outside of what is modelled: [np_unique] stops
    with a [TypeError] on it. *)
Fixpoint np_flatten (v : PyVal) : option (list Qc) :=
  match v with
  | VNum q => Some [q]
  | VBool b => Some [if b then 1%Qc else 0%Qc]
  | VList l =>
      (fix go (l : list PyVal) : option (list Qc) :=
         match l with
         | [] => Some []
         | x :: l' =>
             match np_flatten x, go l' with
             | Some a, Some b => Some (a ++ b)
             | _, _ => None
             end
         end) l
  | _ => None
  end.

Definition np_unique_list (l : list Qc) : list Qc :=
  merge_sort Qcle (remove_dups l).

Definition np_unique (v : PyVal) : Prog (list Qc) :=
  match np_flatten v with
  | Some l => Ret (np_unique_list l)
  | None => Raise (TypeError "numeric array expected")
  end.

(** [if a:] on the array [a = (u == c)]: a one-element array has the truth
    value of its element, an empty one is false, a longer one is refused. *)
Definition np_eq_truth (u : list Qc) (c : Qc) : Prog bool :=
  match u with
  | [] => Ret false
  | [x] => Ret (bool_decide (x = c))
  | _ => Raise (Raised "ValueError: truth value of an array is ambiguous")
  end.

(** [data[0]] *)
Definition first_view (data : Data) : Prog DataFrame :=
  match data with
  | df :: _ => Ret df
  | [] => Raise IndexError
  end.

(** [d[k1][k2]] *)
Definition getitem2 (d : PyDict) (k1 k2 : string) : Prog PyVal :=
  v ← getitem d k1; subscript v k2.

(** [nodes[name]] on the dictionary returned by [getNodes]. *)
Definition getnode (nodes : gmap string ref) (name : string) : Prog ref :=
  match nodes !! name with
  | Some n => Ret n
  | None => Raise (KeyError name)
  end.

(** The five lines printed around a banner. *)
Definition banner (width : nat) (title : string) : Prog unit :=
  call (Print nl);;
  call (Print (str_repeat "#" width));;
  call (Print title);;
  call (Print (str_repeat "#" width));;
  call (Print nl).

(** ** [runMOFA], section by section *)

(** "set the seed" (lines 28-31); returns the seed in use. *)
Definition set_seed (seed : option Z) : Prog Z :=
  seed ← match seed with
         | None => t ← call Time; of_result (clock_seed t)
         | Some z =>
             if bool_decide (z = 0) then t ← call Time; of_result (clock_seed t)
             else mret z
         end;
  call (RandomSeed seed);;
  mret seed.

(** "Perform sanity checks" (lines 34-41). *)
Definition sanity_checks (data_opts : PyDict) : Prog unit :=
  outfile ← getitem data_opts "outfile";
  outfile ← as_str outfile;
  exists_ ← call (IsDir (dirname outfile));
  if negb exists_ then
    call (Print "Output directory does not exist, creating it...");;
    outfile ← getitem data_opts "outfile";
    outfile ← as_str outfile;
    call (MakeDirs (dirname outfile))
  else mret tt.

(** [a or b] on conditions: [b] is evaluated only when [a] is false. *)
Definition py_or (a b : Prog bool) : Prog bool :=
  x ← a; if (x : bool) then mret true else b.

(** "Parse the data" (lines 43-50); returns the data to model. *)
Definition parse_data (data : Data) (data_opts : PyDict) : Prog Data :=
  if contains data_opts "maskAtRandom" || contains data_opts "maskNSamples" then
    go ← py_or (at_random ← getitem data_opts "maskAtRandom"; py_any at_random)
               (n_samples ← getitem data_opts "maskNSamples"; py_any n_samples);
    if (go : bool) then call (MaskData data data_opts) else mret data
  else mret data.

(** Lines 56-70: the banner, the seed notice and the dimensionalities. *)
Definition define_dim (data : Data) (model_opts : PyDict) (seed : Z) : Prog Dim :=
  banner 24 "## Building the model ##";;
  call (Sleep 1);;
  call (Print ("Setting random seed " +:+ pretty seed +:+ "..." +:+ nl));;
  let M := length data in
  df ← first_view data;
  let N := shape0 df in
  let D := shape1 <$> data in
  K ← getitem model_opts "factors";
  mret {| dim_M := M; dim_N := N; dim_D := D; dim_K := K |}.

(** "Latent variables" (lines 76-79) *)
Definition initZ (init : ref) (data_opts model_opts : PyDict) : Prog unit :=
  pmean ← getitem2 model_opts "priorZ" "mean";
  pvar ← getitem2 model_opts "priorZ" "var";
  qmean ← getitem2 model_opts "initZ" "mean";
  qvar ← getitem2 model_opts "initZ" "var";
  qE ← getitem2 model_opts "initZ" "E";
  qE2 ← getitem2 model_opts "initZ" "E2";
  covariates ← getitem data_opts "covariates";
  scale_covariates ← getitem data_opts "scale_covariates";
  call (InitZ init [("pmean", pmean); ("pvar", pvar); ("qmean", qmean);
                    ("qvar", qvar); ("qE", qE); ("qE2", qE2);
                    ("covariates", covariates);
                    ("scale_covariates", scale_covariates)]).

(** "Sparse weights" (lines 81-84) *)
Definition initSW (init : ref) (model_opts : PyDict) : Prog unit :=
  ptheta ← getitem2 model_opts "priorSW" "Theta";
  pmean_S0 ← getitem2 model_opts "priorSW" "mean_S0";
  pvar_S0 ← getitem2 model_opts "priorSW" "var_S0";
  pmean_S1 ← getitem2 model_opts "priorSW" "mean_S1";
  pvar_S1 ← getitem2 model_opts "priorSW" "var_S1";
  qtheta ← getitem2 model_opts "initSW" "Theta";
  qmean_S0 ← getitem2 model_opts "initSW" "mean_S0";
  qvar_S0 ← getitem2 model_opts "initSW" "var_S0";
  qmean_S1 ← getitem2 model_opts "initSW" "mean_S1";
  qvar_S1 ← getitem2 model_opts "initSW" "var_S1";
  qEW_S0 ← getitem2 model_opts "initSW" "EW_S0";
  qEW_S1 ← getitem2 model_opts "initSW" "EW_S1";
  qES ← getitem2 model_opts "initSW" "ES";
  call (InitSW init [("ptheta", ptheta); ("pmean_S0", pmean_S0);
                     ("pvar_S0", pvar_S0); ("pmean_S1", pmean_S1);
                     ("pvar_S1", pvar_S1); ("qtheta", qtheta);
                     ("qmean_S0", qmean_S0); ("qvar_S0", qvar_S0);
                     ("qmean_S1", qmean_S1); ("qvar_S1", qvar_S1);
                     ("qEW_S0", qEW_S0); ("qEW_S1", qEW_S1); ("qES", qES)]).

(** The keyword arguments [pa, pb, qa, qb, qE] of a Gamma or Beta node, read
    from [model_opts["prior<X>"]] and [model_opts["init<X>"]]. *)
Definition ab_args (model_opts : PyDict) (prior init_ : string) : Prog kwargs :=
  pa ← getitem2 model_opts prior "a";
  pb ← getitem2 model_opts prior "b";
  qa ← getitem2 model_opts init_ "a";
  qb ← getitem2 model_opts init_ "b";
  qE ← getitem2 model_opts init_ "E";
  mret [("pa", pa); ("pb", pb); ("qa", qa); ("qb", qb); ("qE", qE)].

(** "ARD on weights" (lines 86-88) *)
Definition initAlphaW (init : ref) (model_opts : PyDict) : Prog unit :=
  kw ← ab_args model_opts "priorAlphaW" "initAlphaW";
  call (InitAlphaW_mk init kw).

(** "Precision of noise" (lines 90-92) *)
Definition initTau (init : ref) (model_opts : PyDict) : Prog unit :=
  kw ← ab_args model_opts "priorTau" "initTau";
  call (InitTau init kw).

(** The call [init.initThetaMixed(pa=..., ..., sparsity=model_opts['sparsity'])]
    of lines 101-103 and, again, of lines 111-113. *)
Definition initThetaMixed (init : ref) (model_opts : PyDict) : Prog unit :=
  kw ← ab_args model_opts "priorTheta" "initTheta";
  sparsity ← getitem model_opts "sparsity";
  call (InitThetaMixed init (kw ++ [("sparsity", sparsity)])).

(** The call [init.initThetaConst(value=model_opts["initTheta"]['E'])]. *)
Definition initThetaConst (init : ref) (model_opts : PyDict) : Prog unit :=
  value ← getitem2 model_opts "initTheta" "E";
  call (InitThetaConst init [("value", value)]).

(** "Sparsity on the weights" (lines 94-113) *)
Definition initTheta (init : ref) (model_opts : PyDict) : Prog unit :=
  sparsity ← getitem model_opts "sparsity";
  u ← np_unique sparsity;
  if bool_decide (length u = 1%nat) then
    (* All are infered *)
    sparsity ← getitem model_opts "sparsity";
    u ← np_unique sparsity;
    all_ ← np_eq_truth u 1%Qc;
    if (all_ : bool) then initThetaMixed init model_opts
    else
      (* None are infered *)
      sparsity ← getitem model_opts "sparsity";
      u ← np_unique sparsity;
      none_ ← np_eq_truth u 0%Qc;
      if (none_ : bool) then initThetaConst init model_opts
      else mret tt
  else
    (* Some are infered *)
    initThetaMixed init model_opts.

(** "Define and initialise the nodes" (lines 72-116); returns [init]. *)
Definition init_nodes (dim : Dim) (data : Data) (data_opts model_opts : PyDict)
    (seed : Z) : Prog ref :=
  lik ← getitem model_opts "likelihoods";
  init ← call (InitModel dim data lik seed);
  initZ init data_opts model_opts;;
  initSW init model_opts;;
  initAlphaW init model_opts;;
  initTau init model_opts;;
  initTheta init model_opts;;
  call (InitY init);;
  mret init.

(** One [nodes[owner].addMarkovBlanket(kw1=nodes[n1], ...)]: the owner is
    looked up first, then the neighbours in the order written. *)
Definition addMarkovBlanket (nodes : gmap string ref) (owner : string)
    (neighbours : list (string * string)) : Prog unit :=
  o ← getnode nodes owner;
  bl ← mapM (λ kn : string * string, n ← getnode nodes kn.2; mret (kn.1, n))
            neighbours;
  call (AddMarkovBlanket o bl).

(** "Define the markov blanket of each node" (lines 118-125) *)
Definition markov_blankets (init : ref) : Prog unit :=
  nodes ← call (GetNodes init);
  addMarkovBlanket nodes "Z" [("SW", "SW"); ("Tau", "Tau"); ("Y", "Y")];;
  addMarkovBlanket nodes "Theta" [("SW", "SW")];;
  addMarkovBlanket nodes "AlphaW" [("SW", "SW")];;
  addMarkovBlanket nodes "SW" [("Z", "Z"); ("Tau", "Tau"); ("Alpha", "AlphaW");
                               ("Y", "Y"); ("Theta", "Theta")];;
  addMarkovBlanket nodes "Y" [("Z", "Z"); ("SW", "SW"); ("Tau", "Tau")];;
  addMarkovBlanket nodes "Tau" [("Z", "Z"); ("SW", "SW"); ("Y", "Y")].

(** "Add the nodes to the network" (lines 127-132); returns [net]. *)
Definition build_net (dim : Dim) (init : ref) (model_opts train_opts : PyDict)
    : Prog ref :=
  schedule ← getitem model_opts "schedule";
  nodes ← call (GetNodes init);
  call (BayesNet dim schedule nodes train_opts).

(** "Start training" (lines 134-145) *)
Definition train (net : ref) (seed : Z) : Prog unit :=
  banner 45 ("## Running MOFA with seed " +:+ pretty seed +:+ " ##");;
  call (Sleep 1);;
  call (Iterate net).

(** "Save model" and "Save results" (lines 147-167) *)
Definition save (net : ref) (data : Data) (data_opts model_opts train_opts : PyDict)
    : Prog unit :=
  banner 43 "## Training finished, processing results ##";;
  df ← first_view data;
  let sample_names := df_index df in
  let feature_names := df_columns <$> data in
  outfile ← getitem data_opts "outfile";
  outfile ← as_str outfile;
  call (Print ("Saving model in " +:+ outfile +:+ "..." +:+ nl));;
  outfile ← getitem data_opts "outfile";
  view_names ← getitem data_opts "view_names";
  call (SaveModel net outfile view_names sample_names feature_names
                  train_opts model_opts).

Definition runMOFA (data : Data) (data_opts model_opts train_opts : PyDict)
    (seed : option Z) : Prog unit :=
  seed ← set_seed seed;
  sanity_checks data_opts;;
  data ← parse_data data data_opts;
  dim ← define_dim data model_opts seed;
  init ← init_nodes dim data data_opts model_opts seed;
  markov_blankets init;;
  net ← build_net dim init model_opts train_opts;
  train net seed;;
  save net data data_opts model_opts train_opts.

(** ** Running a program

    A handler answers each call, with a value or with an exception, and
    threads its own state.  [runMOFA] has no [try]: the first exception ends
    the run.  The run records every call made together with its answer. *)

Record Event := Ev { ev_ty : Type; ev_cmd : Cmd ev_ty; ev_res : exn + ev_ty }.

Definition Handler (S : Type) : Type := ∀ X, Cmd X → S → (exn + X) * S.

Fixpoint run {S A} (h : Handler S) (p : Prog A) (s : S)
    : list Event * (exn + A) * S :=
  match p with
  | Ret a => ([], inr a, s)
  | Raise e => ([], inl e, s)
  | Call c k =>
      match h _ c s with
      | (inl e, s') => ([Ev _ c (inl e)], inl e, s')
      | (inr x, s') =>
          match run h (k x) s' with
          | (tr, res, s'') => (Ev _ c (inr x) :: tr, res, s'')
          end
      end
  end.

Definition trace_of {S A} (r : list Event * (exn + A) * S) : list Event := r.1.1.
Definition result_of {S A} (r : list Event * (exn + A) * S) : exn + A := r.1.2.
Definition state_of {S A} (r : list Event * (exn + A) * S) : S := r.2.

(** The name of a call, without its arguments. *)
Inductive Tag :=
| TTime | TRandomSeed | TIsDir | TMakeDirs | TPrint | TSleep | TMaskData
| TInitModel | TInitZ | TInitSW | TInitAlphaW_mk | TInitTau
| TInitThetaMixed | TInitThetaConst | TInitY | TGetNodes
| TAddMarkovBlanket | TBayesNet | TIterate | TSaveModel.

Global Instance Tag_eq_dec : EqDecision Tag.
Proof. solve_decision. Defined.

Definition tag_of {X} (c : Cmd X) : Tag :=
  match c with
  | Time => TTime
  | RandomSeed _ => TRandomSeed
  | IsDir _ => TIsDir
  | MakeDirs _ => TMakeDirs
  | Print _ => TPrint
  | Sleep _ => TSleep
  | MaskData _ _ => TMaskData
  | InitModel _ _ _ _ => TInitModel
  | InitZ _ _ => TInitZ
  | InitSW _ _ => TInitSW
  | InitAlphaW_mk _ _ => TInitAlphaW_mk
  | InitTau _ _ => TInitTau
  | InitThetaMixed _ _ => TInitThetaMixed
  | InitThetaConst _ _ => TInitThetaConst
  | InitY _ => TInitY
  | GetNodes _ => TGetNodes
  | AddMarkovBlanket _ _ => TAddMarkovBlanket
  | BayesNet _ _ _ _ => TBayesNet
  | Iterate _ => TIterate
  | SaveModel _ _ _ _ _ _ _ => TSaveModel
  end.

Definition ev_tag (ev : Event) : Tag := tag_of (ev_cmd ev).
Definition ev_ok (ev : Event) : bool :=
  match ev_res ev with inr _ => true | inl _ => false end.
Definition ev_exn (ev : Event) : option exn :=
  match ev_res ev with inl e => Some e | inr _ => None end.

Definition tags (tr : list Event) : list Tag := ev_tag <$> tr.

Definition succeeded {A} (r : exn + A) : bool :=
  match r with inr _ => true | inl _ => false end.

(** ** The shapes a run can take

    A path through a program: the names of the calls made, and the value
    returned, if the program came to its end. *)
Fixpoint path {A} (p : Prog A) (w : list Tag) (r : option A) : Prop :=
  match p with
  | Ret a => w = [] ∧ r = Some a
  | Raise e => w = [] ∧ r = None
  | Call c k =>
      (w = [tag_of c] ∧ r = None) ∨
      (∃ x w', w = tag_of c :: w' ∧ path (k x) w' r)
  end.

(** A set of complete words; a program conforms to it when each of its
    finished paths is one of the words and each interrupted path is the
    beginning of one. *)
Abbreviation Lang := (list (list Tag)).

Definition admits {A} (L : Lang) (w : list Tag) (r : option A) : Prop :=
  match r with
  | Some _ => w ∈ L
  | None => ∃ w', w' ∈ L ∧ w `prefix_of` w'
  end.

Definition conforms {A} (p : Prog A) (L : Lang) : Prop :=
  ∀ w r, path p w r → admits L w r.

Definition returned {A} (r : exn + A) : option A :=
  match r with inr a => Some a | inl _ => None end.

(** All the beginnings of a word. *)
Fixpoint inits {A} (w : list A) : list (list A) :=
  match w with
  | [] => [[]]
  | x :: w' => [] :: ((x ::.) <$> inits w')
  end.

(** A property of call sequences holds of every beginning of every word. *)
Definition holds_on (L : Lang) (P : list Tag → bool) : bool :=
  forallb (λ w, forallb P (inits w)) L.

Definition lang_app (L1 L2 : Lang) : Lang :=
  w1 ← L1; w2 ← L2; [w1 ++ w2].

Definition lang_seq (Ls : list Lang) : Lang := foldr lang_app [[]] Ls.

(** ** A world to run in *)

(** Modelled from the spec: the collaborators of [runMOFA] whose code is not
    part of [build_model.py] ([maskData], [initModel] and its [init*]
    methods, [getNodes], the nodes' [addMarkovBlanket], [BayesNet] with
    [iterate], [saveModel]).  The spec has the engine "single-threaded and
    synchronous", "a deterministic, ordered sequence of node updates", with
    the "process-wide mutable generator" as its only source of randomness:
    a collaborator is a function of its arguments, of the objects of the
    model and of the state of the global generator, and changes nothing
    else. *)
Record Collab := {
  Rng : Type;                  (* state of the global generator *)
  Model : Type;                (* the [init] object, its nodes, the network *)
  seed_gen : Z → exn + Rng;    (* [s.random.seed] *)
  mask_data : Data → PyDict → Rng → exn + (Data * Rng);
  init_model : Dim → Data → PyVal → Z → Rng → exn + (ref * Model * Rng);
  model_call : ∀ X, Cmd X → Model → Rng → exn + (X * Model * Rng);
}.

Record World (C : Collab) := {
  w_clock : float;             (* what [time()] returns *)
  w_dirs : gset string;        (* the directories that exist *)
  w_out : list string;         (* the lines printed *)
  w_rng : Rng C;
  w_model : option (Model C);
}.

Arguments w_clock {C} w.
Arguments w_dirs {C} w.
Arguments w_out {C} w.
Arguments w_rng {C} w.
Arguments w_model {C} w.

Definition set_clock {C} (t : float) (w : World C) : World C :=
  {| w_clock := t; w_dirs := w_dirs w; w_out := w_out w;
     w_rng := w_rng w; w_model := w_model w |}.
Definition set_dirs {C} (d : gset string) (w : World C) : World C :=
  {| w_clock := w_clock w; w_dirs := d; w_out := w_out w;
     w_rng := w_rng w; w_model := w_model w |}.
Definition set_out {C} (o : list string) (w : World C) : World C :=
  {| w_clock := w_clock w; w_dirs := w_dirs w; w_out := o;
     w_rng := w_rng w; w_model := w_model w |}.
Definition set_rng {C} (g : Rng C) (w : World C) : World C :=
  {| w_clock := w_clock w; w_dirs := w_dirs w; w_out := w_out w;
     w_rng := g; w_model := w_model w |}.
Definition set_model {C} (m : option (Model C)) (w : World C) : World C :=
  {| w_clock := w_clock w; w_dirs := w_dirs w; w_out := w_out w;
     w_rng := w_rng w; w_model := m |}.

(** [os.makedirs]: the path and the directories above it are created; the
    empty path and an existing directory are refused.  The world holds
    directories only, no regular files. *)
Fixpoint ancestors (fuel : nat) (p : string) : list string :=
  match fuel with
  | O => []
  | S fuel' =>
      let d := dirname p in
      if bool_decide (d = "" ∨ d = p) then [] else d :: ancestors fuel' d
  end.

Definition os_makedirs (p : string) (dirs : gset string) : exn + gset string :=
  if bool_decide (p = "") then inl (Raised "OSError: no such file or directory")
  else if bool_decide (p ∈ dirs) then inl (Raised "OSError: file exists")
  else inr (dirs ∪ {[p]} ∪ list_to_set (ancestors (String.length p) p)).

Definition world_handler (C : Collab) : Handler (World C) :=
  λ X c w,
    match c in Cmd X return (exn + X) * World C with
    | Time => (inr (w_clock w), w)
    | RandomSeed z =>
        match seed_gen C z with
        | inl e => (inl e, w)
        | inr g => (inr tt, set_rng g w)
        end
    | IsDir p => (inr (bool_decide (p ∈ w_dirs w)), w)
    | MakeDirs p =>
        match os_makedirs p (w_dirs w) with
        | inl e => (inl e, w)
        | inr d => (inr tt, set_dirs d w)
        end
    | Print l => (inr tt, set_out (w_out w ++ [l]) w)
    | Sleep n => (inr tt, set_clock (float_add (w_clock w) (float_of_Z n)) w)
    | MaskData d o =>
        match mask_data C d o (w_rng w) with
        | inl e => (inl e, w)
        | inr (d', g) => (inr d', set_rng g w)
        end
    | InitModel dim d lik seed =>
        match init_model C dim d lik seed (w_rng w) with
        | inl e => (inl e, w)
        | inr (r, m, g) => (inr r, set_model (Some m) (set_rng g w))
        end
    | c' =>
        match w_model w with
        | None => (inl (Raised "no model"), w)
        | Some m =>
            match model_call C _ c' m (w_rng w) with
            | inl e => (inl e, w)
            | inr (x, m', g) => (inr x, set_model (Some m') (set_rng g w))
            end
        end
    end.

(** ** A registry of nodes, to run examples in

    Modelled from the spec: [initModel], [getNodes], [addMarkovBlanket] and
    [BayesNet] as "a registry of nodes by name", "the registry, not any
    individual node, owns all node lifetimes"; a node is built by the
    initialiser named after it and holds the neighbours attached to it by
    name.  What a node computes is not modelled: [iterate] only records the
    state of the generator it ran with, as a stand-in for the final ELBO.
    A likelihood tag outside the known ones is refused by [initModel],
    masking options that do not match the views by [maskData]. *)
Record Node := {
  n_id : ref;
  n_made_by : Tag;
  n_args : kwargs;
  n_blanket : list (string * ref);
}.

Record Net := {
  net_dim : Dim;
  net_schedule : PyVal;
  net_nodes : gmap string ref;
  net_options : PyDict;
  net_elbo : option Z;
}.

Record Registry := {
  r_nodes : gmap string Node;
  r_next : ref;
  r_net : option Net;
}.

Definition register (name : string) (by_ : Tag) (kw : kwargs) (m : Registry)
    : Registry :=
  {| r_nodes := <[name := {| n_id := r_next m; n_made_by := by_; n_args := kw;
                             n_blanket := [] |}]> (r_nodes m);
     r_next := S (r_next m);
     r_net := r_net m |}.

Definition attach (id : ref) (bl : list (string * ref)) (n : Node) : Node :=
  if bool_decide (n_id n = id)
  then {| n_id := n_id n; n_made_by := n_made_by n; n_args := n_args n;
          n_blanket := bl |}
  else n.

Definition has_id (id : ref) (m : Registry) : bool :=
  bool_decide (Exists (λ kn, n_id kn.2 = id) (map_to_list (r_nodes m))).

Definition set_net (n : Net) (m : Registry) : Registry :=
  {| r_nodes := r_nodes m; r_next := r_next m; r_net := Some n |}.

Definition known_likelihoods : list string :=
  ["gaussian"; "poisson"; "bernoulli"; "binomial"; "warp"].

Definition known_tag (v : PyVal) : bool :=
  match v with
  | VStr s => bool_decide (s ∈ known_likelihoods)
  | _ => false
  end.

(** Modelled from the spec: [maskData] in the registry refuses a
    "dimension mismatch between a view's data and its mask";
    [maskAtRandom] and [maskNSamples] are to hold one entry for each
    view. *)
Definition per_view (data : Data) (o : option PyVal) : bool :=
  match o with
  | Some (VList l) => bool_decide (length l = length data)
  | _ => false
  end.

Definition registry_mask (data : Data) (data_opts : PyDict) (g : Z)
    : exn + (Data * Z) :=
  if per_view data (data_opts !! "maskAtRandom")
     && per_view data (data_opts !! "maskNSamples")
  then inr (data, g + 1)
  else inl (Raised "mask options do not match the data").

Definition registry_init (dim : Dim) (data : Data) (lik : PyVal) (seed : Z)
    (g : Z) : exn + (ref * Registry * Z) :=
  match lik with
  | VList l =>
      if negb (forallb known_tag l) then inl (Raised "unknown likelihood")
      else if negb (bool_decide (length l = dim_M dim))
      then inl (Raised "one likelihood per view expected")
      else inr (O, {| r_nodes := ∅; r_next := 1%nat; r_net := None |}, g)
  | _ => inl (Raised "likelihoods: list expected")
  end.

Definition registry_call (X : Type) (c : Cmd X) (m : Registry) (g : Z)
    : exn + (X * Registry * Z) :=
  match c in Cmd X return exn + (X * Registry * Z) with
  | InitZ _ kw => inr (tt, register "Z" TInitZ kw m, g)
  | InitSW _ kw => inr (tt, register "SW" TInitSW kw m, g)
  | InitAlphaW_mk _ kw => inr (tt, register "AlphaW" TInitAlphaW_mk kw m, g)
  | InitTau _ kw => inr (tt, register "Tau" TInitTau kw m, g)
  | InitThetaMixed _ kw => inr (tt, register "Theta" TInitThetaMixed kw m, g)
  | InitThetaConst _ kw => inr (tt, register "Theta" TInitThetaConst kw m, g)
  | InitY _ => inr (tt, register "Y" TInitY [] m, g)
  | GetNodes _ => inr (n_id <$> r_nodes m, m, g)
  | AddMarkovBlanket id bl =>
      if has_id id m
      then inr (tt, {| r_nodes := attach id bl <$> r_nodes m;
                       r_next := r_next m; r_net := r_net m |}, g)
      else inl (Raised "no such node")
  | BayesNet dim schedule nodes options =>
      inr (O, set_net {| net_dim := dim; net_schedule := schedule;
                         net_nodes := nodes; net_options := options;
                         net_elbo := None |} m, g)
  | Iterate _ =>
      match r_net m with
      | Some n =>
          inr (tt, set_net {| net_dim := net_dim n;
                              net_schedule := net_schedule n;
                              net_nodes := net_nodes n;
                              net_options := net_options n;
                              net_elbo := Some g |} m, g + 1)
      | None => inl (Raised "no network")
      end
  | SaveModel _ _ _ _ _ _ _ => inr (tt, m, g)
  | _ => inl (Raised "not a call on the model")
  end.

Definition registry : Collab := {|
  Rng := Z;
  Model := Registry;
  seed_gen := λ z,
    if bool_decide (0 ≤ z < 2 ^ 32) then inr z
    else inl (Raised "ValueError: seed out of range");
  mask_data := registry_mask;
  init_model := registry_init;
  model_call := registry_call;
|}.

(** The neighbours attached to the node registered under [name]. *)
Definition blanket_of (m : Registry) (name : string) : option (list (string * ref)) :=
  n_blanket <$> r_nodes m !! name.

Definition final_elbo (w : World registry) : option Z :=
  m ← w_model w; n ← r_net m; net_elbo n.

Definition final_K (w : World registry) : option PyVal :=
  m ← w_model w; n ← r_net m; Some (dim_K (net_dim n)).

(** ** Example inputs *)

Definition dict (l : list (string * PyVal)) : PyDict := list_to_map l.

Definition num (z : Z) : PyVal := VNum (Q2Qc (inject_Z z)).
Definition half : PyVal := VNum (Q2Qc (1 # 2)).

Definition ex_data : Data :=
  [ {| df_index := ["s1"; "s2"]; df_columns := ["f1"; "f2"; "f3"];
       df_values := [[Some 1%Qc; None; Some 0%Qc]; [Some 0%Qc; Some 1%Qc; None]] |} ].

Definition ex_data_opts (outfile : string) : PyDict :=
  dict [("outfile", VStr outfile); ("view_names", VList [VStr "g"]);
        ("covariates", VNone); ("scale_covariates", VNone)].

Definition ab (a b : PyVal) : PyVal := VDict (dict [("a", a); ("b", b)]).
Definition abE (a b E : PyVal) : PyVal := VDict (dict [("a", a); ("b", b); ("E", E)]).

Definition ex_model_opts (sparsity : PyVal) : PyDict :=
  dict [("factors", num 2);
        ("likelihoods", VList [VStr "gaussian"]);
        ("schedule", VList [VStr "SW"; VStr "Z"; VStr "AlphaW"; VStr "Theta"; VStr "Tau"]);
        ("sparsity", sparsity);
        ("priorZ", VDict (dict [("mean", num 0); ("var", num 1)]));
        ("initZ", VDict (dict [("mean", VStr "random"); ("var", num 1);
                               ("E", VNone); ("E2", VNone)]));
        ("priorSW", VDict (dict [("Theta", VNaN); ("mean_S0", VNaN); ("var_S0", VNaN);
                                 ("mean_S1", VNaN); ("var_S1", VNaN)]));
        ("initSW", VDict (dict [("Theta", half); ("mean_S0", num 0); ("var_S0", VNaN);
                                ("mean_S1", num 0); ("var_S1", num 1);
                                ("EW_S0", VNone); ("EW_S1", VNone); ("ES", VNone)]));
        ("priorAlphaW", ab (num 1) (num 1));
        ("initAlphaW", abE VNaN VNaN (num 1));
        ("priorTau", ab (num 1) (num 1));
        ("initTau", abE VNaN VNaN (num 100));
        ("priorTheta", ab (num 1) (num 1));
        ("initTheta", abE (num 1) (num 1) (num 1))].

Definition ex_train_opts : PyDict :=
  dict [("maxiter", num 10); ("tolerance", VNum (Q2Qc (1 # 100)));
        ("forceiter", VBool true); ("elbofreq", num 1)].

(** Clock readings: the floats [1.0], [1700000000.123456] and
    [1700000000.987654]. *)
Definition at_1 : float := SpecFloat.S754_finite false 4503599627370496 (-52).
Definition at_123456 : float := SpecFloat.S754_finite false 7130316800517812 (-22).
Definition at_987654 : float := SpecFloat.S754_finite false 7130316804142521 (-22).

Definition ex_world (clock : float) (dirs : list string) (g : Z) : World registry :=
  Build_World registry clock (list_to_set dirs) [] g None.

Definition ones : PyVal := VList [VList [num 1; num 1]].
Definition zeros : PyVal := VList [VList [num 0; num 0]].
Definition mixed : PyVal := VList [VList [num 1; num 0]].
Definition halves : PyVal := VList [VList [half; half]].

(** ** The words of [runMOFA]

    The names of the calls of each section, in the order made. *)
Definition banner_w : list Tag := [TPrint; TPrint; TPrint; TPrint; TPrint].

Definition L_set_seed : Lang := [[TTime; TRandomSeed]; [TRandomSeed]].
Definition L_sanity : Lang := [[TIsDir]; [TIsDir; TPrint; TMakeDirs]].
Definition L_parse : Lang := [[]; [TMaskData]].
Definition L_dim : Lang := [banner_w ++ [TSleep; TPrint]].
Definition L_theta : Lang := [[TInitThetaMixed]; [TInitThetaConst]; []].
Definition L_init (Ltheta : Lang) : Lang :=
  lang_seq [[[TInitModel]]; [[TInitZ]]; [[TInitSW]]; [[TInitAlphaW_mk]];
            [[TInitTau]]; Ltheta; [[TInitY]]].
Definition L_blankets : Lang := [TGetNodes :: replicate 6 TAddMarkovBlanket].
Definition L_net : Lang := [[TGetNodes; TBayesNet]].
Definition L_train : Lang := [banner_w ++ [TSleep; TIterate]].
Definition L_save : Lang := [banner_w ++ [TPrint; TSaveModel]].

Definition L_runMOFA (Lseed Ltheta : Lang) : Lang :=
  lang_seq [Lseed; L_sanity; L_parse; L_dim; L_init Ltheta; L_blankets;
            L_net; L_train; L_save].

Definition lang_sub (L L' : Lang) : bool :=
  forallb (λ w, bool_decide (w ∈ L')) L.

(** ** Observations on a run *)

(** Every [b] in the word has one of [as_] somewhere before it. *)
Fixpoint precedes_from (seen : bool) (as_ : list Tag) (b : Tag) (w : list Tag) : bool :=
  match w with
  | [] => true
  | t :: w' =>
      (if bool_decide (t = b) then seen else true)
      && precedes_from (seen || bool_decide (t ∈ as_)) as_ b w'
  end.

Definition precedes (a b : Tag) (w : list Tag) : bool := precedes_from false [a] b w.
Definition precedes_any (as_ : list Tag) (b : Tag) (w : list Tag) : bool :=
  precedes_from false as_ b w.

(** No [a] in the word comes after a [b]. *)
Fixpoint never_after (a b : Tag) (w : list Tag) : bool :=
  match w with
  | [] => true
  | t :: w' =>
      (if bool_decide (t = b) then bool_decide (a ∉ w') else true)
      && never_after a b w'
  end.

(** The word up to its first [b]. *)
Fixpoint take_until (b : Tag) (w : list Tag) : list Tag :=
  match w with
  | [] => []
  | t :: w' => if bool_decide (t = b) then [] else t :: take_until b w'
  end.

(** How many [a] the word has before its first [b] (or in all, without [b]). *)
Definition count_before (a b : Tag) (w : list Tag) : nat :=
  length (filter (λ t, t = a) (take_until b w)).

(** The calls that build or wire the model. *)
Definition construction_tags : list Tag :=
  [TInitModel; TInitZ; TInitSW; TInitAlphaW_mk; TInitTau; TInitThetaMixed;
   TInitThetaConst; TInitY].

Definition config_tags : list Tag :=
  TMaskData :: construction_tags ++ [TGetNodes; TAddMarkovBlanket; TBayesNet].

(** Modelled from the spec: the validation that the spec places in
    [initModel] and [maskData], whose code is not part of
    [build_model.py]: "configuration validation errors (unknown likelihood
    tag, dimension mismatch between a view's data and its mask, ...) are
    fatal".  The likelihood tags [lik] are unknown to a handler, or the
    masking options [data_opts] do not fit the data for it, when it answers
    the call with an exception in whatever state the call is made. *)
Definition refuses_likelihoods {S} (h : Handler S) (lik : PyVal) : Prop :=
  ∀ dim data seed s, ∃ e, (h _ (InitModel dim data lik seed) s).1 = inl e.

(** Modelled from the spec: the same for [maskData], when the masking
    options do not fit the data. *)
Definition refuses_mask {S} (h : Handler S) (data : Data) (data_opts : PyDict) : Prop :=
  ∀ s, ∃ e, (h _ (MaskData data data_opts) s).1 = inl e.

(** The arguments of the [addMarkovBlanket] calls, in order. *)
Definition blanket_call (ev : Event) : option (ref * list (string * ref)) :=
  match ev_cmd ev with
  | AddMarkovBlanket n bl => Some (n, bl)
  | _ => None
  end.

Definition blankets_of (tr : list Event) : list (ref * list (string * ref)) :=
  omap blanket_call tr.

(** What [getNodes] returned, each time it was called. *)
Definition nodes_answer (ev : Event) : option (gmap string ref) :=
  match ev with
  | Ev _ (GetNodes _) (inr nodes) => Some nodes
  | _ => None
  end.

Definition nodes_seen (tr : list Event) : list (gmap string ref) :=
  omap nodes_answer tr.

(** The seeds given to the generator, the clock readings, the lines printed,
    the seeds given to [initModel]. *)
Definition seed_call (ev : Event) : option Z :=
  match ev_cmd ev with RandomSeed z => Some z | _ => None end.

Definition clock_answer (ev : Event) : option float :=
  match ev with Ev _ Time (inr t) => Some t | _ => None end.

Definition print_call (ev : Event) : option string :=
  match ev_cmd ev with Print l => Some l | _ => None end.

Definition seeds_set (tr : list Event) : list Z := omap seed_call tr.

(** [n] is the integer nearest to the number [± m * 2^e], and of two that
    are as near the one away from zero. *)
Definition nearest_integer (sg : bool) (m : positive) (e : Z) (n : Z) : Prop :=
  let num := Z.pos m * 2 ^ Z.max e 0 in
  let den := 2 ^ Z.max (- e) 0 in
  (if sg then n ≤ 0 else 0 ≤ n) ∧
  (2 * Z.abs n - 1) * den ≤ 2 * num < (2 * Z.abs n + 1) * den.
Definition clock_reads (tr : list Event) : list float := omap clock_answer tr.
Definition printed (tr : list Event) : list string := omap print_call tr.

(** The [initAlphaW_mk] calls. *)
Definition alphaW_call (ev : Event) : option (ref * kwargs) :=
  match ev_cmd ev with InitAlphaW_mk i kw => Some (i, kw) | _ => None end.

Definition alphaW_calls (tr : list Event) : list (ref * kwargs) :=
  omap alphaW_call tr.

(** The six nodes [runMOFA] wires. *)
Definition node_names : list string := ["Z"; "SW"; "AlphaW"; "Tau"; "Theta"; "Y"].

(** A run in the registry world, from a world where [/tmp] exists. *)
Definition ex_run (outfile : string) (model_opts : PyDict) (seed : option Z)
    (clock : float) : list Event * (exn + unit) * World registry :=
  run (world_handler registry)
      (runMOFA ex_data (ex_data_opts outfile) model_opts ex_train_opts seed)
      (ex_world clock ["/tmp"] 0).

(** Model options with a likelihood tag the registry does not know. *)
Definition ex_unknown_likelihood : PyDict :=
  <["likelihoods" := VList [VStr "cauchy"]]> (ex_model_opts ones).

(** Model options that name an ARD mode, as the test script does. *)
Definition with_ard (mode : string) : PyDict :=
  <["ardW" := VStr mode]> (ex_model_opts ones).

(** The keys of [model_opts] that [runMOFA] reads. *)
Definition keys_read : list string :=
  ["factors"; "likelihoods"; "priorZ"; "initZ"; "priorSW"; "initSW";
   "priorAlphaW"; "initAlphaW"; "priorTau"; "initTau"; "sparsity";
   "priorTheta"; "initTheta"; "schedule"].

Definition alphaW_order (w : list Tag) : bool :=
  precedes TInitSW TInitAlphaW_mk w && precedes TInitAlphaW_mk TInitTau w
  && bool_decide (length (filter (λ t, t = TInitAlphaW_mk) w) ≤ 1)%nat.

(** A Python value that counts as true. *)
Inductive Truthy : PyVal → Prop :=
| Truthy_true : Truthy (VBool true)
| Truthy_num q : q ≠ 0%Qc → Truthy (VNum q)
| Truthy_nan : Truthy VNaN
| Truthy_str s : s ≠ "" → Truthy (VStr s)
| Truthy_list l : l ≠ [] → Truthy (VList l)
| Truthy_dict d : d ≠ ∅ → Truthy (VDict d).

(** What iterating a value yields: the items of a list, the characters of
    a string, the keys of a dictionary; other values cannot be iterated. *)
Definition entries (v : PyVal) : option (list PyVal) :=
  match v with
  | VList l => Some l
  | VStr s => Some ((λ c, VStr (String c "")) <$> list_ascii_of_string s)
  | VDict d => Some (VStr <$> (map_to_list d).*1)
  | _ => None
  end.

Definition some_truthy (o : option PyVal) : Prop :=
  ∃ v l x, o = Some v ∧ entries v = Some l ∧ x ∈ l ∧ Truthy x.

Definition none_truthy (o : option PyVal) : Prop :=
  ∃ v l, o = Some v ∧ entries v = Some l ∧ ∀ x, x ∈ l → ¬ Truthy x.

(** When masking is asked for: one of the two keys is there, and an entry
    of [maskAtRandom] is truthy or, none of them being so, an entry of
    [maskNSamples] is. *)
Definition mask_requested (data_opts : PyDict) : Prop :=
  (is_Some (data_opts !! "maskAtRandom") ∨ is_Some (data_opts !! "maskNSamples")) ∧
  (some_truthy (data_opts !! "maskAtRandom") ∨
   (none_truthy (data_opts !! "maskAtRandom") ∧
    some_truthy (data_opts !! "maskNSamples"))).

(** Data options that ask for masking, with and without [maskAtRandom]. *)
Definition ex_mask_opts : PyDict :=
  <["maskAtRandom" := VList [num 0]]>
    (<["maskNSamples" := VList [num 5]]> (ex_data_opts "/tmp/test.h5")).

Definition ex_mask_opts_partial : PyDict :=
  <["maskNSamples" := VList [num 5]]> (ex_data_opts "/tmp/test.h5").

(** Two masking fractions, for the one view of [ex_data]. *)
Definition ex_mask_mismatch : PyDict :=
  <["maskAtRandom" := VList [half; half]]>
    (<["maskNSamples" := VList [num 0; num 0]]> (ex_data_opts "/tmp/test.h5")).

(** The lines [runMOFA] prints about the output directory and the seed. *)
Definition dir_notice : string := "Output directory does not exist, creating it...".

Definition seed_notice (z : Z) : string :=
  "Setting random seed " +:+ pretty z +:+ "..." +:+ nl.

(** The arguments of the [maskData] calls. *)
Definition mask_call (ev : Event) : option (Data * PyDict) :=
  match ev_cmd ev with MaskData d o => Some (d, o) | _ => None end.

Definition mask_calls (tr : list Event) : list (Data * PyDict) := omap mask_call tr.

(** The node registered under [name] at the end of a run: the initialiser
    that built it, its arguments, its blanket. *)
Definition node_at (w : World registry) (name : string) : option Node :=
  m ← w_model w; r_nodes m !! name.

(** The order of the sections, as properties of the sequence of calls:
    the wiring comes after the construction of the nodes, the network after
    the six wiring calls, the iteration after the network, and nothing that
    configures the model comes after the iteration has started. *)
Definition built_before_wiring (w : list Tag) : bool :=
  forallb (λ a, precedes a TAddMarkovBlanket w)
          [TInitModel; TInitZ; TInitSW; TInitAlphaW_mk; TInitTau; TInitY; TGetNodes].

Definition theta_before_wiring (w : list Tag) : bool :=
  precedes_any [TInitThetaMixed; TInitThetaConst] TAddMarkovBlanket w.

Definition wired_before_net (w : list Tag) : bool :=
  (if bool_decide (TBayesNet ∈ w)
   then bool_decide (count_before TAddMarkovBlanket TBayesNet w = 6%nat)
   else true)
  && never_after TAddMarkovBlanket TBayesNet w
  && bool_decide (length (filter (λ t, t = TAddMarkovBlanket) w) ≤ 6)%nat.

Definition net_before_iterate (w : list Tag) : bool :=
  precedes TBayesNet TIterate w && never_after TBayesNet TIterate w.

Definition config_before_iterate (w : list Tag) : bool :=
  forallb (λ c, never_after c TIterate w) config_tags.

(** The sanity check comes before the data is parsed and any node built. *)
Definition sanity_comes_first (w : list Tag) : bool :=
  forallb (λ c, precedes TIsDir c w && never_after TIsDir c w
                && never_after TMakeDirs c w)
          (TMaskData :: construction_tags).

(** A finished run has gone through all the sections. *)
Definition complete (w : list Tag) : bool :=
  forallb (λ t, bool_decide (t ∈ w))
          [TRandomSeed; TIsDir; TInitModel; TInitZ; TInitSW; TInitAlphaW_mk;
           TInitTau; TInitY; TGetNodes; TAddMarkovBlanket; TBayesNet; TIterate;
           TSaveModel].

Definition L_theta_built : Lang := [[TInitThetaMixed]; [TInitThetaConst]].

(** No word of the language uses one of the names [T]. *)
Definition lang_avoids (L : Lang) (T : list Tag) : bool :=
  forallb (forallb (λ t, bool_decide (t ∉ T))) L.

(** The nodes attached to [n] by the [addMarkovBlanket] calls. *)
Definition neighbours (bls : list (ref * list (string * ref))) (n : ref) : list ref :=
  bl ← filter (λ b, b.1 = n) bls; snd <$> bl.2.

(** What the distinct values of an array can be. *)
Definition only_value (l : list Qc) (c : Qc) : Prop :=
  l ≠ [] ∧ Forall (λ x, x = c) l.

Definition several_values (l : list Qc) : Prop :=
  ∃ x y, x ∈ l ∧ y ∈ l ∧ x ≠ y.

(** ** Programs and worlds, for determinism *)

(** Every call the program can make has a name that [P] accepts. *)
Fixpoint uses_only {A} (P : Tag → bool) (p : Prog A) : Prop :=
  match p with
  | Call c k => P (tag_of c) = true ∧ ∀ x, uses_only P (k x)
  | _ => True
  end.

(** The calls whose answer, in a world, depends on the generator and on the
    model only: all but the clock and the file system. *)
Definition deterministic_tag (t : Tag) : bool :=
  bool_decide (t ∉ [TTime; TIsDir; TMakeDirs]).

(** The calls that touch neither the generator nor the model. *)
Definition outside_tag (t : Tag) : bool :=
  bool_decide (t ∈ [TTime; TIsDir; TMakeDirs; TPrint; TSleep]).

(** Two worlds with the same generator state and the same model. *)
Definition same_model {C : Collab} (w1 w2 : World C) : Prop :=
  w_rng w1 = w_rng w2 ∧ w_model w1 = w_model w2.

Definition lang_within (L : Lang) (P : Tag → bool) : bool :=
  forallb (forallb P) L.

(** ** More observations on a run *)

(** The arguments of the [initModel] calls, and what they returned. *)
Definition initModel_call (ev : Event) : option (Dim * Data * PyVal * Z) :=
  match ev_cmd ev with InitModel dim d lik z => Some (dim, d, lik, z) | _ => None end.

Definition initModel_calls (tr : list Event) : list (Dim * Data * PyVal * Z) :=
  omap initModel_call tr.

Definition init_answer (ev : Event) : option ref :=
  match ev with Ev _ (InitModel _ _ _ _) (inr i) => Some i | _ => None end.

(** What [maskData] returned. *)
Definition mask_answer (ev : Event) : option Data :=
  match ev with Ev _ (MaskData _ _) (inr d) => Some d | _ => None end.

(** The data the model is built from (line 50 rebinds [data]): what
    [maskData] returned if it was called, the data given otherwise. *)
Definition modelled_data (data : Data) (tr : list Event) : Data :=
  default data (head (omap mask_answer tr)).

(** The arguments of the [sleep] calls. *)
Definition sleep_call (ev : Event) : option Z :=
  match ev_cmd ev with Sleep n => Some n | _ => None end.

Definition sleeps (tr : list Event) : list Z := omap sleep_call tr.

(** The answers of [os.path.isdir], with the paths asked about. *)
Definition isdir_answer (ev : Event) : option (string * bool) :=
  match ev with Ev _ (IsDir p) (inr b) => Some (p, b) | _ => None end.

Definition isdir_answers (tr : list Event) : list (string * bool) :=
  omap isdir_answer tr.

(** The arguments of the [BayesNet] calls, what they returned, and the
    networks [iterate] was called on. *)
Definition net_call (ev : Event) : option (Dim * PyVal * gmap string ref * PyDict) :=
  match ev_cmd ev with BayesNet d sch n o => Some (d, sch, n, o) | _ => None end.

Definition net_calls (tr : list Event) : list (Dim * PyVal * gmap string ref * PyDict) :=
  omap net_call tr.

Definition net_answer (ev : Event) : option ref :=
  match ev with Ev _ (BayesNet _ _ _ _) (inr n) => Some n | _ => None end.

Definition iterate_call (ev : Event) : option ref :=
  match ev_cmd ev with Iterate n => Some n | _ => None end.

Definition iterate_calls (tr : list Event) : list ref := omap iterate_call tr.

(** The arguments of the [saveModel] calls. *)
Record SaveArgs := {
  sv_net : ref;
  sv_outfile : PyVal;
  sv_view_names : PyVal;
  sv_sample_names : list string;
  sv_feature_names : list (list string);
  sv_train_opts : PyDict;
  sv_model_opts : PyDict;
}.

Definition save_call (ev : Event) : option SaveArgs :=
  match ev_cmd ev with
  | SaveModel net o v sn fn t m => Some (Build_SaveArgs net o v sn fn t m)
  | _ => None
  end.

Definition save_calls (tr : list Event) : list SaveArgs := omap save_call tr.

(** The lines of a banner, and all the lines [runMOFA] prints from the
    first banner on when it runs to its end with seed [z] and output file
    [outfile]. *)
Definition banner_lines (width : nat) (title : string) : list string :=
  [nl; str_repeat "#" width; title; str_repeat "#" width; nl].

Definition output_lines (z : Z) (outfile : string) : list string :=
  banner_lines 24 "## Building the model ##" ++ [seed_notice z] ++
  banner_lines 45 ("## Running MOFA with seed " +:+ pretty z +:+ " ##") ++
  banner_lines 43 "## Training finished, processing results ##" ++
  ["Saving model in " +:+ outfile +:+ "..." +:+ nl].

(** A program that cannot come to its end: every path through it stops at
    an exception. *)
Definition never_returns {A} (p : Prog A) : Prop :=
  ∀ w r, path p w r → r = None.

(** The keys of [model_opts] that [runMOFA] reads on every way to
    [BayesNet]. *)
Definition required_keys : list string :=
  ["factors"; "likelihoods"; "priorZ"; "initZ"; "priorSW"; "initSW";
   "priorAlphaW"; "initAlphaW"; "priorTau"; "initTau"; "sparsity"; "schedule"].

(** Two option dictionaries with the same entries under the keys that
    [runMOFA] reads. *)
Definition same_read (mo1 mo2 : PyDict) : Prop :=
  ∀ k, k ∈ keys_read → mo1 !! k = mo2 !! k.

(** The paths [os.makedirs] was called on. *)
Definition makedirs_call (ev : Event) : option string :=
  match ev_cmd ev with MakeDirs p => Some p | _ => None end.

Definition makedirs_calls (tr : list Event) : list string := omap makedirs_call tr.

(** The paths [os.path.isdir] was asked about. *)
Definition isdir_call (ev : Event) : option string :=
  match ev_cmd ev with IsDir p => Some p | _ => None end.

Definition isdir_calls (tr : list Event) : list string := omap isdir_call tr.

(** ** Where the keyword arguments of the initialisers come from *)

(** An argument is read from [model_opts[k1][k2]] or from [data_opts[k]]. *)
Inductive OptSource :=
| FromModel (k1 k2 : string)
| FromData (k : string).

Definition read_source (data_opts model_opts : PyDict) (src : OptSource)
    : option PyVal :=
  match src with
  | FromModel k1 k2 =>
      match model_opts !! k1 with
      | Some (VDict d) => d !! k2
      | _ => None
      end
  | FromData k => data_opts !! k
  end.

Fixpoint read_kwargs (data_opts model_opts : PyDict)
    (table : list (string * OptSource)) : option kwargs :=
  match table with
  | [] => Some []
  | (name, src) :: table' =>
      v ← read_source data_opts model_opts src;
      kw ← read_kwargs data_opts model_opts table';
      Some ((name, v) :: kw)
  end.

(** Lines 77-79, 82-84 and 91-92: keyword, and where its value is read. *)
Definition initZ_table : list (string * OptSource) :=
  [("pmean", FromModel "priorZ" "mean"); ("pvar", FromModel "priorZ" "var");
   ("qmean", FromModel "initZ" "mean"); ("qvar", FromModel "initZ" "var");
   ("qE", FromModel "initZ" "E"); ("qE2", FromModel "initZ" "E2");
   ("covariates", FromData "covariates");
   ("scale_covariates", FromData "scale_covariates")].

Definition initSW_table : list (string * OptSource) :=
  [("ptheta", FromModel "priorSW" "Theta");
   ("pmean_S0", FromModel "priorSW" "mean_S0");
   ("pvar_S0", FromModel "priorSW" "var_S0");
   ("pmean_S1", FromModel "priorSW" "mean_S1");
   ("pvar_S1", FromModel "priorSW" "var_S1");
   ("qtheta", FromModel "initSW" "Theta");
   ("qmean_S0", FromModel "initSW" "mean_S0");
   ("qvar_S0", FromModel "initSW" "var_S0");
   ("qmean_S1", FromModel "initSW" "mean_S1");
   ("qvar_S1", FromModel "initSW" "var_S1");
   ("qEW_S0", FromModel "initSW" "EW_S0");
   ("qEW_S1", FromModel "initSW" "EW_S1");
   ("qES", FromModel "initSW" "ES")].

Definition initTau_table : list (string * OptSource) :=
  [("pa", FromModel "priorTau" "a"); ("pb", FromModel "priorTau" "b");
   ("qa", FromModel "initTau" "a"); ("qb", FromModel "initTau" "b");
   ("qE", FromModel "initTau" "E")].

(** The calls of [initZ], [initSW] and [initTau]: the object they are
    called on and their keyword arguments. *)
Definition initZ_call (ev : Event) : option (ref * kwargs) :=
  match ev_cmd ev with InitZ i kw => Some (i, kw) | _ => None end.

Definition initSW_call (ev : Event) : option (ref * kwargs) :=
  match ev_cmd ev with InitSW i kw => Some (i, kw) | _ => None end.

Definition initTau_call (ev : Event) : option (ref * kwargs) :=
  match ev_cmd ev with InitTau i kw => Some (i, kw) | _ => None end.

(** The calls of the Theta initialisers, and where their keyword arguments
    are read (lines 101-103, 109 and 111-113); [initThetaMixed] gets the
    sparsity array as well. *)
Definition thetaMixed_call (ev : Event) : option (ref * kwargs) :=
  match ev_cmd ev with InitThetaMixed i kw => Some (i, kw) | _ => None end.

Definition thetaConst_call (ev : Event) : option (ref * kwargs) :=
  match ev_cmd ev with InitThetaConst i kw => Some (i, kw) | _ => None end.

Definition initThetaMixed_table : list (string * OptSource) :=
  [("pa", FromModel "priorTheta" "a"); ("pb", FromModel "priorTheta" "b");
   ("qa", FromModel "initTheta" "a"); ("qb", FromModel "initTheta" "b");
   ("qE", FromModel "initTheta" "E")].

Definition initThetaConst_table : list (string * OptSource) :=
  [("value", FromModel "initTheta" "E")].

(** The keys of [data_opts] that [runMOFA] reads. *)
Definition data_keys_read : list string :=
  ["outfile"; "maskAtRandom"; "maskNSamples"; "covariates"; "scale_covariates";
   "view_names"].

Definition same_data_read (do1 do2 : PyDict) : Prop :=
  ∀ k, k ∈ data_keys_read → do1 !! k = do2 !! k.

(** The calls of a run of [runMOFA] that goes through all the sections,
    given those of the sections that can go one way or another: the seed,
    the sanity check, the masking and the Theta node. *)
Definition call_sequence (seedw sanityw maskw thetaw : list Tag) : list Tag :=
  seedw ++ sanityw ++ maskw ++
  replicate 5 TPrint ++ [TSleep; TPrint] ++
  [TInitModel; TInitZ; TInitSW; TInitAlphaW_mk; TInitTau] ++ thetaw ++ [TInitY] ++
  [TGetNodes] ++ replicate 6 TAddMarkovBlanket ++
  [TGetNodes; TBayesNet] ++
  replicate 5 TPrint ++ [TSleep; TIterate] ++
  replicate 5 TPrint ++ [TPrint; TSaveModel].

Definition call_sequences : Lang :=
  seedw ← [[TTime; TRandomSeed]; [TRandomSeed]];
  sanityw ← [[TIsDir]; [TIsDir; TPrint; TMakeDirs]];
  maskw ← [[]; [TMaskData]];
  thetaw ← [[TInitThetaMixed]; [TInitThetaConst]; []];
  [call_sequence seedw sanityw maskw thetaw].

(** * Properties *)

(** ** Runs *)

Section run_facts.
Context {S : Type} (h : Handler S).

Lemma run_bind {A B} (p : Prog A) (f : A → Prog B) (s : S) :
  run h (p ≫= f) s =
  match run h p s with
  | (tr, inl e, s') => (tr, inl e, s')
  | (tr, inr a, s') =>
      match run h (f a) s' with
      | (tr', r, s'') => (tr ++ tr', r, s'')
      end
  end.
Proof.
  unfold mbind, Prog_bind. revert s.
  induction p as [a|e|X c k IH]; intros s; simpl.
  - by destruct (run h (f a) s) as [[??]?].
  - done.
  - destruct (h X c s) as [[e|x] s']; [done|].
    rewrite IH. destruct (run h (k x) s') as [[tr [e|a]] s'']; [done|].
    by destruct (run h (f a) s'') as [[??]?].
Qed.

Lemma run_call {X} (c : Cmd X) (s : S) :
  run h (call c) s =
  match h X c s with
  | (inl e, s') => ([Ev X c (inl e)], inl e, s')
  | (inr x, s') => ([Ev X c (inr x)], inr x, s')
  end.
Proof. unfold call. simpl. by destruct (h X c s) as [[?|?]?]. Qed.

(** The calls made and the outcome of a run form a path. *)
Lemma run_path {A} (p : Prog A) (s : S) :
  path p (tags (trace_of (run h p s))) (returned (result_of (run h p s))).
Proof.
  revert s. induction p as [a|e|X c k IH]; intros s; simpl; [done..|].
  destruct (h X c s) as [[e|x] s']; [by left|].
  right. exists x. specialize (IH x s').
  destruct (run h (k x) s') as [[tr r] s'']. eauto.
Qed.

(** Only the last call of a run can have raised, and then its exception
    is the outcome of the run. *)
Lemma run_raised_last {A} (p : Prog A) (s : S) ev :
  ev ∈ trace_of (run h p s) → ev_ok ev = false →
  ∃ pre e, trace_of (run h p s) = pre ++ [ev] ∧ ev_exn ev = Some e ∧
           result_of (run h p s) = inl e ∧ Forall (λ ev', ev_ok ev' = true) pre.
Proof.
  revert s. induction p as [a|e|X c k IH]; intros s; simpl.
  - by intros ?%elem_of_nil.
  - by intros ?%elem_of_nil.
  - destruct (h X c s) as [[e|x] s'].
    + intros ->%list_elem_of_singleton _. by exists [], e.
    + specialize (IH x s'). destruct (run h (k x) s') as [[tr r] s''].
      unfold trace_of, result_of in *; simpl in *.
      intros [->|Hin]%elem_of_cons Hok; [done|].
      destruct (IH Hin Hok) as (pre & e & -> & ? & ? & ?).
      exists (Ev X c (inr x) :: pre), e. split_and!; try done.
      by constructor.
Qed.

Lemma run_returned_ok {A} (p : Prog A) (s : S) a :
  result_of (run h p s) = inr a →
  Forall (λ ev, ev_ok ev = true) (trace_of (run h p s)).
Proof.
  intros Hres. apply Forall_forall. intros ev Hin.
  destruct (ev_ok ev) eqn:Hok; [done|].
  destruct (run_raised_last p s ev Hin Hok) as (? & ? & _ & _ & Hr & _).
  congruence.
Qed.
End run_facts.

(** ** Conformance to a set of words *)

Lemma path_bind {A B} (p : Prog A) (f : A → Prog B) w r :
  path (p ≫= f) w r →
  (r = None ∧ path p w None) ∨
  (∃ w1 a w2, path p w1 (Some a) ∧ path (f a) w2 r ∧ w = w1 ++ w2).
Proof.
  unfold mbind, Prog_bind. revert w.
  induction p as [a|e|X c k IH]; intros w; simpl.
  - intros Hp. right. by exists [], a, w.
  - intros [-> ->]. by left.
  - intros [[-> ->]|(x & w' & -> & Hp)].
    + left. split; [done|]. by left.
    + destruct (IH x _ Hp) as [[-> Hp']|(w1 & a & w2 & Hp1 & Hp2 & ->)].
      * left. split; [done|]. right. eauto.
      * right. exists (tag_of c :: w1), a, w2. split_and!; [|done..]. right. eauto.
Qed.

Lemma elem_of_lang_app L1 L2 w1 w2 :
  w1 ∈ L1 → w2 ∈ L2 → w1 ++ w2 ∈ lang_app L1 L2.
Proof.
  intros H1 H2. unfold lang_app.
  apply list_elem_of_bind. exists w1. split; [|done].
  apply list_elem_of_bind. exists w2. split; [|done].
  by apply list_elem_of_singleton.
Qed.

Lemma conforms_ret {A} (a : A) : conforms (Ret a) [[]].
Proof. intros w r [-> ->]. simpl. by apply list_elem_of_singleton. Qed.

Lemma conforms_mret {A} (a : A) : conforms (mret a) [[]].
Proof. apply conforms_ret. Qed.

Lemma conforms_raise {A} (e : exn) : conforms (@Raise A e) [[]].
Proof. intros w r [-> ->]. exists []. split; [by apply list_elem_of_singleton|done]. Qed.

Lemma conforms_call {X} (c : Cmd X) : conforms (call c) [[tag_of c]].
Proof.
  intros w r [[-> ->]|(x & w' & -> & -> & ->)]; simpl.
  - exists [tag_of c]. split; [by apply list_elem_of_singleton|done].
  - by apply list_elem_of_singleton.
Qed.

Lemma conforms_bind {A B} (p : Prog A) (f : A → Prog B) L1 L2 :
  conforms p L1 → (∀ a, conforms (f a) L2) → L2 ≠ [] →
  conforms (p ≫= f) (lang_app L1 L2).
Proof.
  intros Hp Hf HL2 w r
    [[-> Hw]|(w1 & a & w2 & Hw1 & Hw2 & ->)]%path_bind.
  - destruct (Hp _ _ Hw) as (w' & Hin & Hpre). destruct L2 as [|w2 L2]; [done|].
    exists (w' ++ w2). split.
    + apply elem_of_lang_app; [done|]. by left.
    + by apply prefix_app_r.
  - specialize (Hp _ _ Hw1). specialize (Hf a _ _ Hw2). simpl in Hp.
    destruct r as [b|]; simpl in *.
    + by apply elem_of_lang_app.
    + destruct Hf as (w' & Hin & Hpre). exists (w1 ++ w'). split.
      * by apply elem_of_lang_app.
      * by apply prefix_app.
Qed.

Lemma conforms_weaken {A} (p : Prog A) L L' :
  conforms p L → L ⊆ L' → conforms p L'.
Proof.
  intros Hp Hsub w r Hw. specialize (Hp w r Hw).
  destruct r; simpl in *; [by apply Hsub|].
  destruct Hp as (w' & ? & ?). exists w'. split; [by apply Hsub|done].
Qed.

Lemma conforms_if {A} (b : bool) (p q : Prog A) L1 L2 :
  conforms p L1 → conforms q L2 → conforms (if b then p else q) (L1 ++ L2).
Proof.
  intros Hp Hq. destruct b.
  - eapply conforms_weaken; [done|]. intros w. rewrite elem_of_app. by left.
  - eapply conforms_weaken; [done|]. intros w. rewrite elem_of_app. by right.
Qed.

Lemma elem_of_inits {A} (v w : list A) : v `prefix_of` w → v ∈ inits w.
Proof.
  revert v. induction w as [|x w IH]; intros v [k Hk].
  - destruct v; [by left|done].
  - destruct v as [|y v]; simpl; [by left|].
    simplify_eq/=. right. apply list_elem_of_fmap. exists v. split; [done|].
    apply IH. by exists k.
Qed.

(** A property checked on the words holds of every run. *)
Lemma conforms_run {A} (p : Prog A) L (P : list Tag → bool) :
  conforms p L → holds_on L P = true →
  ∀ S (h : Handler S) s, P (tags (trace_of (run h p s))) = true.
Proof.
  intros Hp Hall S h s. specialize (Hp _ _ (run_path h p s)).
  unfold holds_on in Hall. rewrite forallb_forall in Hall.
  assert (∃ w, w ∈ L ∧ tags (trace_of (run h p s)) `prefix_of` w)
    as (w & Hin & Hpre).
  { destruct (returned _); simpl in Hp; [eauto|done]. }
  apply list_elem_of_In, Hall in Hin. rewrite forallb_forall in Hin.
  by apply Hin, list_elem_of_In, elem_of_inits.
Qed.

Lemma lang_sub_spec L L' : lang_sub L L' = true → L ⊆ L'.
Proof.
  unfold lang_sub. rewrite forallb_forall. intros H w Hin.
  apply list_elem_of_In, H in Hin. by apply bool_decide_eq_true in Hin.
Qed.

Lemma lang_app_nonempty L1 L2 : L1 ≠ [] → L2 ≠ [] → lang_app L1 L2 ≠ [].
Proof. by destruct L1, L2. Qed.

Lemma conforms_pure {A} (p : Prog A) :
  (∀ w r, path p w r → w = []) → conforms p [[]].
Proof.
  intros Hp w r Hw. rewrite (Hp _ _ Hw).
  destruct r; simpl; [by apply list_elem_of_singleton|].
  exists []. split; [by apply list_elem_of_singleton|done].
Qed.

(** The Python primitives make no call. *)
Lemma conforms_getitem d k : conforms (getitem d k) [[]].
Proof. unfold getitem. destruct (d !! k); [apply conforms_ret|apply conforms_raise]. Qed.

Lemma conforms_subscript v k : conforms (subscript v k) [[]].
Proof. destruct v; simpl; first [apply conforms_getitem|apply conforms_raise]. Qed.

Lemma conforms_getitem2 d k1 k2 : conforms (getitem2 d k1 k2) [[]].
Proof.
  apply (conforms_bind _ _ [[]] [[]]); [apply conforms_getitem| |done].
  intros v. apply conforms_subscript.
Qed.

Lemma conforms_as_str v : conforms (as_str v) [[]].
Proof. destruct v; simpl; first [apply conforms_ret|apply conforms_raise]. Qed.

Lemma conforms_py_any v : conforms (py_any v) [[]].
Proof. destruct v; simpl; first [apply conforms_ret|apply conforms_raise]. Qed.

Lemma conforms_np_unique v : conforms (np_unique v) [[]].
Proof.
  unfold np_unique. destruct (np_flatten v); [apply conforms_ret|apply conforms_raise].
Qed.

Lemma conforms_np_eq_truth u c : conforms (np_eq_truth u c) [[]].
Proof.
  destruct u as [|? [|??]]; simpl; first [apply conforms_ret|apply conforms_raise].
Qed.

Lemma conforms_of_result {A} (r : exn + A) : conforms (of_result r) [[]].
Proof. destruct r; simpl; [apply conforms_raise|apply conforms_ret]. Qed.

Lemma conforms_first_view data : conforms (first_view data) [[]].
Proof. destruct data; simpl; [apply conforms_raise|apply conforms_ret]. Qed.

Lemma conforms_getnode nodes name : conforms (getnode nodes name) [[]].
Proof.
  unfold getnode. destruct (nodes !! name); [apply conforms_ret|apply conforms_raise].
Qed.

Lemma conforms_mapM {A B} (f : A → Prog B) l :
  (∀ x, conforms (f x) [[]]) → conforms (mapM f l) [[]].
Proof.
  intros Hf. induction l as [|x l IH]; simpl; [apply conforms_ret|].
  apply (conforms_bind _ _ [[]] [[]]); [apply Hf| |done]. intros b.
  apply (conforms_bind _ _ [[]] [[]]); [apply IH| |done]. intros bs.
  apply conforms_ret.
Qed.

Create HintDb conf.
#[export] Hint Resolve conforms_getitem conforms_subscript conforms_getitem2
  conforms_as_str conforms_py_any conforms_np_unique conforms_np_eq_truth
  conforms_first_view conforms_getnode @conforms_of_result @conforms_call @conforms_ret
  @conforms_mret @conforms_raise : conf.

Lemma conforms_call_tag {X} (c : Cmd X) t : tag_of c = t → conforms (call c) [[t]].
Proof. intros <-. apply conforms_call. Qed.

(** Derive the words of a program from its text. *)
Ltac conf :=
  lazymatch goal with
  | |- conforms (mbind _ _) _ =>
      eapply conforms_bind; [conf | intros ?; conf | by vm_compute]
  | |- conforms (call ?c) _ =>
      let t := eval cbv in (tag_of c) in exact (conforms_call_tag c t eq_refl)
  | |- conforms (if _ then _ else _) _ => eapply conforms_if; conf
  | |- _ => solve [eauto with conf]
  end.

Ltac conf_sub :=
  eapply conforms_weaken; [conf | apply lang_sub_spec; by vm_compute].

Lemma conforms_banner n title : conforms (banner n title) [banner_w].
Proof. unfold banner. conf_sub. Qed.

#[export] Hint Resolve conforms_banner : conf.

Lemma conforms_set_seed seed : conforms (set_seed seed) L_set_seed.
Proof. unfold set_seed. destruct seed as [z|]; [case_bool_decide|]; conf_sub. Qed.

(** With a seed given (and not 0) the clock is not read. *)
Lemma conforms_set_seed_given z : z ≠ 0 → conforms (set_seed (Some z)) [[TRandomSeed]].
Proof. intros Hz. unfold set_seed. rewrite bool_decide_eq_false_2 by done. conf_sub. Qed.

Lemma conforms_sanity_checks data_opts : conforms (sanity_checks data_opts) L_sanity.
Proof. unfold sanity_checks. conf_sub. Qed.

Lemma conforms_parse_data data data_opts : conforms (parse_data data data_opts) L_parse.
Proof. unfold parse_data, py_or. conf_sub. Qed.

Lemma conforms_define_dim data model_opts seed :
  conforms (define_dim data model_opts seed) L_dim.
Proof. unfold define_dim. conf_sub. Qed.

Lemma conforms_ab_args model_opts p i : conforms (ab_args model_opts p i) [[]].
Proof. unfold ab_args. conf_sub. Qed.

#[export] Hint Resolve conforms_ab_args : conf.

Lemma conforms_initZ init data_opts model_opts :
  conforms (initZ init data_opts model_opts) [[TInitZ]].
Proof. unfold initZ. conf_sub. Qed.

Lemma conforms_initSW init model_opts : conforms (initSW init model_opts) [[TInitSW]].
Proof. unfold initSW. conf_sub. Qed.

Lemma conforms_initAlphaW init model_opts :
  conforms (initAlphaW init model_opts) [[TInitAlphaW_mk]].
Proof. unfold initAlphaW. conf_sub. Qed.

Lemma conforms_initTau init model_opts : conforms (initTau init model_opts) [[TInitTau]].
Proof. unfold initTau. conf_sub. Qed.

Lemma conforms_initThetaMixed init model_opts :
  conforms (initThetaMixed init model_opts) [[TInitThetaMixed]].
Proof. unfold initThetaMixed. conf_sub. Qed.

Lemma conforms_initThetaConst init model_opts :
  conforms (initThetaConst init model_opts) [[TInitThetaConst]].
Proof. unfold initThetaConst. conf_sub. Qed.

#[export] Hint Resolve conforms_initZ conforms_initSW conforms_initAlphaW
  conforms_initTau conforms_initThetaMixed conforms_initThetaConst : conf.

Lemma conforms_initTheta init model_opts : conforms (initTheta init model_opts) L_theta.
Proof. unfold initTheta. conf_sub. Qed.

Lemma conforms_bind_pure {A B} (p : Prog A) (f : A → Prog B) L :
  conforms p [[]] → (∀ a, conforms (f a) L) → L ≠ [] → conforms (p ≫= f) L.
Proof.
  intros Hp Hf HL. eapply conforms_weaken; [by apply conforms_bind|].
  intros w (w1 & Hw & ->%list_elem_of_singleton)%list_elem_of_bind.
  apply list_elem_of_bind in Hw as (w2 & ->%list_elem_of_singleton & Hw). done.
Qed.

Lemma lang_seq_nonempty Ls : Forall (λ L, L ≠ []) Ls → lang_seq Ls ≠ [].
Proof.
  induction 1 as [|L Ls HL _ IH]; simpl; [done|]. by apply lang_app_nonempty.
Qed.

Ltac lang_ne :=
  first [ done
        | apply lang_seq_nonempty; repeat (constructor; [done|]); constructor
        | apply lang_app_nonempty; lang_ne ].

(** One section of the program after the other. *)
Ltac conf_seq :=
  lazymatch goal with
  | |- conforms (mbind _ _) (lang_seq (_ :: _)) =>
      apply conforms_bind; [ | intros ? | try lang_ne ]
  | |- conforms (mbind _ _) (lang_app _ _) =>
      apply conforms_bind; [ | intros ? | try lang_ne ]
  end.

Lemma conforms_init_nodes dim data data_opts model_opts seed Ltheta :
  (∀ init, conforms (initTheta init model_opts) Ltheta) → Ltheta ≠ [] →
  conforms (init_nodes dim data data_opts model_opts seed) (L_init Ltheta).
Proof.
  intros Hth Hne. unfold init_nodes, L_init.
  apply conforms_bind_pure; [conf| |lang_ne]. intros lik.
  do 5 (conf_seq; [conf|]).
  conf_seq; [apply Hth|]. conf_seq; conf.
Qed.

Lemma conforms_addMarkovBlanket nodes owner neighbours :
  conforms (addMarkovBlanket nodes owner neighbours) [[TAddMarkovBlanket]].
Proof.
  unfold addMarkovBlanket.
  apply conforms_bind_pure; [conf| |done]. intros o.
  apply conforms_bind_pure; [|intros; conf|done].
  apply conforms_mapM. intros [kw name]. conf_sub.
Qed.

#[export] Hint Resolve conforms_addMarkovBlanket : conf.

Lemma conforms_markov_blankets init : conforms (markov_blankets init) L_blankets.
Proof. unfold markov_blankets. conf_sub. Qed.

Lemma conforms_build_net dim init model_opts train_opts :
  conforms (build_net dim init model_opts train_opts) L_net.
Proof. unfold build_net. conf_sub. Qed.

Lemma conforms_train net seed : conforms (train net seed) L_train.
Proof. unfold train. conf_sub. Qed.

Lemma conforms_save net data data_opts model_opts train_opts :
  conforms (save net data data_opts model_opts train_opts) L_save.
Proof. unfold save. conf_sub. Qed.

(** The calls of [runMOFA], given those of the seed and Theta sections. *)
Lemma conforms_runMOFA data data_opts model_opts train_opts seed Lseed Ltheta :
  conforms (set_seed seed) Lseed →
  (∀ init, conforms (initTheta init model_opts) Ltheta) → Ltheta ≠ [] →
  conforms (runMOFA data data_opts model_opts train_opts seed)
           (L_runMOFA Lseed Ltheta).
Proof.
  intros Hseed Hth Hne. unfold runMOFA, L_runMOFA.
  conf_seq; [done|].
  conf_seq; [apply conforms_sanity_checks|].
  conf_seq; [apply conforms_parse_data|].
  conf_seq; [apply conforms_define_dim|].
  conf_seq; [by apply conforms_init_nodes|].
  conf_seq; [apply conforms_markov_blankets|].
  conf_seq; [apply conforms_build_net|].
  conf_seq; [apply conforms_train|].
  apply conforms_save.
  all: unfold L_init; lang_ne.
Qed.

Lemma conforms_runMOFA_any data data_opts model_opts train_opts seed :
  conforms (runMOFA data data_opts model_opts train_opts seed)
           (L_runMOFA L_set_seed L_theta).
Proof.
  apply conforms_runMOFA; [apply conforms_set_seed| |done].
  intros. apply conforms_initTheta.
Qed.

(** ** The Theta section *)

Lemma np_unique_list_elem l x : x ∈ np_unique_list l ↔ x ∈ l.
Proof.
  unfold np_unique_list. rewrite merge_sort_Permutation. apply elem_of_remove_dups.
Qed.

Lemma np_unique_list_NoDup l : NoDup (np_unique_list l).
Proof.
  unfold np_unique_list. rewrite merge_sort_Permutation. apply NoDup_remove_dups.
Qed.

Lemma np_unique_list_only l c : only_value l c → np_unique_list l = [c].
Proof.
  intros [Hne Hall]. unfold np_unique_list.
  assert (remove_dups l = [c]) as ->; [|done].
  induction l as [|x l IH]; [done|].
  apply Forall_cons in Hall as [-> Hall].
  destruct l as [|y l]; [done|].
  change (remove_dups (c :: y :: l)) with
    (if decide_rel (∈) c (y :: l) then remove_dups (y :: l)
     else c :: remove_dups (y :: l)).
  destruct (decide_rel (∈) c (y :: l)) as [_|Hn]; [by apply IH|].
  destruct Hn. apply Forall_cons in Hall as [-> _]. by left.
Qed.

Lemma np_unique_list_several l : several_values l → (1 < length (np_unique_list l))%nat.
Proof.
  intros (x & y & Hx & Hy & Hxy).
  apply np_unique_list_elem in Hx, Hy.
  destruct (np_unique_list l) as [|a [|b u]]; simpl; [|exfalso|lia].
  - by apply elem_of_nil in Hx.
  - apply list_elem_of_singleton in Hx, Hy. congruence.
Qed.

Section theta.
Context (init : ref) (model_opts : PyDict) (v : PyVal) (l : list Qc).
Hypothesis Hsparsity : model_opts !! "sparsity" = Some v.
Hypothesis Harray : np_flatten v = Some l.

Lemma initTheta_unique :
  initTheta init model_opts =
  let u := np_unique_list l in
  if bool_decide (length u = 1%nat) then
    all_ ← np_eq_truth u 1%Qc;
    if (all_ : bool) then initThetaMixed init model_opts
    else none_ ← np_eq_truth u 0%Qc;
         if (none_ : bool) then initThetaConst init model_opts else mret tt
  else initThetaMixed init model_opts.
Proof.
  unfold initTheta, getitem. rewrite Hsparsity. cbn [mbind Prog_bind bind].
  unfold np_unique. rewrite Harray. cbn [mbind Prog_bind bind]. done.
Qed.

Lemma initTheta_all : only_value l 1%Qc → initTheta init model_opts = initThetaMixed init model_opts.
Proof. intros H. rewrite initTheta_unique, (np_unique_list_only _ _ H). done. Qed.

Lemma initTheta_none : only_value l 0%Qc → initTheta init model_opts = initThetaConst init model_opts.
Proof. intros H. rewrite initTheta_unique, (np_unique_list_only _ _ H). done. Qed.

Lemma initTheta_some : several_values l → initTheta init model_opts = initThetaMixed init model_opts.
Proof.
  intros H%np_unique_list_several. rewrite initTheta_unique. simpl.
  rewrite bool_decide_eq_false_2; [done|lia].
Qed.

(** A single value other than 0 and 1: no branch is taken, no node is
    built, nothing is raised. *)
Lemma initTheta_other c :
  only_value l c → c ≠ 0%Qc → c ≠ 1%Qc → initTheta init model_opts = mret tt.
Proof.
  intros H H0 H1. rewrite initTheta_unique, (np_unique_list_only _ _ H). simpl.
  rewrite !bool_decide_eq_false_2 by done. done.
Qed.
End theta.

(** ** A sparsity array with one value that is neither 0 nor 1 *)

(** C3. With every entry of the sparsity array equal to 0.5 the Theta
    section of [runMOFA] raises nothing and builds nothing: the run goes on
    to [initY], [getNodes] and the wiring of [Z], and stops only at the
    lookup [nodes["Theta"]]. *)
Theorem fractional_sparsity_not_rejected :
  initTheta 0 (ex_model_opts halves) = mret tt ∧
  tags (trace_of (ex_run "/tmp/test.h5" (ex_model_opts halves) (Some 7) at_1)) =
    [TRandomSeed; TIsDir] ++ banner_w ++
    [TSleep; TPrint; TInitModel; TInitZ; TInitSW; TInitAlphaW_mk; TInitTau;
     TInitY; TGetNodes; TAddMarkovBlanket] ∧
  forallb ev_ok
    (trace_of (ex_run "/tmp/test.h5" (ex_model_opts halves) (Some 7) at_1)) = true ∧
  result_of (ex_run "/tmp/test.h5" (ex_model_opts halves) (Some 7) at_1) =
    inl (KeyError "Theta").
Proof.
  split_and!.
  - apply initTheta_other with halves [Q2Qc (1 # 2); Q2Qc (1 # 2)] (Q2Qc (1 # 2));
      [reflexivity..| |discriminate|discriminate].
    split; [discriminate|repeat constructor].
  - by vm_compute.
  - by vm_compute.
  - by vm_compute.
Qed.

(** C5. At the same input the wiring starts although no Theta node was
    ever constructed: [nodes["Z"].addMarkovBlanket] is called and attaches
    its three neighbours to [Z], while no Theta initialiser has been called
    and the registry holds no node named [Theta]; the network is never
    built. *)
Theorem wiring_starts_without_theta :
  let r := ex_run "/tmp/test.h5" (ex_model_opts halves) (Some 7) at_1 in
  TAddMarkovBlanket ∈ tags (trace_of r) ∧
  (TInitThetaMixed ∉ tags (trace_of r)) ∧
  (TInitThetaConst ∉ tags (trace_of r)) ∧
  node_at (state_of r) "Theta" = None ∧
  n_blanket <$> node_at (state_of r) "Z" =
    Some [("SW", 2%nat); ("Tau", 4%nat); ("Y", 5%nat)] ∧
  (TBayesNet ∉ tags (trace_of r)) ∧
  (TIterate ∉ tags (trace_of r)).
Proof.
  split_and!; try (apply (bool_decide_unpack _); by vm_compute); by vm_compute.
Qed.

(** ** Taking a run apart, section by section *)

Section stages.
Context {S : Type} (h : Handler S).

Lemma run_conforms {A} (p : Prog A) L s tr r s' :
  conforms p L → run h p s = (tr, r, s') → admits L (tags tr) (returned r).
Proof.
  intros Hp Hrun. pose proof (Hp _ _ (run_path h p s)) as H.
  by rewrite Hrun in H.
Qed.

Lemma run_avoids {A} (p : Prog A) L T s tr r s' :
  conforms p L → lang_avoids L T = true → run h p s = (tr, r, s') →
  ∀ t, t ∈ tags tr → t ∉ T.
Proof.
  intros Hp Hav Hrun t Ht.
  assert (∃ w, w ∈ L ∧ tags tr `prefix_of` w) as (w & Hw & [k ->]).
  { pose proof (run_conforms p L s tr r s' Hp Hrun) as H.
    destruct (returned r); simpl in H; [eauto|done]. }
  unfold lang_avoids in Hav. rewrite forallb_forall in Hav.
  apply list_elem_of_In, Hav in Hw. rewrite forallb_forall in Hw.
  assert (t ∈ tags tr ++ k) as Hin by (apply elem_of_app; by left).
  apply list_elem_of_In, Hw in Hin. by apply bool_decide_eq_true in Hin.
Qed.

Lemma omap_avoids {B} (f : Event → option B) (t0 : Tag) (tr : list Event) :
  (∀ ev, is_Some (f ev) → ev_tag ev = t0) → t0 ∉ tags tr → omap f tr = [].
Proof.
  intros Hf Hno. induction tr as [|ev tr IH]; [done|]. simpl.
  destruct (f ev) eqn:Hev.
  - destruct Hno. rewrite <-(Hf ev) by (by rewrite Hev). by left.
  - apply IH. intros Hin. apply Hno. by right.
Qed.
End stages.

Lemma blanket_call_tag ev : is_Some (blanket_call ev) → ev_tag ev = TAddMarkovBlanket.
Proof. destruct ev as [X c r]. by destruct c; intros [? [=]]. Qed.

Lemma nodes_answer_tag ev : is_Some (nodes_answer ev) → ev_tag ev = TGetNodes.
Proof. destruct ev as [X c r]. by destruct c; intros [? [=]]. Qed.

Lemma seed_call_tag ev : is_Some (seed_call ev) → ev_tag ev = TRandomSeed.
Proof. destruct ev as [X c r]. by destruct c; intros [? [=]]. Qed.

Lemma clock_answer_tag ev : is_Some (clock_answer ev) → ev_tag ev = TTime.
Proof. destruct ev as [X c r]. by destruct c; intros [? [=]]. Qed.

Lemma print_call_tag ev : is_Some (print_call ev) → ev_tag ev = TPrint.
Proof. destruct ev as [X c r]. by destruct c; intros [? [=]]. Qed.

Lemma alphaW_call_tag ev : is_Some (alphaW_call ev) → ev_tag ev = TInitAlphaW_mk.
Proof. destruct ev as [X c r]. by destruct c; intros [? [=]]. Qed.

(** Name the parts of the run the goal is about. *)
Ltac start_run H :=
  lazymatch goal with
  | |- context [run ?h ?p ?s] =>
      let r := fresh "r" in
      remember (run h p s) as r eqn:H; symmetry in H;
      destruct r as [[?tr ?res] ?s];
      cbn [trace_of result_of state_of fst snd]
  end.

(** Split the run of equation [H] at its next section; [E] names the
    equation of that section. *)
Ltac stage H E :=
  rewrite run_bind in H;
  lazymatch type of H with
  | context [run ?h ?p ?s] =>
      destruct (run h p s) as [[?tr [?e|?a]] ?s] eqn:E
  end;
  cbv beta iota in H.

Ltac last_stage H E :=
  lazymatch type of H with
  | context [run ?h ?p ?s] =>
      destruct (run h p s) as [[?tr ?res] ?s] eqn:E
  end;
  cbv beta iota in H.

Lemma conforms_init_nodes_any dim data data_opts model_opts seed :
  conforms (init_nodes dim data data_opts model_opts seed) (L_init L_theta).
Proof. apply conforms_init_nodes; [|done]. intros. apply conforms_initTheta. Qed.

Create HintDb stagesdb.
#[export] Hint Resolve conforms_set_seed conforms_sanity_checks conforms_parse_data
  conforms_define_dim conforms_init_nodes_any conforms_markov_blankets
  conforms_build_net conforms_train conforms_save : stagesdb.

(** The section of equation [E] makes no call named in [T]. *)
Ltac avoid T E :=
  lazymatch type of E with
  | run ?h ?p ?s = (?tr, ?r, ?s') =>
      let H := fresh "Hav" in
      assert (∀ t, t ∈ tags tr → t ∉ T) as H
        by (eapply (run_avoids h p _ T s tr r s');
            [solve [eauto with stagesdb] | by vm_compute | exact E])
  end.

Lemma not_in_tags (T : list Tag) (t : Tag) (tr : list Event) :
  (∀ t', t' ∈ tags tr → t' ∉ T) → t ∈ T → t ∉ tags tr.
Proof. intros H Ht Hin. by apply (H t Hin). Qed.

(** Evaluate a section step by step in the equation [H] of its run. *)
Ltac run_step H :=
  match type of H with
  | context [match ?h ?X ?c ?s with _ => _ end] =>
      destruct (h X c s) as [[?e|?x] ?s] eqn:?; simpl in H
  | context [match ?m !! ?k with _ => _ end] =>
      destruct (m !! k) eqn:?; simpl in H
  | (_, inl _, _) = (_, inr _, _) => discriminate H
  | (_, inr _, _) = (_, inl _, _) => discriminate H
  end.

Lemma tags_app tr1 tr2 : tags (tr1 ++ tr2) = tags tr1 ++ tags tr2.
Proof. apply fmap_app. Qed.

(** A call named [t] was made, yet every section run so far avoids it. *)
Ltac absurd_tag Hin :=
  repeat rewrite tags_app in Hin; repeat rewrite elem_of_app in Hin;
  repeat match type of Hin with
         | _ ∨ _ => destruct Hin as [Hin|Hin]
         end;
  match goal with
  | Hav : ∀ t, t ∈ tags ?tr → t ∉ _ |- _ =>
      solve [destruct (Hav _ Hin); repeat constructor]
  end.

(** The sections that make no call named [t0] contribute nothing to the
    observation [f] of such calls. *)
Ltac quiet f t0 lem :=
  repeat match goal with
         | Hav : ∀ t, t ∈ tags ?tr → t ∉ ?T |- context [omap f ?tr] =>
             rewrite (omap_avoids f t0 tr lem)
               by (eapply not_in_tags; [exact Hav | solve [repeat constructor]])
         end.

Lemma conforms_after_wiring dim init data data_opts model_opts train_opts seed :
  conforms (build_net dim init model_opts train_opts ≫= λ net,
            train net seed ≫= λ _,
            save net data data_opts model_opts train_opts)
           (lang_seq [L_net; L_train; L_save]).
Proof.
  conf_seq; [apply conforms_build_net|].
  conf_seq; [apply conforms_train|]. apply conforms_save.
Qed.

#[export] Hint Resolve conforms_after_wiring : stagesdb.

(** ** The Markov blankets *)

Lemma markov_blankets_run {S} (h : Handler S) init s tr s' :
  run h (markov_blankets init) s = (tr, inr tt, s') →
  ∃ nodes z sw aw tau th y,
    nodes !! "Z" = Some z ∧ nodes !! "SW" = Some sw ∧
    nodes !! "AlphaW" = Some aw ∧ nodes !! "Tau" = Some tau ∧
    nodes !! "Theta" = Some th ∧ nodes !! "Y" = Some y ∧
    nodes_seen tr = [nodes] ∧
    blankets_of tr =
      [(z, [("SW", sw); ("Tau", tau); ("Y", y)]);
       (th, [("SW", sw)]);
       (aw, [("SW", sw)]);
       (sw, [("Z", z); ("Tau", tau); ("Alpha", aw); ("Y", y); ("Theta", th)]);
       (y, [("Z", z); ("SW", sw); ("Tau", tau)]);
       (tau, [("Z", z); ("SW", sw); ("Y", y)])].
Proof.
  intros H. unfold markov_blankets, addMarkovBlanket, getnode in H. simpl in H.
  repeat run_step H.
  injection H as <- _ _.
  eexists _, _, _, _, _, _, _. split_and!; [eassumption..|reflexivity|reflexivity].
Qed.

Lemma neighbours_elem bls n bl x :
  (n, bl) ∈ bls → x ∈ bl.*2 → x ∈ neighbours bls n.
Proof.
  intros Hin Hx. unfold neighbours. apply list_elem_of_bind.
  exists (n, bl). split; [done|]. by apply list_elem_of_filter.
Qed.

(** The wiring seen from a whole run: when the network gets built, the six
    calls have been made, on the nodes [getNodes] returned. *)
Lemma blankets_when_net_built {S} (h : Handler S) (s : S) (data : Data)
    (data_opts model_opts train_opts : PyDict) (seed : option Z) tr res s' :
  run h (runMOFA data data_opts model_opts train_opts seed) s = (tr, res, s') →
  TBayesNet ∈ tags tr →
  ∃ nodes z sw aw tau th y,
    head (nodes_seen tr) = Some nodes ∧
    nodes !! "Z" = Some z ∧ nodes !! "SW" = Some sw ∧
    nodes !! "AlphaW" = Some aw ∧ nodes !! "Tau" = Some tau ∧
    nodes !! "Theta" = Some th ∧ nodes !! "Y" = Some y ∧
    blankets_of tr =
      [(z, [("SW", sw); ("Tau", tau); ("Y", y)]);
       (th, [("SW", sw)]);
       (aw, [("SW", sw)]);
       (sw, [("Z", z); ("Tau", tau); ("Alpha", aw); ("Y", y); ("Theta", th)]);
       (y, [("Z", z); ("SW", sw); ("Tau", tau)]);
       (tau, [("Z", z); ("SW", sw); ("Y", y)])].
Proof.
  intros Hrun Hin. unfold runMOFA in Hrun.
  stage Hrun E1; avoid [TBayesNet; TAddMarkovBlanket; TGetNodes] E1;
    [injection Hrun as <- <- <-; absurd_tag Hin|].
  stage Hrun E2; avoid [TBayesNet; TAddMarkovBlanket; TGetNodes] E2;
    [injection Hrun as <- <- <-; absurd_tag Hin|].
  stage Hrun E3; avoid [TBayesNet; TAddMarkovBlanket; TGetNodes] E3;
    [injection Hrun as <- <- <-; absurd_tag Hin|].
  stage Hrun E4; avoid [TBayesNet; TAddMarkovBlanket; TGetNodes] E4;
    [injection Hrun as <- <- <-; absurd_tag Hin|].
  stage Hrun E5; avoid [TBayesNet; TAddMarkovBlanket; TGetNodes] E5;
    [injection Hrun as <- <- <-; absurd_tag Hin|].
  stage Hrun E6;
    [avoid [TBayesNet] E6; injection Hrun as <- <- <-; absurd_tag Hin|].
  last_stage Hrun E7; avoid [TAddMarkovBlanket] E7.
  injection Hrun as <- <- <-. destruct a4.
  destruct (markov_blankets_run h _ _ _ _ E6)
    as (nodes & z & sw & aw & tau & th & y & ? & ? & ? & ? & ? & ? & Hn & Hb).
  exists nodes, z, sw, aw, tau, th, y. split_and!; try done.
  - unfold nodes_seen in *. rewrite !omap_app.
    quiet nodes_answer TGetNodes nodes_answer_tag. by rewrite Hn.
  - unfold blankets_of in *. rewrite !omap_app.
    quiet blanket_call TAddMarkovBlanket blanket_call_tag.
    by rewrite app_nil_r.
Qed.

(** C4. In a run that gets as far as building the network, the
    [addMarkovBlanket] calls made are exactly these six, on the nodes that
    [getNodes] returned under the names [Z], [SW], [AlphaW], [Tau], [Theta],
    [Y]: Z gets SW, Tau, Y; Theta gets SW; AlphaW gets SW; SW gets Z, Tau,
    AlphaW (under the keyword [Alpha]), Y, Theta; Y gets Z, SW, Tau; Tau gets
    Z, SW, Y.  The relation is cyclic: SW is attached to Z and Z to SW. *)
Theorem markov_blankets_wired {S} (h : Handler S) (s : S) (data : Data)
    (data_opts model_opts train_opts : PyDict) (seed : option Z) :
  let r := run h (runMOFA data data_opts model_opts train_opts seed) s in
  TBayesNet ∈ tags (trace_of r) →
  ∃ nodes z sw aw tau th y,
    head (nodes_seen (trace_of r)) = Some nodes ∧
    nodes !! "Z" = Some z ∧ nodes !! "SW" = Some sw ∧
    nodes !! "AlphaW" = Some aw ∧ nodes !! "Tau" = Some tau ∧
    nodes !! "Theta" = Some th ∧ nodes !! "Y" = Some y ∧
    blankets_of (trace_of r) =
      [(z, [("SW", sw); ("Tau", tau); ("Y", y)]);
       (th, [("SW", sw)]);
       (aw, [("SW", sw)]);
       (sw, [("Z", z); ("Tau", tau); ("Alpha", aw); ("Y", y); ("Theta", th)]);
       (y, [("Z", z); ("SW", sw); ("Tau", tau)]);
       (tau, [("Z", z); ("SW", sw); ("Y", y)])] ∧
    sw ∈ neighbours (blankets_of (trace_of r)) z ∧
    z ∈ neighbours (blankets_of (trace_of r)) sw.
Proof.
  cbv zeta. start_run Hrun. intros Hin.
  destruct (blankets_when_net_built h _ _ _ _ _ _ _ _ _ Hrun Hin)
    as (nodes & z & sw & aw & tau & th & y & ? & ? & ? & ? & ? & ? & ? & Hb).
  exists nodes, z, sw, aw, tau, th, y. split_and!; try done.
  - rewrite Hb. eapply neighbours_elem; [by left|]. by left.
  - rewrite Hb. eapply neighbours_elem; [do 3 right; by left|]. by left.
Qed.

Lemma markov_blankets_wired_witness :
  let r := ex_run "/tmp/test.h5" (ex_model_opts mixed) (Some 7) at_1 in
  TBayesNet ∈ tags (trace_of r) ∧
  ∃ nodes z sw aw tau th y,
    head (nodes_seen (trace_of r)) = Some nodes ∧
    nodes !! "Z" = Some z ∧ nodes !! "SW" = Some sw ∧
    nodes !! "AlphaW" = Some aw ∧ nodes !! "Tau" = Some tau ∧
    nodes !! "Theta" = Some th ∧ nodes !! "Y" = Some y ∧
    blankets_of (trace_of r) =
      [(z, [("SW", sw); ("Tau", tau); ("Y", y)]);
       (th, [("SW", sw)]);
       (aw, [("SW", sw)]);
       (sw, [("Z", z); ("Tau", tau); ("Alpha", aw); ("Y", y); ("Theta", th)]);
       (y, [("Z", z); ("SW", sw); ("Tau", tau)]);
       (tau, [("Z", z); ("SW", sw); ("Y", y)])] ∧
    sw ∈ neighbours (blankets_of (trace_of r)) z ∧
    z ∈ neighbours (blankets_of (trace_of r)) sw.
Proof.
  assert (TBayesNet ∈ tags (trace_of
            (ex_run "/tmp/test.h5" (ex_model_opts mixed) (Some 7) at_1))) as Hin.
  { apply (bool_decide_unpack _). vm_compute. reflexivity. }
  split; [exact Hin|].
  exact (markov_blankets_wired (world_handler registry) _ _ _ _ _ _ Hin).
Defined.

(** In the registry, at the end of that run, each node holds the neighbours
    the claim lists, by identity of the nodes registered under the names. *)
Example registry_blankets :
  let w := state_of (ex_run "/tmp/test.h5" (ex_model_opts mixed) (Some 7) at_1) in
  (n_id <$> node_at w "Z", n_id <$> node_at w "SW", n_id <$> node_at w "AlphaW",
   n_id <$> node_at w "Tau", n_id <$> node_at w "Theta", n_id <$> node_at w "Y")
    = (Some 1, Some 2, Some 3, Some 4, Some 5, Some 6)%nat ∧
  n_blanket <$> node_at w "Z" = Some [("SW", 2); ("Tau", 4); ("Y", 6)]%nat ∧
  n_blanket <$> node_at w "Theta" = Some [("SW", 2)]%nat ∧
  n_blanket <$> node_at w "AlphaW" = Some [("SW", 2)]%nat ∧
  n_blanket <$> node_at w "SW" =
    Some [("Z", 1); ("Tau", 4); ("Alpha", 3); ("Y", 6); ("Theta", 5)]%nat ∧
  n_blanket <$> node_at w "Y" = Some [("Z", 1); ("SW", 2); ("Tau", 4)]%nat ∧
  n_blanket <$> node_at w "Tau" = Some [("Z", 1); ("SW", 2); ("Y", 6)]%nat.
Proof. by vm_compute. Qed.

(** ** The order of the calls *)

Lemma never_after_last a b w : never_after a b (w ++ [a]) = true → b ∉ w.
Proof.
  induction w as [|t w IH]; simpl; [intros _ []%elem_of_nil|].
  intros [Ht Hw]%andb_true_iff [->|Hin]%elem_of_cons.
  - rewrite bool_decide_eq_true_2 in Ht by done.
    apply bool_decide_eq_true in Ht. apply Ht, elem_of_app. right. by left.
  - by apply IH.
Qed.

Lemma precedes_from_elem seen as_ b w :
  precedes_from seen as_ b w = true → b ∈ w →
  seen = true ∨ ∃ a, a ∈ as_ ∧ a ∈ w.
Proof.
  revert seen. induction w as [|t w IH]; intros seen; simpl.
  - by intros _ ?%elem_of_nil.
  - intros [Ht Hw]%andb_true_iff [->|Hin]%elem_of_cons.
    + rewrite bool_decide_eq_true_2 in Ht by done. by left.
    + destruct (IH _ Hw Hin) as [Hs|(a & ? & ?)].
      * apply orb_true_iff in Hs as [?|Hs]; [by left|].
        apply bool_decide_eq_true in Hs. right. exists t. split; [done|by left].
      * right. exists a. split; [done|by right].
Qed.

Lemma precedes_elem a b w : precedes a b w = true → b ∈ w → a ∈ w.
Proof.
  intros H Hb. destruct (precedes_from_elem _ _ _ _ H Hb) as [?|(a' & Ha & ?)]; [done|].
  by apply list_elem_of_singleton in Ha as ->.
Qed.

Lemma conforms_finished {A} (p : Prog A) L (P : list Tag → bool) :
  conforms p L → forallb P L = true →
  ∀ S (h : Handler S) s a,
    result_of (run h p s) = inr a → P (tags (trace_of (run h p s))) = true.
Proof.
  intros Hp Hall S h s a Hres. specialize (Hp _ _ (run_path h p s)).
  rewrite Hres in Hp. simpl in Hp.
  rewrite forallb_forall in Hall. by apply Hall, list_elem_of_In.
Qed.

(** Every run of [runMOFA], whatever the collaborators answer, makes its
    calls in the order of the sections. *)
Lemma runMOFA_order {S} (h : Handler S) (s : S) data data_opts model_opts
    train_opts seed :
  let w := tags (trace_of (run h (runMOFA data data_opts model_opts train_opts seed) s)) in
  built_before_wiring w = true ∧ wired_before_net w = true ∧
  net_before_iterate w = true ∧ config_before_iterate w = true ∧
  sanity_comes_first w = true.
Proof.
  cbv zeta.
  split_and!;
    apply (conforms_run _ _ _ (conforms_runMOFA_any _ _ _ _ _)); by vm_compute.
Qed.

Lemma runMOFA_complete {S} (h : Handler S) (s : S) data data_opts model_opts
    train_opts seed a :
  result_of (run h (runMOFA data data_opts model_opts train_opts seed) s) = inr a →
  complete (tags (trace_of (run h (runMOFA data data_opts model_opts train_opts seed) s)))
  = true.
Proof.
  apply (conforms_finished _ _ _ (conforms_runMOFA_any _ _ _ _ _)). by vm_compute.
Qed.

(** With a sparsity array that selects a Theta node, that node too is built
    before the wiring starts. *)
Lemma runMOFA_theta_before_wiring {S} (h : Handler S) (s : S) data data_opts
    model_opts train_opts seed v l :
  model_opts !! "sparsity" = Some v → np_flatten v = Some l →
  only_value l 1%Qc ∨ only_value l 0%Qc ∨ several_values l →
  theta_before_wiring
    (tags (trace_of (run h (runMOFA data data_opts model_opts train_opts seed) s)))
  = true.
Proof.
  intros Hv Hl Hcase.
  apply (conforms_run _ (L_runMOFA L_set_seed L_theta_built)); [|by vm_compute].
  apply conforms_runMOFA; [apply conforms_set_seed| |done].
  intros init. destruct Hcase as [H|[H|H]].
  - rewrite (initTheta_all _ _ _ _ Hv Hl H).
    eapply conforms_weaken; [apply conforms_initThetaMixed|].
    apply lang_sub_spec. by vm_compute.
  - rewrite (initTheta_none _ _ _ _ Hv Hl H).
    eapply conforms_weaken; [apply conforms_initThetaConst|].
    apply lang_sub_spec. by vm_compute.
  - rewrite (initTheta_some _ _ _ _ Hv Hl H).
    eapply conforms_weaken; [apply conforms_initThetaMixed|].
    apply lang_sub_spec. by vm_compute.
Qed.

(** ** The ARD node *)

Lemma pure_getitem d k : (∃ v, getitem d k = Ret v) ∨ (∃ e, getitem d k = Raise e).
Proof. unfold getitem. destruct (d !! k); eauto. Qed.

Lemma pure_getitem2 d k1 k2 :
  (∃ v, getitem2 d k1 k2 = Ret v) ∨ (∃ e, getitem2 d k1 k2 = Raise e).
Proof.
  unfold getitem2, getitem. destruct (d !! k1) as [v|]; [|eauto].
  destruct v; simpl; eauto. apply pure_getitem.
Qed.

Lemma ab_args_cases model_opts p i :
  (∃ e, ab_args model_opts p i = Raise e) ∨
  (∃ pa pb qa qb qE,
     getitem2 model_opts p "a" = Ret pa ∧ getitem2 model_opts p "b" = Ret pb ∧
     getitem2 model_opts i "a" = Ret qa ∧ getitem2 model_opts i "b" = Ret qb ∧
     getitem2 model_opts i "E" = Ret qE ∧
     ab_args model_opts p i =
       Ret [("pa", pa); ("pb", pb); ("qa", qa); ("qb", qb); ("qE", qE)]).
Proof.
  unfold ab_args.
  destruct (pure_getitem2 model_opts p "a") as [[pa Hpa]|[e ->]]; [|by left; eexists].
  destruct (pure_getitem2 model_opts p "b") as [[pb Hpb]|[e Hpb]];
    [|left; rewrite Hpa, Hpb; by eexists].
  destruct (pure_getitem2 model_opts i "a") as [[qa Hqa]|[e Hqa]];
    [|left; rewrite Hpa, Hpb, Hqa; by eexists].
  destruct (pure_getitem2 model_opts i "b") as [[qb Hqb]|[e Hqb]];
    [|left; rewrite Hpa, Hpb, Hqa, Hqb; by eexists].
  destruct (pure_getitem2 model_opts i "E") as [[qE HqE]|[e HqE]];
    [|left; rewrite Hpa, Hpb, Hqa, Hqb, HqE; by eexists].
  right. exists pa, pb, qa, qb, qE. rewrite Hpa, Hpb, Hqa, Hqb, HqE. done.
Qed.

Lemma initAlphaW_run {S} (h : Handler S) init model_opts s tr res s' :
  run h (initAlphaW init model_opts) s = (tr, res, s') →
  tr = [] ∨
  ∃ pa pb qa qb qE,
     getitem2 model_opts "priorAlphaW" "a" = Ret pa ∧
     getitem2 model_opts "priorAlphaW" "b" = Ret pb ∧
     getitem2 model_opts "initAlphaW" "a" = Ret qa ∧
     getitem2 model_opts "initAlphaW" "b" = Ret qb ∧
     getitem2 model_opts "initAlphaW" "E" = Ret qE ∧
     alphaW_calls tr =
       [(init, [("pa", pa); ("pb", pb); ("qa", qa); ("qb", qb); ("qE", qE)])].
Proof.
  unfold initAlphaW.
  destruct (ab_args_cases model_opts "priorAlphaW" "initAlphaW")
    as [[e ->]|(pa & pb & qa & qb & qE & ? & ? & ? & ? & ? & ->)].
  - intros [= <- _ _]. by left.
  - intros Hrun. right. exists pa, pb, qa, qb, qE. split_and!; try done.
    simpl in Hrun. destruct (h _ _ s) as [[e|[]] s1]; by injection Hrun as <- _ _.
Qed.

Lemma conforms_after_alphaW init model_opts :
  conforms (initTau init model_opts ≫= λ _,
            initTheta init model_opts ≫= λ _,
            call (InitY init) ≫= λ _, mret init)
           (lang_seq [[[TInitTau]]; L_theta; [[TInitY]]]).
Proof.
  conf_seq; [conf|]. conf_seq; [apply conforms_initTheta|]. conf_seq; conf.
Qed.

Lemma conforms_after_init_nodes dim init data data_opts model_opts train_opts seed :
  conforms (markov_blankets init ≫= λ _,
            build_net dim init model_opts train_opts ≫= λ net,
            train net seed ≫= λ _,
            save net data data_opts model_opts train_opts)
           (lang_seq [L_blankets; L_net; L_train; L_save]).
Proof.
  conf_seq; [apply conforms_markov_blankets|]. apply conforms_after_wiring.
Qed.

#[export] Hint Resolve conforms_after_alphaW conforms_after_init_nodes
  conforms_getitem conforms_initZ conforms_initSW conforms_initAlphaW
  @conforms_call : stagesdb.

Lemma init_nodes_alphaW {S} (h : Handler S) dim data data_opts model_opts seed
    s tr res s' :
  run h (init_nodes dim data data_opts model_opts seed) s = (tr, res, s') →
  TInitAlphaW_mk ∈ tags tr →
  ∃ init pa pb qa qb qE,
     getitem2 model_opts "priorAlphaW" "a" = Ret pa ∧
     getitem2 model_opts "priorAlphaW" "b" = Ret pb ∧
     getitem2 model_opts "initAlphaW" "a" = Ret qa ∧
     getitem2 model_opts "initAlphaW" "b" = Ret qb ∧
     getitem2 model_opts "initAlphaW" "E" = Ret qE ∧
     alphaW_calls tr =
       [(init, [("pa", pa); ("pb", pb); ("qa", qa); ("qb", qb); ("qE", qE)])].
Proof.
  intros Hrun Hin. unfold init_nodes in Hrun.
  stage Hrun E1; avoid [TInitAlphaW_mk] E1;
    [injection Hrun as <- <- <-; absurd_tag Hin|].
  stage Hrun E2; avoid [TInitAlphaW_mk] E2;
    [injection Hrun as <- <- <-; absurd_tag Hin|].
  stage Hrun E3; avoid [TInitAlphaW_mk] E3;
    [injection Hrun as <- <- <-; absurd_tag Hin|].
  stage Hrun E4; avoid [TInitAlphaW_mk] E4;
    [injection Hrun as <- <- <-; absurd_tag Hin|].
  stage Hrun E5; [|last_stage Hrun E6; avoid [TInitAlphaW_mk] E6];
    injection Hrun as <- <- <-;
    (destruct (initAlphaW_run h _ _ _ _ _ _ E5)
       as [->|(pa & pb & qa & qb & qE & ? & ? & ? & ? & ? & Hc)];
     [assert (∀ t, t ∈ tags (@nil Event) → t ∉ [TInitAlphaW_mk])
        by (by intros ? ?%elem_of_nil); absurd_tag Hin|]);
    exists a0, pa, pb, qa, qb, qE; split_and!; try done;
    unfold alphaW_calls in *; rewrite !omap_app;
    quiet alphaW_call TInitAlphaW_mk alphaW_call_tag;
    rewrite Hc, ?app_nil_r; done.
Qed.

Lemma alphaW_calls_of_run {S} (h : Handler S) (s : S) (data : Data)
    (data_opts model_opts train_opts : PyDict) (seed : option Z) tr res s' :
  run h (runMOFA data data_opts model_opts train_opts seed) s = (tr, res, s') →
  TInitAlphaW_mk ∈ tags tr →
  ∃ init pa pb qa qb qE,
     getitem2 model_opts "priorAlphaW" "a" = Ret pa ∧
     getitem2 model_opts "priorAlphaW" "b" = Ret pb ∧
     getitem2 model_opts "initAlphaW" "a" = Ret qa ∧
     getitem2 model_opts "initAlphaW" "b" = Ret qb ∧
     getitem2 model_opts "initAlphaW" "E" = Ret qE ∧
     alphaW_calls tr =
       [(init, [("pa", pa); ("pb", pb); ("qa", qa); ("qb", qb); ("qE", qE)])].
Proof.
  intros Hrun Hin. unfold runMOFA in Hrun.
  stage Hrun E1; avoid [TInitAlphaW_mk] E1;
    [injection Hrun as <- <- <-; absurd_tag Hin|].
  stage Hrun E2; avoid [TInitAlphaW_mk] E2;
    [injection Hrun as <- <- <-; absurd_tag Hin|].
  stage Hrun E3; avoid [TInitAlphaW_mk] E3;
    [injection Hrun as <- <- <-; absurd_tag Hin|].
  stage Hrun E4; avoid [TInitAlphaW_mk] E4;
    [injection Hrun as <- <- <-; absurd_tag Hin|].
  stage Hrun E5; [|last_stage Hrun E6; avoid [TInitAlphaW_mk] E6];
    injection Hrun as <- <- <-;
    (destruct (decide (TInitAlphaW_mk ∈ tags tr4)) as [Hin4|Hout];
     [|assert (∀ t, t ∈ tags tr4 → t ∉ [TInitAlphaW_mk])
         by (intros t Ht ->%list_elem_of_singleton; done); absurd_tag Hin]);
    destruct (init_nodes_alphaW h _ _ _ _ _ _ _ _ _ E5 Hin4)
      as (init & pa & pb & qa & qb & qE & ? & ? & ? & ? & ? & Hc);
    exists init, pa, pb, qa, qb, qE; split_and!; try done;
    unfold alphaW_calls in *; rewrite !omap_app;
    quiet alphaW_call TInitAlphaW_mk alphaW_call_tag;
    rewrite Hc, ?app_nil_r; done.
Qed.

Lemma getitem_insert_ne (d : PyDict) k k' v :
  k ≠ k' → getitem (<[k := v]> d) k' = getitem d k'.
Proof. intros H. unfold getitem. by rewrite lookup_insert_ne. Qed.

Lemma getitem2_insert_ne (d : PyDict) k k1 k2 v :
  k ≠ k1 → getitem2 (<[k := v]> d) k1 k2 = getitem2 d k1 k2.
Proof. intros H. unfold getitem2. by rewrite getitem_insert_ne. Qed.

(** A key in [keys_read] differs from one that is not. *)
Ltac key_ne Hk :=
  let H := fresh in
  intros H; apply Hk; rewrite H;
  apply (bool_decide_unpack _); by vm_compute.

(** The construction of the nodes reads [model_opts] at [keys_read] only. *)
Lemma init_nodes_insert_ne dim data data_opts (model_opts : PyDict) seed k v :
  k ∉ keys_read →
  init_nodes dim data data_opts (<[k := v]> model_opts) seed =
  init_nodes dim data data_opts model_opts seed.
Proof.
  intros Hk.
  unfold init_nodes, initZ, initSW, initAlphaW, initTau, initTheta,
    initThetaMixed, initThetaConst, ab_args.
  rewrite !getitem2_insert_ne by key_ne Hk.
  rewrite !getitem_insert_ne by key_ne Hk.
  done.
Qed.

(** C6, as the code has it.  [runMOFA] reads no ARD mode: whatever
    [model_opts] holds under a key it does not read ([ardW], say), the
    nodes are constructed by the same calls, and the AlphaW node is always
    built by [initAlphaW_mk], the per-view-per-factor initialiser, called
    once, after [initSW] and before [initTau], with [pa], [pb] from
    [model_opts["priorAlphaW"]] and [qa], [qb], [qE] from
    [model_opts["initAlphaW"]]. *)
Theorem alphaW_built_by_mk_whatever_the_mode {S} (h : Handler S) (s : S)
    (data : Data) (data_opts model_opts train_opts : PyDict) (seed : option Z)
    (k : string) (v : PyVal) :
  k ∉ keys_read →
  (∀ dim data' seed',
     init_nodes dim data' data_opts (<[k := v]> model_opts) seed' =
     init_nodes dim data' data_opts model_opts seed') ∧
  let tr := trace_of (run h (runMOFA data data_opts (<[k := v]> model_opts)
                                     train_opts seed) s) in
  alphaW_order (tags tr) = true ∧
  (TInitAlphaW_mk ∈ tags tr →
   ∃ init pa pb qa qb qE,
     getitem2 model_opts "priorAlphaW" "a" = Ret pa ∧
     getitem2 model_opts "priorAlphaW" "b" = Ret pb ∧
     getitem2 model_opts "initAlphaW" "a" = Ret qa ∧
     getitem2 model_opts "initAlphaW" "b" = Ret qb ∧
     getitem2 model_opts "initAlphaW" "E" = Ret qE ∧
     alphaW_calls tr =
       [(init, [("pa", pa); ("pb", pb); ("qa", qa); ("qb", qb); ("qE", qE)])]).
Proof.
  intros Hk. split; [intros; by apply init_nodes_insert_ne|]. cbv zeta. split.
  - apply (conforms_run _ _ _ (conforms_runMOFA_any _ _ _ _ _)). by vm_compute.
  - start_run Hrun. intros Hin.
    destruct (alphaW_calls_of_run h _ _ _ _ _ _ _ _ _ Hrun Hin)
      as (init & pa & pb & qa & qb & qE & Hpa & Hpb & Hqa & Hqb & HqE & Hc).
    rewrite getitem2_insert_ne in Hpa, Hpb, Hqa, Hqb, HqE by key_ne Hk.
    by exists init, pa, pb, qa, qb, qE.
Qed.

Lemma alphaW_built_by_mk_witness :
  ("ardW" ∉ keys_read) ∧
  let tr := trace_of (ex_run "/tmp/test.h5" (with_ard "m") (Some 7) at_1) in
  alphaW_order (tags tr) = true ∧
  ∃ init pa pb qa qb qE,
     getitem2 (ex_model_opts ones) "priorAlphaW" "a" = Ret pa ∧
     getitem2 (ex_model_opts ones) "priorAlphaW" "b" = Ret pb ∧
     getitem2 (ex_model_opts ones) "initAlphaW" "a" = Ret qa ∧
     getitem2 (ex_model_opts ones) "initAlphaW" "b" = Ret qb ∧
     getitem2 (ex_model_opts ones) "initAlphaW" "E" = Ret qE ∧
     alphaW_calls tr =
       [(init, [("pa", pa); ("pb", pb); ("qa", qa); ("qb", qb); ("qE", qE)])].
Proof.
  assert ("ardW" ∉ keys_read) as Hk.
  { apply (bool_decide_unpack _). vm_compute. reflexivity. }
  split; [exact Hk|].
  destruct (alphaW_built_by_mk_whatever_the_mode (world_handler registry)
              (ex_world at_1 ["/tmp"] 0) ex_data (ex_data_opts "/tmp/test.h5")
              (ex_model_opts ones) ex_train_opts (Some 7) "ardW" (VStr "m") Hk)
    as (_ & Hord & H).
  split; [exact Hord|]. apply H.
  apply (bool_decide_unpack _). vm_compute. reflexivity.
Defined.

(** C6, as stated, fails: with the per-view mode [m], the per-factor mode
    [k] or no ARD ([none]) configured, the AlphaW node is built by the same
    initialiser with the same arguments as with [mk]. *)
Lemma ard_mode_not_consulted :
  with_ard "m" !! "ardW" = Some (VStr "m") ∧
  with_ard "k" !! "ardW" = Some (VStr "k") ∧
  Forall (λ mode,
            (λ n, (n_made_by n, n_args n)) <$>
              node_at (state_of (ex_run "/tmp/test.h5" (with_ard mode) (Some 7) at_1))
                      "AlphaW"
            = Some (TInitAlphaW_mk,
                    [("pa", num 1); ("pb", num 1); ("qa", VNaN); ("qb", VNaN);
                     ("qE", num 1)]))
         ["none"; "m"; "k"; "mk"].
Proof.
  split_and!; [by vm_compute..|].
  repeat constructor; by vm_compute.
Qed.

(** ** Masking *)

Lemma pure_py_any v : (∃ b, py_any v = Ret b) ∨ (∃ e, py_any v = Raise e).
Proof. destruct v; simpl; eauto. Qed.

Lemma truthy_spec v : truthy v = true ↔ Truthy v.
Proof.
  split.
  - destruct v as [|[]|q| |s|l|d]; simpl; intros H; try discriminate H;
      try apply bool_decide_eq_true in H; by constructor.
  - intros []; simpl; try done; by apply bool_decide_eq_true.
Qed.

Lemma existsb_Truthy l : existsb truthy l = true ↔ ∃ x, x ∈ l ∧ Truthy x.
Proof.
  rewrite existsb_exists. split; intros (x & Hin & Hx); exists x.
  - split; [by apply list_elem_of_In|by apply truthy_spec].
  - split; [by apply list_elem_of_In|by apply truthy_spec].
Qed.

(** [any] says whether iterating its argument yields a truthy value. *)
Lemma py_any_spec v :
  match entries v with
  | Some l => ∃ b, py_any v = Ret b ∧ (b = true ↔ ∃ x, x ∈ l ∧ Truthy x)
  | None => ∃ e, py_any v = Raise e
  end.
Proof.
  destruct v as [|b|q| |s|l|d]; simpl; eauto.
  - eexists. split; [done|]. rewrite bool_decide_eq_true. split.
    + destruct s as [|c s]; [done|]. intros _. exists (VStr (String c "")).
      split; [by left|by constructor].
    + intros (x & Hin & _) ->. by apply elem_of_nil in Hin.
  - eexists. split; [done|]. apply existsb_Truthy.
  - eexists. split; [done|]. rewrite existsb_exists. split.
    + intros (k & Hin & Hk). apply bool_decide_eq_true in Hk.
      exists (VStr k). split; [|by constructor].
      apply list_elem_of_fmap. exists k. split; [done|]. by apply list_elem_of_In.
    + intros (x & Hin & Hx). apply list_elem_of_fmap in Hin as (k & -> & Hin).
      exists k. split; [by apply list_elem_of_In|].
      apply bool_decide_eq_true. by inversion Hx.
Qed.

Lemma py_any_true o v : o = Some v → py_any v = Ret true → some_truthy o.
Proof.
  intros -> Hv. pose proof (py_any_spec v) as H.
  destruct (entries v) as [l|] eqn:El.
  - destruct H as (b & Hb & Hiff). rewrite Hv in Hb. injection Hb as <-.
    destruct (proj1 Hiff eq_refl) as (x & ? & ?). by exists v, l, x.
  - destruct H as [e He]. congruence.
Qed.

Lemma py_any_false o v : o = Some v → py_any v = Ret false → none_truthy o.
Proof.
  intros -> Hv. pose proof (py_any_spec v) as H.
  destruct (entries v) as [l|] eqn:El.
  - destruct H as (b & Hb & Hiff). rewrite Hv in Hb. injection Hb as <-.
    exists v, l. split_and!; [done..|]. intros x Hin Hx.
    assert (false = true) by (apply Hiff; eauto). done.
  - destruct H as [e He]. congruence.
Qed.

Lemma some_truthy_any o : some_truthy o → ∃ v, o = Some v ∧ py_any v = Ret true.
Proof.
  intros (v & l & x & -> & El & Hin & Hx). exists v. split; [done|].
  pose proof (py_any_spec v) as H. rewrite El in H.
  destruct H as (b & -> & Hiff). f_equal. apply Hiff. eauto.
Qed.

Lemma none_truthy_any o : none_truthy o → ∃ v, o = Some v ∧ py_any v = Ret false.
Proof.
  intros (v & l & -> & El & Hno). exists v. split; [done|].
  pose proof (py_any_spec v) as H. rewrite El in H.
  destruct H as ([] & -> & Hiff); [|done].
  destruct (proj1 Hiff eq_refl) as (x & ? & ?). by destruct (Hno x).
Qed.

Ltac not_requested :=
  intros (_ & [(? & ? & ?)%some_truthy_any
              | [(? & ? & ?)%none_truthy_any (? & ? & ?)%some_truthy_any]]);
  simplify_eq; congruence.

Ltac requested :=
  split; [left; by eexists|];
  first [ left; by eapply py_any_true
        | right; split; [by eapply py_any_false|by eapply py_any_true] ].

(** The run of the parsing section: either masking is asked for and
    [maskData] is the one call made, on the input data, or it is not and no
    call is made. *)
Lemma parse_data_run {S} (h : Handler S) data data_opts s :
  let r := run h (parse_data data data_opts) s in
  (mask_requested data_opts ∧
   ∃ ans, trace_of r = [Ev Data (MaskData data data_opts) ans] ∧ result_of r = ans) ∨
  (¬ mask_requested data_opts ∧ trace_of r = [] ∧
   (result_of r = inr data ∨ ∃ e, result_of r = inl e)).
Proof.
  cbv zeta. unfold parse_data, py_or, contains, getitem, mask_requested.
  destruct (data_opts !! "maskAtRandom") as [a|] eqn:Ha;
    destruct (data_opts !! "maskNSamples") as [n|] eqn:Hn; simpl;
    try (destruct (pure_py_any a) as [[[] Hpa]|[e Hpa]]; rewrite Hpa; simpl);
    try (destruct (pure_py_any n) as [[[] Hpn]|[e' Hpn]]; rewrite Hpn; simpl);
    try (destruct (h _ _ s) as [[?|?] ?]; simpl);
    first [ left; split; [requested|]; eexists; split; reflexivity
          | right; split; [not_requested|]; split; [reflexivity|]; eauto ].
Qed.

Lemma parse_data_KeyError {S} (h : Handler S) data data_opts s :
  data_opts !! "maskAtRandom" = None → is_Some (data_opts !! "maskNSamples") →
  run h (parse_data data data_opts) s = ([], inl (KeyError "maskAtRandom"), s).
Proof.
  intros Ha [n Hn]. unfold parse_data, py_or, contains, getitem.
  rewrite Ha, Hn. done.
Qed.

Lemma mask_call_tag ev : is_Some (mask_call ev) → ev_tag ev = TMaskData.
Proof. destruct ev as [X c r]. by destruct c; intros [? [=]]. Qed.

Lemma conforms_after_parse data data_opts model_opts train_opts seed :
  conforms (define_dim data model_opts seed ≫= λ dim,
            init_nodes dim data data_opts model_opts seed ≫= λ init,
            markov_blankets init ≫= λ _,
            build_net dim init model_opts train_opts ≫= λ net,
            train net seed ≫= λ _,
            save net data data_opts model_opts train_opts)
           (lang_seq [L_dim; L_init L_theta; L_blankets; L_net; L_train; L_save]).
Proof.
  conf_seq; [apply conforms_define_dim|].
  conf_seq; [apply conforms_init_nodes_any|].
  apply conforms_after_init_nodes.
Qed.

#[export] Hint Resolve conforms_after_parse : stagesdb.

(** Masking in a whole run. *)
Lemma mask_of_run {S} (h : Handler S) (s : S) (data : Data)
    (data_opts model_opts train_opts : PyDict) (seed : option Z) tr res s' :
  run h (runMOFA data data_opts model_opts train_opts seed) s = (tr, res, s') →
  (TMaskData ∈ tags tr →
     mask_requested data_opts ∧ mask_calls tr = [(data, data_opts)]) ∧
  (TInitModel ∈ tags tr →
     (mask_requested data_opts ∧ mask_calls tr = [(data, data_opts)]) ∨
     (¬ mask_requested data_opts ∧ mask_calls tr = [])).
Proof.
  intros Hrun. unfold runMOFA in Hrun.
  stage Hrun E1; avoid [TMaskData; TInitModel] E1.
  { injection Hrun as <- <- <-. split_and!; intros Hin; absurd_tag Hin. }
  stage Hrun E2; avoid [TMaskData; TInitModel] E2.
  { injection Hrun as <- <- <-. split_and!; intros Hin; absurd_tag Hin. }
  pose proof (parse_data_run h data data_opts s1) as Hparse. cbv zeta in Hparse.
  stage Hrun E3.
  - injection Hrun as <- <- <-. cbn [trace_of result_of fst snd] in Hparse.
    pose proof E3 as E3'. avoid [TInitModel] E3'.
    split_and!; try (intros Hin; absurd_tag Hin).
    intros Hin. destruct Hparse as [(Hreq & ans & -> & _)|(_ & -> & _)].
    + split; [done|]. unfold mask_calls. rewrite !omap_app.
      by quiet mask_call TMaskData mask_call_tag.
    + rewrite !tags_app, !elem_of_app in Hin.
      destruct Hin as [Hin|[Hin|Hin]]; [absurd_tag Hin..|by apply elem_of_nil in Hin].
  - last_stage Hrun E4. avoid [TMaskData] E4. injection Hrun as <- <- <-.
    cbn [trace_of result_of fst snd] in Hparse.
    unfold mask_calls. rewrite !omap_app.
    quiet mask_call TMaskData mask_call_tag.
    destruct Hparse as [(Hreq & ans & -> & _)|(Hnot & -> & _)]; simpl.
    + split_and!; [done|]. intros _. by left.
    + split_and!; [|intros _; by right]. intros Hin.
      rewrite !tags_app, !elem_of_app in Hin.
      destruct Hin as [Hin|[Hin|Hin]]; absurd_tag Hin.
Qed.

(** C9.  [maskData] is applied, to the input data, exactly when one of the
    keys [maskAtRandom], [maskNSamples] is in [data_opts] and an entry of
    [data_opts['maskAtRandom']] or, failing that, of
    [data_opts['maskNSamples']] is truthy: an item of the list that is a
    number other than 0, [True], a NaN, or a string, list or dictionary
    that is not empty.  So it is in a whole run: a call of [maskData] is
    one call on the input data and was asked for, and a run that reaches
    [initModel] has made it if it was asked for and has not otherwise.
    With [maskNSamples] but not
    [maskAtRandom] in [data_opts], reading [data_opts['maskAtRandom']]
    raises [KeyError]: [runMOFA] fails, before the data is masked and before
    any node is built; when the seed and the sanity-check sections have
    passed, that [KeyError] is its outcome. *)
Theorem mask_applied_iff {S} (h : Handler S) (s : S) (data : Data)
    (data_opts : PyDict) :
  let r := run h (parse_data data data_opts) s in
  (TMaskData ∈ tags (trace_of r) ↔ mask_requested data_opts) ∧
  (mask_requested data_opts →
   ∃ ans, trace_of r = [Ev Data (MaskData data data_opts) ans] ∧ result_of r = ans) ∧
  (¬ mask_requested data_opts →
   trace_of r = [] ∧ (result_of r = inr data ∨ ∃ e, result_of r = inl e)) ∧
  (∀ model_opts train_opts seed s0,
     let R := run h (runMOFA data data_opts model_opts train_opts seed) s0 in
     (TMaskData ∈ tags (trace_of R) →
        mask_requested data_opts ∧ mask_calls (trace_of R) = [(data, data_opts)]) ∧
     (TInitModel ∈ tags (trace_of R) →
        (mask_requested data_opts ∧ mask_calls (trace_of R) = [(data, data_opts)]) ∨
        (¬ mask_requested data_opts ∧ mask_calls (trace_of R) = []))) ∧
  (data_opts !! "maskAtRandom" = None → is_Some (data_opts !! "maskNSamples") →
   result_of r = inl (KeyError "maskAtRandom") ∧
   ∀ model_opts train_opts seed s0,
     let R := run h (runMOFA data data_opts model_opts train_opts seed) s0 in
     (∃ e, result_of R = inl e) ∧
     (∀ t, t ∈ tags (trace_of R) → t ∉ TMaskData :: construction_tags) ∧
     (∀ tr1 seed' s1 tr2 s2,
        run h (set_seed seed) s0 = (tr1, inr seed', s1) →
        run h (sanity_checks data_opts) s1 = (tr2, inr tt, s2) →
        R = (tr1 ++ tr2, inl (KeyError "maskAtRandom"), s2))).
Proof.
  cbv zeta. pose proof (parse_data_run h data data_opts s) as Hcases.
  cbv zeta in Hcases. split_and!.
  - destruct Hcases as [(Hreq & ans & -> & _)|(Hnot & -> & _)]; split; try done.
    + intros _. by left.
    + by intros ?%elem_of_nil.
  - intros Hreq. by destruct Hcases as [(_ & H)|(? & _)].
  - intros Hnot. by destruct Hcases as [(? & _)|(_ & H)].
  - intros model_opts train_opts seed s0.
    destruct (run h (runMOFA data data_opts model_opts train_opts seed) s0)
      as [[tr res] s'] eqn:Hrun. cbn [trace_of fst].
    exact (mask_of_run h _ _ _ _ _ _ _ _ _ Hrun).
  - intros Ha Hn. rewrite (parse_data_KeyError h _ _ _ Ha Hn). split; [done|].
    intros model_opts train_opts seed s0.
    destruct (run h (runMOFA data data_opts model_opts train_opts seed) s0)
      as [[tr res] s'] eqn:Hrun. cbn [trace_of result_of fst snd].
    unfold runMOFA in Hrun.
    stage Hrun E1; avoid (TMaskData :: construction_tags) E1.
    { injection Hrun as <- <- <-. split_and!; [by eexists|done|].
      intros ????? [=]. }
    stage Hrun E2; avoid (TMaskData :: construction_tags) E2.
    { injection Hrun as <- <- <-. split_and!; [by eexists| |].
      - intros t. rewrite tags_app, elem_of_app. intros [?|?]; eauto.
      - intros ????? [= <- <- <-]. rewrite E2. intros [=]. }
    rewrite run_bind, (parse_data_KeyError h _ _ _ Ha Hn) in Hrun.
    injection Hrun as <- <- <-. split_and!; [by eexists| |].
    + intros t. rewrite !tags_app, !elem_of_app.
      intros [?|[?|[]%elem_of_nil]]; eauto.
    + intros ????? [= <- <- <-]. rewrite E2. intros [= <- _ <-].
      by rewrite app_nil_r.
Qed.

Lemma mask_applied_witness :
  mask_requested ex_mask_opts ∧
  (∃ ans,
     trace_of (run (world_handler registry) (parse_data ex_data ex_mask_opts)
                   (ex_world at_1 ["/tmp"] 0))
       = [Ev Data (MaskData ex_data ex_mask_opts) ans] ∧
     result_of (run (world_handler registry) (parse_data ex_data ex_mask_opts)
                    (ex_world at_1 ["/tmp"] 0)) = ans) ∧
  (ex_mask_opts_partial !! "maskAtRandom" = None ∧
   is_Some (ex_mask_opts_partial !! "maskNSamples")) ∧
  ∃ e, result_of (run (world_handler registry)
                      (runMOFA ex_data ex_mask_opts_partial (ex_model_opts ones)
                               ex_train_opts (Some 7))
                      (ex_world at_1 ["/tmp"] 0)) = inl e.
Proof.
  assert (mask_requested ex_mask_opts) as Hreq.
  { split; [left; by eexists|]. right. split.
    - exists (VList [num 0]), [num 0]. split_and!; [done..|].
      intros x ->%list_elem_of_singleton Hx. by inversion Hx.
    - exists (VList [num 5]), [num 5], (num 5).
      split_and!; [done|done|by left|by constructor]. }
  assert (ex_mask_opts_partial !! "maskAtRandom" = None) as Ha by reflexivity.
  assert (is_Some (ex_mask_opts_partial !! "maskNSamples")) as Hn by (by eexists).
  split_and!; [exact Hreq| |exact Ha|exact Hn|].
  - destruct (mask_applied_iff (world_handler registry) (ex_world at_1 ["/tmp"] 0)
                ex_data ex_mask_opts) as (_ & H & _).
    exact (H Hreq).
  - destruct (mask_applied_iff (world_handler registry) (ex_world at_1 ["/tmp"] 0)
                ex_data ex_mask_opts_partial) as (_ & _ & _ & _ & H).
    destruct (H Ha Hn) as [_ H'].
    exact (proj1 (H' (ex_model_opts ones) ex_train_opts (Some 7)
                     (ex_world at_1 ["/tmp"] 0))).
Defined.

(** With [maskNSamples] only, the run in the registry world stops on the
    [KeyError], after the sanity check and before anything is built. *)
Example mask_partial_run :
  let r := run (world_handler registry)
               (runMOFA ex_data ex_mask_opts_partial (ex_model_opts ones)
                        ex_train_opts (Some 7))
               (ex_world at_1 ["/tmp"] 0) in
  result_of r = inl (KeyError "maskAtRandom") ∧
  tags (trace_of r) = [TRandomSeed; TIsDir].
Proof. by vm_compute. Qed.

(** ** Configuration errors *)

(** Every answer in the trace of a run is the handler's. *)
Lemma run_answers {S A} (h : Handler S) (p : Prog A) (s : S) ev :
  ev ∈ trace_of (run h p s) →
  ∃ s0, (h _ (ev_cmd ev) s0).1 = ev_res ev.
Proof.
  revert s. induction p as [a|e|X c k IH]; intros s; simpl.
  - by intros ?%elem_of_nil.
  - by intros ?%elem_of_nil.
  - destruct (h X c s) as [[e|x] s'] eqn:Hh.
    + intros ->%list_elem_of_singleton. exists s. simpl. by rewrite Hh.
    + specialize (IH x s'). destruct (run h (k x) s') as [[tr r] s''].
      unfold trace_of in *; simpl in *.
      intros [->|Hin]%elem_of_cons; [|by apply IH].
      exists s. simpl. by rewrite Hh.
Qed.

(** A run whose likelihood tags the handler refuses ends at [initModel],
    if not before. *)
Lemma run_refused_likelihoods {S} (h : Handler S) (s : S) data data_opts
    model_opts train_opts seed lik :
  model_opts !! "likelihoods" = Some lik → refuses_likelihoods h lik →
  let r := run h (runMOFA data data_opts model_opts train_opts seed) s in
  (∃ e, result_of r = inl e) ∧
  ∀ t, t ∈ tags (trace_of r) →
       t ∉ [TInitZ; TInitSW; TInitAlphaW_mk; TInitTau; TInitThetaMixed;
            TInitThetaConst; TInitY; TGetNodes; TAddMarkovBlanket; TBayesNet;
            TIterate; TSaveModel].
Proof.
  intros Hlik Href. cbv zeta.
  destruct (run h (runMOFA data data_opts model_opts train_opts seed) s)
    as [[tr res] s'] eqn:Hrun. cbn [trace_of result_of fst snd].
  set (T := [TInitZ; TInitSW; TInitAlphaW_mk; TInitTau; TInitThetaMixed;
             TInitThetaConst; TInitY; TGetNodes; TAddMarkovBlanket; TBayesNet;
             TIterate; TSaveModel]).
  unfold runMOFA in Hrun.
  stage Hrun E1; avoid T E1.
  { injection Hrun as <- <- <-. split; [by eexists|done]. }
  stage Hrun E2; avoid T E2.
  { injection Hrun as <- <- <-. split; [by eexists|].
    intros t. rewrite tags_app, elem_of_app. intros [?|?]; eauto. }
  stage Hrun E3; avoid T E3.
  { injection Hrun as <- <- <-. split; [by eexists|].
    intros t. rewrite !tags_app, !elem_of_app. intros [?|[?|?]]; eauto. }
  stage Hrun E4; avoid T E4.
  { injection Hrun as <- <- <-. split; [by eexists|].
    intros t. rewrite !tags_app, !elem_of_app. intros [?|[?|[?|?]]]; eauto. }
  unfold init_nodes, getitem in Hrun. rewrite Hlik in Hrun.
  cbn [mbind Prog_bind bind] in Hrun. simpl in Hrun.
  destruct (Href a2 a1 a s3) as [e He].
  destruct (h _ (InitModel a2 a1 lik a) s3) as [[e'|i] s4]; [|done].
  simpl in Hrun. injection Hrun as <- <- <-. split; [by eexists|].
  intros t. rewrite !tags_app, !elem_of_app.
  intros [?|[?|[?|[?|Hin]]]]; eauto.
  apply list_elem_of_singleton in Hin as ->. unfold T.
  apply (bool_decide_unpack _). by vm_compute.
Qed.

(** A run that asks for masking the handler refuses ends at [maskData], if
    not before. *)
Lemma run_refused_mask {S} (h : Handler S) (s : S) data data_opts
    model_opts train_opts seed :
  mask_requested data_opts → refuses_mask h data data_opts →
  let r := run h (runMOFA data data_opts model_opts train_opts seed) s in
  (∃ e, result_of r = inl e) ∧
  ∀ t, t ∈ tags (trace_of r) → t ∉ construction_tags ++ [TIterate].
Proof.
  intros Hreq Href. cbv zeta.
  destruct (run h (runMOFA data data_opts model_opts train_opts seed) s)
    as [[tr res] s'] eqn:Hrun. cbn [trace_of result_of fst snd].
  set (T := construction_tags ++ [TIterate]).
  unfold runMOFA in Hrun.
  stage Hrun E1; avoid T E1.
  { injection Hrun as <- <- <-. split; [by eexists|done]. }
  stage Hrun E2; avoid T E2.
  { injection Hrun as <- <- <-. split; [by eexists|].
    intros t. rewrite tags_app, elem_of_app. intros [?|?]; eauto. }
  pose proof (parse_data_run h data data_opts s1) as Hparse. cbv zeta in Hparse.
  pose proof (run_answers h (parse_data data data_opts) s1) as Hans.
  rewrite run_bind in Hrun.
  destruct (run h (parse_data data data_opts) s1) as [[tr3 r3] s3] eqn:E3.
  cbn [trace_of result_of fst snd] in Hparse, Hans.
  destruct Hparse as [(_ & ans & -> & ->)|[Hnot _]]; [|done].
  destruct (Hans _ ltac:(by left)) as [sm Hsm]. simpl in Hsm.
  destruct (Href sm) as [e He]. rewrite He in Hsm. subst ans.
  cbv beta iota in Hrun. injection Hrun as <- <- <-. split; [by eexists|].
  intros t. rewrite !tags_app, !elem_of_app.
  intros [?|[?|Hin]]; eauto.
  apply list_elem_of_singleton in Hin as ->. unfold T.
  apply (bool_decide_unpack _). by vm_compute.
Qed.

(** C1. A configuration error ends the run with an exception before
    [iterate] is called.  An exception raised by a call that configures the
    model ([maskData], [initModel] with the likelihood tags and the data, an
    [init*] method, [getNodes], [addMarkovBlanket], [BayesNet]) is the
    outcome of the run.  Likelihood tags that [initModel] refuses make the
    run fail, no later than at [initModel] and before any node is built;
    masking that is asked for and that [maskData] refuses makes it fail
    before [initModel]; a node missing from what [getNodes] returned makes
    it fail in the wiring.  In all these cases [iterate] has not been
    called. *)
Theorem config_errors_abort_before_iterate {S} (h : Handler S) (s : S)
    (data : Data) (data_opts model_opts train_opts : PyDict) (seed : option Z) :
  let r := run h (runMOFA data data_opts model_opts train_opts seed) s in
  (∀ ev, ev ∈ trace_of r → ev_ok ev = false → ev_tag ev ∈ config_tags →
     ∃ e, ev_exn ev = Some e ∧ result_of r = inl e ∧
          TIterate ∉ tags (trace_of r)) ∧
  (∀ lik, model_opts !! "likelihoods" = Some lik → refuses_likelihoods h lik →
     (∃ e, result_of r = inl e) ∧ (TIterate ∉ tags (trace_of r)) ∧
     (∀ t, t ∈ tags (trace_of r) →
           t ∉ [TInitZ; TInitSW; TInitAlphaW_mk; TInitTau; TInitThetaMixed;
                TInitThetaConst; TInitY; TBayesNet])) ∧
  (mask_requested data_opts → refuses_mask h data data_opts →
     (∃ e, result_of r = inl e) ∧ (TIterate ∉ tags (trace_of r)) ∧
     TInitModel ∉ tags (trace_of r)) ∧
  (∀ nodes name,
     head (nodes_seen (trace_of r)) = Some nodes →
     name ∈ node_names → nodes !! name = None →
     (∃ e, result_of r = inl e) ∧ TIterate ∉ tags (trace_of r)).
Proof.
  cbv zeta.
  destruct (runMOFA_order h s data data_opts model_opts train_opts seed)
    as (_ & _ & Hnet & Hcfg & _).
  split_and!.
  - intros ev Hin Hok Hcfgtag.
    destruct (run_raised_last h _ s ev Hin Hok) as (pre & e & Htr & He & Hres & _).
    exists e. split_and!; [done..|].
    rewrite Htr in Hcfg |- *. rewrite tags_app. simpl.
    unfold config_before_iterate in Hcfg. rewrite forallb_forall in Hcfg.
    pose proof (Hcfg _ (proj1 (list_elem_of_In _ _) Hcfgtag)) as Hna.
    rewrite tags_app in Hna. apply never_after_last in Hna.
    rewrite elem_of_app, list_elem_of_singleton. intros [?|Heq]; [done|].
    assert (TIterate ∉ config_tags) as Hnot
      by (apply (bool_decide_unpack _); by vm_compute).
    apply Hnot. by rewrite Heq.
  - intros lik Hlik Href.
    destruct (run_refused_likelihoods h s data data_opts model_opts train_opts
                seed lik Hlik Href) as [Hres Hav].
    split_and!; [done| |].
    + intros Hin. destruct (Hav _ Hin). by repeat constructor.
    + intros t Hin Ht. destruct (Hav _ Hin).
      repeat (apply elem_of_cons in Ht as [->|Ht]; [by repeat constructor|]).
      by apply elem_of_nil in Ht.
  - intros Hreq Href.
    destruct (run_refused_mask h s data data_opts model_opts train_opts seed
                Hreq Href) as [Hres Hav].
    split_and!; [done| |]; intros Hin; destruct (Hav _ Hin); by repeat constructor.
  - intros nodes name Hnodes Hname Hnone.
    assert (TIterate ∉ tags (trace_of
              (run h (runMOFA data data_opts model_opts train_opts seed) s))) as Hno.
    { intros Hit. apply andb_true_iff in Hnet as [Hnet _].
      pose proof (precedes_elem _ _ _ Hnet Hit) as Hbn.
      destruct (run h (runMOFA data data_opts model_opts train_opts seed) s)
        as [[tr res] s'] eqn:Hrun. cbn [trace_of fst] in *.
      destruct (blankets_when_net_built h _ _ _ _ _ _ _ _ _ Hrun Hbn)
        as (nodes' & z & sw & aw & tau & th & y & Hn' & ? & ? & ? & ? & ? & ? & _).
      assert (nodes' = nodes) as -> by congruence.
      unfold node_names in Hname.
      repeat (apply elem_of_cons in Hname as [->|Hname]; [congruence|]).
      by apply elem_of_nil in Hname. }
    split; [|done].
    destruct (result_of (run h (runMOFA data data_opts model_opts train_opts seed) s))
      as [e|a] eqn:Hres; [by exists e|].
    apply runMOFA_complete in Hres. destruct Hno.
    unfold complete in Hres. rewrite forallb_forall in Hres.
    eapply bool_decide_eq_true, Hres, list_elem_of_In. by repeat constructor.
Qed.

Lemma config_errors_abort_witness :
  (∃ e, result_of (ex_run "/tmp/test.h5" ex_unknown_likelihood (Some 7) at_1) = inl e ∧
        TIterate ∉ tags (trace_of (ex_run "/tmp/test.h5" ex_unknown_likelihood (Some 7) at_1))) ∧
  (let r := run (world_handler registry)
                (runMOFA ex_data ex_mask_mismatch (ex_model_opts ones)
                         ex_train_opts (Some 7))
                (ex_world at_1 ["/tmp"] 0) in
   (∃ e, result_of r = inl e) ∧ TIterate ∉ tags (trace_of r)) ∧
  ((∃ e, result_of (ex_run "/tmp/test.h5" (ex_model_opts halves) (Some 7) at_1) = inl e) ∧
   TIterate ∉ tags (trace_of (ex_run "/tmp/test.h5" (ex_model_opts halves) (Some 7) at_1))).
Proof.
  split; [|split].
  - destruct (config_errors_abort_before_iterate (world_handler registry)
                (ex_world at_1 ["/tmp"] 0) ex_data (ex_data_opts "/tmp/test.h5")
                ex_unknown_likelihood ex_train_opts (Some 7)) as (_ & H & _).
    destruct (H (VList [VStr "cauchy"])) as ([e He] & Hno & _).
    + reflexivity.
    + intros dim data seed w. by eexists.
    + by exists e.
  - destruct (config_errors_abort_before_iterate (world_handler registry)
                (ex_world at_1 ["/tmp"] 0) ex_data ex_mask_mismatch
                (ex_model_opts ones) ex_train_opts (Some 7)) as (_ & _ & H & _).
    destruct H as (He & Hno & _).
    + split; [left; by eexists|]. left.
      exists (VList [half; half]), [half; half], half.
      split_and!; [done|done|by left|by constructor].
    + intros w. by eexists.
    + by split.
  - destruct (config_errors_abort_before_iterate (world_handler registry)
                (ex_world at_1 ["/tmp"] 0) ex_data (ex_data_opts "/tmp/test.h5")
                (ex_model_opts halves) ex_train_opts (Some 7)) as (_ & _ & _ & H).
    assert (∃ nodes, head (nodes_seen (trace_of
                (ex_run "/tmp/test.h5" (ex_model_opts halves) (Some 7) at_1))) = Some nodes ∧
              nodes !! "Theta" = None) as (nodes & Hn & Hth).
    { vm_compute. eexists. split; reflexivity. }
    apply (H nodes "Theta"); [exact Hn| |exact Hth].
    unfold node_names. do 4 constructor. constructor.
Defined.

(** In the registry world the tag [cauchy] ends the run at [initModel], and
    two masking fractions for one view end it at [maskData]. *)
Example refused_configurations :
  tags (trace_of (ex_run "/tmp/test.h5" ex_unknown_likelihood (Some 7) at_1)) =
    [TRandomSeed; TIsDir; TPrint; TPrint; TPrint; TPrint; TPrint; TSleep; TPrint;
     TInitModel] ∧
  result_of (ex_run "/tmp/test.h5" ex_unknown_likelihood (Some 7) at_1) =
    inl (Raised "unknown likelihood") ∧
  tags (trace_of (run (world_handler registry)
                      (runMOFA ex_data ex_mask_mismatch (ex_model_opts ones)
                               ex_train_opts (Some 7))
                      (ex_world at_1 ["/tmp"] 0))) =
    [TRandomSeed; TIsDir; TMaskData] ∧
  result_of (run (world_handler registry)
                 (runMOFA ex_data ex_mask_mismatch (ex_model_opts ones)
                          ex_train_opts (Some 7))
                 (ex_world at_1 ["/tmp"] 0)) =
    inl (Raised "mask options do not match the data").
Proof. by vm_compute. Qed.

(** ** The sanity check *)

(** The calls of the sanity check, for any handler. *)
Lemma sanity_checks_run {S} (h : Handler S) data_opts p s :
  data_opts !! "outfile" = Some (VStr p) →
  let r := run h (sanity_checks data_opts) s in
  let d := dirname p in
  (trace_of r = [Ev bool (IsDir d) (inr true)] ∧ result_of r = inr tt) ∨
  (∃ ans, trace_of r = [Ev bool (IsDir d) (inr false);
                        Ev unit (Print dir_notice) (inr tt);
                        Ev unit (MakeDirs d) ans] ∧
          result_of r = ans) ∨
  (∃ e, result_of r = inl e ∧
        (trace_of r = [Ev bool (IsDir d) (inl e)] ∨
         trace_of r = [Ev bool (IsDir d) (inr false);
                       Ev unit (Print dir_notice) (inl e)])).
Proof.
  intros Hout. cbv zeta. unfold sanity_checks, getitem. rewrite Hout. simpl.
  destruct (h _ (IsDir (dirname p)) s) as [[e|[]] s1]; simpl.
  - right; right. exists e. eauto.
  - by left.
  - destruct (h _ (Print _) s1) as [[e|[]] s2]; simpl.
    + right; right. exists e. eauto.
    + destruct (h _ (MakeDirs (dirname p)) s2) as [[e|[]] s3]; simpl;
        right; left; eexists; eauto.
Qed.

(** In a world, the sanity check changes the directories and the output,
    and nothing else. *)
Lemma sanity_checks_world (C : Collab) (w : World C) data_opts p :
  data_opts !! "outfile" = Some (VStr p) →
  let w' := state_of (run (world_handler C) (sanity_checks data_opts) w) in
  let d := dirname p in
  w_clock w' = w_clock w ∧ w_rng w' = w_rng w ∧ w_model w' = w_model w ∧
  (d ∈ w_dirs w → w' = w) ∧
  (d ∉ w_dirs w →
   w_out w' = w_out w ++ [dir_notice] ∧
   w_dirs w' = match os_makedirs d (w_dirs w) with
               | inr dirs => dirs
               | inl _ => w_dirs w
               end).
Proof.
  intros Hout. cbv zeta. unfold sanity_checks, getitem. rewrite Hout. simpl.
  case_bool_decide as Hd; simpl.
  - split_and!; try done; by destruct w.
  - destruct (os_makedirs (dirname p) (w_dirs w)); simpl; split_and!; done.
Qed.

Lemma os_makedirs_creates p dirs dirs' :
  os_makedirs p dirs = inr dirs' → p ∈ dirs' ∧ dirs ⊆ dirs'.
Proof.
  unfold os_makedirs. repeat case_bool_decide; intros [= <-]. set_solver.
Qed.

(** What [maskData] is applied to, if it is applied: the data and the
    options [runMOFA] was given. *)
Lemma mask_calls_of_run {S} (h : Handler S) (s : S) (data : Data)
    (data_opts model_opts train_opts : PyDict) (seed : option Z) tr res s' :
  run h (runMOFA data data_opts model_opts train_opts seed) s = (tr, res, s') →
  mask_calls tr = [] ∨ mask_calls tr = [(data, data_opts)].
Proof.
  intros Hrun. unfold runMOFA in Hrun.
  stage Hrun E1; avoid [TMaskData] E1.
  { injection Hrun as <- <- <-. left. unfold mask_calls.
    by quiet mask_call TMaskData mask_call_tag. }
  stage Hrun E2; avoid [TMaskData] E2.
  { injection Hrun as <- <- <-. left. unfold mask_calls. rewrite !omap_app.
    by quiet mask_call TMaskData mask_call_tag. }
  pose proof (parse_data_run h data data_opts s1) as Hparse. cbv zeta in Hparse.
  stage Hrun E3; [|last_stage Hrun E4; avoid [TMaskData] E4];
    injection Hrun as <- <- <-; cbn [trace_of result_of fst snd] in Hparse;
    unfold mask_calls; rewrite !omap_app;
    quiet mask_call TMaskData mask_call_tag;
    (destruct Hparse as [(_ & ans & -> & _)|(_ & -> & _)]; [by right|by left]).
Qed.

(** C10.  The sanity check reads [data_opts['outfile']], asks whether its
    parent directory exists and, when it does not, prints a notice and has
    the directory created; these are its only calls.  In every run they come
    before the data is parsed and before any node is built, and [maskData],
    if called, still receives the data and the options as given.  In a
    world, the step changes the set of directories and the output (the
    notice) and leaves everything else as it was; when the directory exists
    it changes nothing. *)
Theorem sanity_check_frame {S} (h : Handler S) (s : S) (data : Data)
    (data_opts model_opts train_opts : PyDict) (seed : option Z) (p : string) :
  data_opts !! "outfile" = Some (VStr p) →
  let d := dirname p in
  (let r := run h (sanity_checks data_opts) s in
   (trace_of r = [Ev bool (IsDir d) (inr true)] ∧ result_of r = inr tt) ∨
   (∃ ans, trace_of r = [Ev bool (IsDir d) (inr false);
                         Ev unit (Print dir_notice) (inr tt);
                         Ev unit (MakeDirs d) ans] ∧
           result_of r = ans) ∨
   (∃ e, result_of r = inl e ∧
         (trace_of r = [Ev bool (IsDir d) (inl e)] ∨
          trace_of r = [Ev bool (IsDir d) (inr false);
                        Ev unit (Print dir_notice) (inl e)]))) ∧
  (let R := run h (runMOFA data data_opts model_opts train_opts seed) s in
   sanity_comes_first (tags (trace_of R)) = true ∧
   (mask_calls (trace_of R) = [] ∨ mask_calls (trace_of R) = [(data, data_opts)])) ∧
  (∀ (C : Collab) (w : World C),
     let w' := state_of (run (world_handler C) (sanity_checks data_opts) w) in
     w_clock w' = w_clock w ∧ w_rng w' = w_rng w ∧ w_model w' = w_model w ∧
     (d ∈ w_dirs w → w' = w) ∧
     (d ∉ w_dirs w →
      w_out w' = w_out w ++ [dir_notice] ∧
      ∀ dirs, os_makedirs d (w_dirs w) = inr dirs →
              w_dirs w' = dirs ∧ d ∈ w_dirs w' ∧ w_dirs w ⊆ w_dirs w')).
Proof.
  intros Hout. cbv zeta. split_and!.
  - by apply sanity_checks_run.
  - apply (runMOFA_order h s data data_opts model_opts train_opts seed).
  - destruct (run h (runMOFA data data_opts model_opts train_opts seed) s)
      as [[tr res] s'] eqn:Hrun.
    by apply (mask_calls_of_run h _ _ _ _ _ _ _ _ _ Hrun).
  - intros C w.
    destruct (sanity_checks_world C w data_opts p Hout) as (? & ? & ? & ? & Hno).
    split_and!; try done. intros Hd. destruct (Hno Hd) as [? Hdirs].
    split; [done|]. intros dirs Hmk. rewrite Hmk in Hdirs.
    rewrite Hdirs. split; [done|]. by apply os_makedirs_creates.
Qed.

Lemma sanity_check_frame_witness :
  let w := ex_world at_1 ["/tmp"] 0 in
  let w' := state_of (run (world_handler registry)
                          (sanity_checks (ex_data_opts "/out/x/test.h5")) w) in
  ex_data_opts "/out/x/test.h5" !! "outfile" = Some (VStr "/out/x/test.h5") ∧
  w_clock w' = w_clock w ∧ w_rng w' = w_rng w ∧ w_model w' = w_model w ∧
  w_out w' = w_out w ++ [dir_notice] ∧
  "/out/x" ∈ w_dirs w' ∧ w_dirs w ⊆ w_dirs w'.
Proof.
  cbv zeta.
  assert (ex_data_opts "/out/x/test.h5" !! "outfile" = Some (VStr "/out/x/test.h5"))
    as Hout by reflexivity.
  destruct (sanity_check_frame (world_handler registry) (ex_world at_1 ["/tmp"] 0)
              ex_data (ex_data_opts "/out/x/test.h5") (ex_model_opts ones)
              ex_train_opts (Some 7) "/out/x/test.h5" Hout) as (_ & _ & H).
  destruct (H registry (ex_world at_1 ["/tmp"] 0)) as (Hc & Hr & Hm & _ & Hno).
  destruct Hno as [Ho Hd].
  { apply (bool_decide_unpack _). vm_compute. reflexivity. }
  destruct (Hd (list_to_set ["/tmp"] ∪ {["/out/x"]} ∪ list_to_set ["/out"; "/"]))
    as (_ & Hin & Hsub).
  { vm_compute. reflexivity. }
  split_and!; [exact Hout|exact Hc|exact Hr|exact Hm|exact Ho|exact Hin|exact Hsub].
Defined.

(** ** The seed *)

Lemma conforms_after_dim dim data data_opts model_opts train_opts seed :
  conforms (init_nodes dim data data_opts model_opts seed ≫= λ init,
            markov_blankets init ≫= λ _,
            build_net dim init model_opts train_opts ≫= λ net,
            train net seed ≫= λ _,
            save net data data_opts model_opts train_opts)
           (lang_seq [L_init L_theta; L_blankets; L_net; L_train; L_save]).
Proof.
  conf_seq; [apply conforms_init_nodes_any|]. apply conforms_after_init_nodes.
Qed.

Lemma conforms_after_seed data data_opts model_opts train_opts seed :
  conforms (sanity_checks data_opts ≫= λ _,
            parse_data data data_opts ≫= λ data,
            define_dim data model_opts seed ≫= λ dim,
            init_nodes dim data data_opts model_opts seed ≫= λ init,
            markov_blankets init ≫= λ _,
            build_net dim init model_opts train_opts ≫= λ net,
            train net seed ≫= λ _,
            save net data data_opts model_opts train_opts)
           (lang_seq [L_sanity; L_parse; L_dim; L_init L_theta; L_blankets;
                      L_net; L_train; L_save]).
Proof.
  conf_seq; [apply conforms_sanity_checks|].
  conf_seq; [apply conforms_parse_data|]. apply conforms_after_parse.
Qed.

#[export] Hint Resolve conforms_after_dim conforms_after_seed : stagesdb.

(** Rounding to the nearest integer. *)
Lemma round_half_away_nearest sg m e : nearest_integer sg m e (round_half_away sg m e).
Proof.
  unfold nearest_integer, round_half_away. cbv zeta. case_bool_decide as He.
  - rewrite (Z.max_l e 0), (Z.max_r (- e) 0) by lia. change (2 ^ 0) with 1.
    assert (0 < Z.pos m * 2 ^ e) by (apply Z.mul_pos_pos; [lia|by apply Z.pow_pos_nonneg]).
    destruct sg; simpl; split; lia.
  - rewrite (Z.max_r e 0), (Z.max_l (- e) 0) by lia.
    assert (2 ^ (- e) = 2 * 2 ^ (- e - 1)) as ->.
    { rewrite <-Z.pow_succ_r by lia. f_equal. lia. }
    assert (0 < 2 ^ (- e - 1)) as Hh by (apply Z.pow_pos_nonneg; lia).
    set (hf := 2 ^ (- e - 1)) in *.
    pose proof (Z.div_mod (Z.pos m + hf) (2 * hf) ltac:(lia)) as Hdm.
    pose proof (Z.mod_pos_bound (Z.pos m + hf) (2 * hf) ltac:(lia)) as Hr.
    assert (0 ≤ (Z.pos m + hf) `div` (2 * hf)) as Ha by (apply Z.div_pos; lia).
    set (a := (Z.pos m + hf) `div` (2 * hf)) in *.
    change (2 ^ 0) with 1.
    destruct sg; simpl; (split; [lia|]);
      rewrite ?Z.abs_opp, Z.abs_eq by lia; nia.
Qed.

(** The seed computed from a clock reading. *)
Lemma clock_seed_spec (t : float) :
  match SpecFloat.SFmul 53 1024 t (SpecFloat.binary_normalize 53 1024 1000 0 false) with
  | SpecFloat.S754_zero _ => clock_seed t = inr 0
  | SpecFloat.S754_finite sg m e =>
      ∃ n, nearest_integer sg m e n ∧ clock_seed t = inr (n `mod` 1000000)
  | _ => ∃ e, clock_seed t = inl e
  end.
Proof.
  unfold clock_seed, float_mul, float_of_Z.
  destruct (SpecFloat.SFmul _ _ _ _) as [?|?| |sg m e]; simpl; eauto.
  exists (round_half_away sg m e). split; [apply round_half_away_nearest|done].
Qed.

(** The run of the seed section. *)
Lemma set_seed_run {S} (h : Handler S) seed s tr r s' :
  run h (set_seed seed) s = (tr, r, s') →
  (seed = None ∨ seed = Some 0 →
     (∃ ans, head tr = Some (Ev float Time ans)) ∧
     (∀ t, clock_reads tr = [t] →
        match clock_seed t with
        | inr z => seeds_set tr = [z]
        | inl e => seeds_set tr = [] ∧ r = inl e
        end) ∧
     (clock_reads tr = [] → seeds_set tr = [])) ∧
  (∀ z, seed = Some z → z ≠ 0 → seeds_set tr = [z] ∧ clock_reads tr = []) ∧
  (∀ z, r = inr z → seeds_set tr = [z]).
Proof.
  intros Hrun. unfold set_seed in Hrun.
  assert (seed = None ∨ seed = Some 0 ∨ ∃ z, seed = Some z ∧ z ≠ 0)
    as [->|[->|(z & -> & Hz)]].
  { destruct seed as [z|]; [|by left]. destruct (decide (z = 0)) as [->|]; eauto. }
  - simpl in Hrun.
    destruct (h _ Time s) as [[e|t] s1]; simpl in Hrun;
      [|destruct (clock_seed t) as [e|z] eqn:Hcs; simpl in Hrun;
        [|destruct (h _ (RandomSeed z) s1) as [[e|[]] s2]; simpl in Hrun]];
      injection Hrun as <- <- <-; (split_and!; [intros _; split_and!|..]);
      try (by eexists); try done;
      try (by intros ? [= <-]; rewrite Hcs); try (by intros ? [=] ?);
      try (by intros ? [= ->]).
  - simpl in Hrun.
    destruct (h _ Time s) as [[e|t] s1]; simpl in Hrun;
      [|destruct (clock_seed t) as [e|z] eqn:Hcs; simpl in Hrun;
        [|destruct (h _ (RandomSeed z) s1) as [[e|[]] s2]; simpl in Hrun]];
      injection Hrun as <- <- <-; (split_and!; [intros _; split_and!|..]);
      try (by eexists); try done;
      try (by intros ? [= <-]; rewrite Hcs); try (by intros ? [=] ?);
      try (by intros ? [= ->]).
  - rewrite bool_decide_eq_false_2 in Hrun by done. simpl in Hrun.
    destruct (h _ (RandomSeed z) s) as [[e|[]] s1]; simpl in Hrun;
      injection Hrun as <- <- <-; (split_and!; [by intros [[=]|[= ->]]|..]);
      try done; try (by intros ? [= <-] ?); try (by intros ? [= ->]).
Qed.

(** A run that gets through the announcement has printed the seed. *)
Lemma define_dim_run {S} (h : Handler S) data model_opts z s tr dim s' :
  run h (define_dim data model_opts z) s = (tr, inr dim, s') →
  seed_notice z ∈ printed tr.
Proof.
  intros H. unfold define_dim, banner, first_view, getitem in H. simpl in H.
  repeat run_step H.
  all: destruct data; simpl in H; try discriminate H.
  all: repeat run_step H.
  all: injection H as <- _ _; simpl; do 5 right; by left.
Qed.

(** The seed and the clock in a whole run are those of its seed section. *)
Lemma seed_of_run {S} (h : Handler S) (s : S) (data : Data)
    (data_opts model_opts train_opts : PyDict) (seed : option Z) tr res s' :
  run h (runMOFA data data_opts model_opts train_opts seed) s = (tr, res, s') →
  ∃ tr1 r1 s1 tr2,
    run h (set_seed seed) s = (tr1, r1, s1) ∧ tr = tr1 ++ tr2 ∧
    seeds_set tr = seeds_set tr1 ∧ clock_reads tr = clock_reads tr1 ∧
    (TInitModel ∈ tags tr → ∃ z, r1 = inr z ∧ seed_notice z ∈ printed tr) ∧
    (∀ e, r1 = inl e → res = inl e).
Proof.
  intros Hrun. unfold runMOFA in Hrun.
  stage Hrun E1.
  { injection Hrun as <- <- <-. exists tr0, (inl e), s0, [].
    rewrite app_nil_r. split_and!; try done; [|by intros ? [= ->]].
    avoid [TInitModel] E1. intros Hin. absurd_tag Hin. }
  exists tr0, (inr a), s0.
  assert (∀ tr2, tr = tr0 ++ tr2 →
            (∀ t, t ∈ tags tr2 → t ∉ [TRandomSeed; TTime]) →
            seeds_set tr = seeds_set tr0 ∧ clock_reads tr = clock_reads tr0)
    as Hobs.
  { intros tr2 -> Hav. unfold seeds_set, clock_reads. rewrite !omap_app.
    quiet seed_call TRandomSeed seed_call_tag.
    quiet clock_answer TTime clock_answer_tag. by rewrite !app_nil_r. }
  avoid [TInitModel] E1.
  destruct (run h (sanity_checks data_opts ≫= _) s0) as [[tr2 r2] s2] eqn:Erest.
  pose proof Erest as Erest'. avoid [TRandomSeed; TTime] Erest'.
  injection Hrun as <- <- <-. exists tr2.
  destruct (Hobs tr2 eq_refl Hav0) as [? ?]. split_and!; try done.
  intros Hin. exists a. split; [done|].
  stage Erest E2; avoid [TInitModel] E2;
    [injection Erest as <- <- <-; absurd_tag Hin|].
  stage Erest E3; avoid [TInitModel] E3;
    [injection Erest as <- <- <-; absurd_tag Hin|].
  stage Erest E4; avoid [TInitModel] E4;
    [injection Erest as <- <- <-; absurd_tag Hin|].
  last_stage Erest E5. injection Erest as <- <- <-.
  apply define_dim_run in E4.
  unfold printed in *. rewrite !omap_app, !elem_of_app. eauto.
Qed.

Lemma head_app_cons {A} (x : A) (l k : list A) :
  head l = Some x → head (l ++ k) = Some x.
Proof. by destruct l. Qed.

(** C8.  With [seed] equal to [None] or to 0 the clock is read first and
    the generator is seeded with [int(round(time()*1000) % 1e6)] of the
    reading [t]: with [p] the binary64 product of [t] and [1000.0], the seed
    is [n mod 1000000] for the integer [n] nearest to [p] (a half going away
    from zero), and the run ends with an exception, no seed set, when [p]
    is an infinity or a NaN.  So seed 0 cannot be asked for: [runMOFA] with
    seed 0 is [runMOFA] without a seed.  With any other seed the clock is
    not read and the generator is seeded with that very value.  The seed
    given to the generator is the one printed, in every run that reaches
    the construction of the model. *)
Theorem seed_in_use {S} (h : Handler S) (s : S) (data : Data)
    (data_opts model_opts train_opts : PyDict) (seed : option Z) :
  let r := run h (runMOFA data data_opts model_opts train_opts seed) s in
  let tr := trace_of r in
  (seed = None ∨ seed = Some 0 →
     (∃ ans, head tr = Some (Ev float Time ans)) ∧
     (clock_reads tr = [] → seeds_set tr = []) ∧
     (∀ t, clock_reads tr = [t] →
        match SpecFloat.SFmul 53 1024 t
                (SpecFloat.binary_normalize 53 1024 1000 0 false) with
        | SpecFloat.S754_zero _ => seeds_set tr = [0]
        | SpecFloat.S754_finite sg m e =>
            ∃ n, nearest_integer sg m e n ∧ seeds_set tr = [n `mod` 1000000]
        | _ => seeds_set tr = [] ∧ ∃ e, result_of r = inl e
        end)) ∧
  (∀ z, seed = Some z → z ≠ 0 →
     (TTime ∉ tags tr) ∧ clock_reads tr = [] ∧ seeds_set tr = [z]) ∧
  (TInitModel ∈ tags tr →
     ∃ z, seeds_set tr = [z] ∧ seed_notice z ∈ printed tr) ∧
  runMOFA data data_opts model_opts train_opts (Some 0) =
  runMOFA data data_opts model_opts train_opts None.
Proof.
  cbv zeta.
  destruct (run h (runMOFA data data_opts model_opts train_opts seed) s)
    as [[tr res] s'] eqn:Hrun. cbn [trace_of result_of fst snd].
  destruct (seed_of_run h _ _ _ _ _ _ _ _ _ Hrun)
    as (tr1 & r1 & s1 & tr2 & E1 & -> & Hs & Hc & Hp & Hfail).
  destruct (set_seed_run h _ _ _ _ _ E1) as (Hclock & Hgiven & Hres).
  split_and!; [| | |done].
  - intros Hseed. destruct (Hclock Hseed) as ([ans Hhead] & H1 & H2).
    split_and!.
    + exists ans. by apply head_app_cons.
    + rewrite Hc, Hs. apply H2.
    + intros t. rewrite Hc, Hs. intros Ht. specialize (H1 t Ht).
      pose proof (clock_seed_spec t) as Hspec.
      destruct (SpecFloat.SFmul 53 1024 t _) as [?|?| |sg m e].
      * by rewrite Hspec in H1.
      * destruct Hspec as [e He]. rewrite He in H1. destruct H1 as [? ->].
        split; [done|]. exists e. by apply Hfail.
      * destruct Hspec as [e He]. rewrite He in H1. destruct H1 as [? ->].
        split; [done|]. exists e. by apply Hfail.
      * destruct Hspec as (n & Hn & He). rewrite He in H1. by exists n.
  - intros z -> Hz. destruct (Hgiven z eq_refl Hz) as [H1 H2].
    split_and!; [|by rewrite Hc|by rewrite Hs].
    assert (conforms (runMOFA data data_opts model_opts train_opts (Some z))
                     (L_runMOFA [[TRandomSeed]] L_theta)) as Hconf.
    { apply conforms_runMOFA; [by apply conforms_set_seed_given| |done].
      intros. apply conforms_initTheta. }
    pose proof (conforms_run _ _ (λ w, bool_decide (TTime ∉ w)) Hconf
                  ltac:(by vm_compute) S h s) as Hno.
    cbv beta in Hno. rewrite Hrun in Hno. by apply bool_decide_eq_true in Hno.
  - intros Hin. destruct (Hp Hin) as (z & -> & Hnotice).
    exists z. split; [|done]. rewrite Hs. by apply Hres.
Qed.

Lemma seed_in_use_witness :
  let tr0 := trace_of (ex_run "/tmp/test.h5" (ex_model_opts ones) None at_123456) in
  let tr7 := trace_of (ex_run "/tmp/test.h5" (ex_model_opts ones) (Some 7) at_123456) in
  (clock_reads tr0 = [at_123456] ∧ seeds_set tr0 = [123] ∧
   seed_notice 123 ∈ printed tr0) ∧
  ((TTime ∉ tags tr7) ∧ clock_reads tr7 = [] ∧ seeds_set tr7 = [7] ∧
   seed_notice 7 ∈ printed tr7).
Proof.
  cbv zeta. split.
  - destruct (seed_in_use (world_handler registry) (ex_world
                at_123456 ["/tmp"] 0) ex_data
                (ex_data_opts "/tmp/test.h5") (ex_model_opts ones) ex_train_opts
                None) as (H & _ & Hp & _).
    destruct (H (or_introl eq_refl)) as (_ & _ & Hseed).
    assert (clock_reads (trace_of (ex_run "/tmp/test.h5" (ex_model_opts ones) None
              at_123456))
            = [at_123456]) as Hc
      by (vm_compute; reflexivity).
    assert (seeds_set (trace_of (ex_run "/tmp/test.h5" (ex_model_opts ones) None
              at_123456)) = [123]) as Hs
      by (vm_compute; reflexivity).
    split_and!; [exact Hc|exact Hs|].
    destruct Hp as (z & Hz & Hn).
    { apply (bool_decide_unpack _). vm_compute. reflexivity. }
    unfold ex_run in Hs. rewrite Hs in Hz. injection Hz as <-. exact Hn.
  - destruct (seed_in_use (world_handler registry) (ex_world
                at_123456 ["/tmp"] 0) ex_data
                (ex_data_opts "/tmp/test.h5") (ex_model_opts ones) ex_train_opts
                (Some 7)) as (_ & H & Hp & _).
    destruct (H 7 eq_refl) as (Ht & Hc & Hs); [discriminate|].
    split_and!; [exact Ht|exact Hc|exact Hs|].
    destruct Hp as (z & Hz & Hn).
    { apply (bool_decide_unpack _). vm_compute. reflexivity. }
    unfold ex_run in Hs. rewrite Hs in Hz. injection Hz as <-. exact Hn.
Defined.

(** Without a seed, two clock readings give two seeds: the run cannot be
    repeated. *)
Example clock_seeds_differ :
  seeds_set (trace_of (ex_run "/tmp/test.h5" (ex_model_opts ones) None
                              at_123456)) = [123] ∧
  seeds_set (trace_of (ex_run "/tmp/test.h5" (ex_model_opts ones) None
                              at_987654)) = [988].
Proof. by vm_compute. Qed.

(** The product is the product of floats: the reading [1700000000.0015]
    times [1000.0] is the float [1700000000001.5], which rounds to a seed
    of 2, where the product of the numbers would round to 1; the readings
    [2199023255.4195] and, 1000 seconds later, [2199024255.4195] give the
    seeds 255419 and 255420. *)
Example clock_seed_of_floats :
  clock_seed (SpecFloat.S754_finite false 7130316800006291 (-22)) = inr 2 ∧
  clock_seed (SpecFloat.S754_finite false 4611686018149515 (-21)) = inr 255419 ∧
  clock_seed (SpecFloat.S754_finite false 4611688115301515 (-21)) = inr 255420.
Proof. by vm_compute. Qed.

(** A reading that is no number, or one too large, is refused. *)
Example clock_seed_not_finite :
  clock_seed SpecFloat.S754_nan =
    inl (Raised "ValueError: cannot convert float NaN to integer") ∧
  clock_seed (SpecFloat.S754_infinity false) =
    inl (Raised "ValueError: cannot convert float NaN to integer") ∧
  clock_seed (SpecFloat.S754_finite false 9007199254740991 971) =
    inl (Raised "ValueError: cannot convert float NaN to integer") ∧
  result_of (ex_run "/tmp/test.h5" (ex_model_opts ones) None SpecFloat.S754_nan) =
    inl (Raised "ValueError: cannot convert float NaN to integer").
Proof. by vm_compute. Qed.

(** ** Determinism *)

Lemma conforms_uses_only {A} (p : Prog A) L P :
  conforms p L → lang_within L P = true → uses_only P p.
Proof.
  intros Hp HL.
  assert (∀ pre, (∀ w r, path p w r → ∃ w', w' ∈ L ∧ pre ++ w `prefix_of` w') →
                 uses_only P p) as Hgen.
  { clear Hp. induction p as [a|e|X c k IH]; intros pre Hpre; simpl; [done..|].
    split.
    - destruct (Hpre [tag_of c] None) as (w' & Hin & [k' ->]); [by left|].
      unfold lang_within in HL. rewrite forallb_forall in HL.
      apply list_elem_of_In, HL in Hin. rewrite forallb_forall in Hin.
      apply Hin, list_elem_of_In. rewrite !elem_of_app. left; right. by left.
    - intros x. apply (IH x (pre ++ [tag_of c])). intros w r Hw.
      destruct (Hpre (tag_of c :: w) r) as (w' & ? & ?); [right; eauto|].
      exists w'. split; [done|]. by rewrite <-app_assoc. }
  apply (Hgen []). intros w r Hw. specialize (Hp w r Hw).
  destruct r; simpl in Hp; [by exists w|done].
Qed.

Section worlds.
Context (C : Collab).

Lemma world_handler_same {X} (c : Cmd X) (w1 w2 : World C) :
  deterministic_tag (tag_of c) = true → same_model w1 w2 →
  (world_handler C X c w1).1 = (world_handler C X c w2).1 ∧
  same_model (world_handler C X c w1).2 (world_handler C X c w2).2.
Proof.
  intros Hdet [Hrng Hmod]. unfold same_model.
  destruct w1 as [c1 d1 o1 g1 m1], w2 as [c2 d2 o2 g2 m2]. simpl in Hrng, Hmod. subst g2 m2.
  destruct c; try discriminate Hdet; simpl;
    repeat match goal with
           | |- context [match ?x with _ => _ end] => destruct x; simpl
           end; done.
Qed.

Lemma world_handler_outside {X} (c : Cmd X) (w : World C) :
  outside_tag (tag_of c) = true → same_model (world_handler C X c w).2 w.
Proof.
  intros Hout. unfold same_model.
  destruct c; try discriminate Hout; simpl;
    repeat match goal with
           | |- context [match ?x with _ => _ end] => destruct x; simpl
           end; done.
Qed.

(** No call outside the clock and the file system: same generator and same
    model at the start give the same calls, the same answers, the same
    outcome, and the same generator and model at the end. *)
Lemma run_same {A} (p : Prog A) (w1 w2 : World C) :
  uses_only deterministic_tag p → same_model w1 w2 →
  trace_of (run (world_handler C) p w1) = trace_of (run (world_handler C) p w2) ∧
  result_of (run (world_handler C) p w1) = result_of (run (world_handler C) p w2) ∧
  same_model (state_of (run (world_handler C) p w1))
             (state_of (run (world_handler C) p w2)).
Proof.
  revert w1 w2. induction p as [a|e|X c k IH]; intros w1 w2 Hp Hw; simpl; [done..|].
  destruct Hp as [Hc Hk].
  destruct (world_handler_same c w1 w2 Hc Hw) as [Hans Hw'].
  destruct (world_handler C X c w1) as [r1 w1'], (world_handler C X c w2) as [r2 w2'].
  simpl in Hans, Hw'. subst r2. destruct r1 as [e|x]; [done|].
  destruct (IH x w1' w2' (Hk x) Hw') as (Htr & Hres & Hst).
  destruct (run (world_handler C) (k x) w1') as [[tr1 res1] s1],
           (run (world_handler C) (k x) w2') as [[tr2 res2] s2].
  unfold trace_of, result_of, state_of in *. simpl in *. by subst.
Qed.

(** Only calls to the clock, the file system and the output: the generator
    and the model are as before. *)
Lemma run_outside {A} (p : Prog A) (w : World C) :
  uses_only outside_tag p → same_model (state_of (run (world_handler C) p w)) w.
Proof.
  revert w. induction p as [a|e|X c k IH]; intros w Hp; simpl; [done..|].
  destruct Hp as [Hc Hk].
  pose proof (world_handler_outside c w Hc) as Hw'.
  destruct (world_handler C X c w) as [[e|x] w']; [done|].
  specialize (IH x w' (Hk x)).
  destruct (run (world_handler C) (k x) w') as [[tr res] s].
  unfold state_of in *. simpl in *. destruct IH, Hw'. split; congruence.
Qed.
End worlds.

Lemma conforms_after_sanity data data_opts model_opts train_opts seed :
  conforms (parse_data data data_opts ≫= λ data,
            define_dim data model_opts seed ≫= λ dim,
            init_nodes dim data data_opts model_opts seed ≫= λ init,
            markov_blankets init ≫= λ _,
            build_net dim init model_opts train_opts ≫= λ net,
            train net seed ≫= λ _,
            save net data data_opts model_opts train_opts)
           (lang_seq [L_parse; L_dim; L_init L_theta; L_blankets;
                      L_net; L_train; L_save]).
Proof. conf_seq; [apply conforms_parse_data|]. apply conforms_after_parse. Qed.

(** C7.  Two runs of [runMOFA] on the same data and options with the same
    seed, not 0, started with the same model state and both carried to the
    end: whatever the clock, the directories, the output so far and the
    state of the generator of each, they leave the same model (the final
    ELBO and the final [K] with it) and the same generator state. *)
Theorem fixed_seed_deterministic (C : Collab) (data : Data)
    (data_opts model_opts train_opts : PyDict) (z : Z) (w1 w2 : World C) :
  z ≠ 0 → w_model w1 = w_model w2 →
  let p := runMOFA data data_opts model_opts train_opts (Some z) in
  let r1 := run (world_handler C) p w1 in
  let r2 := run (world_handler C) p w2 in
  result_of r1 = inr tt → result_of r2 = inr tt →
  w_model (state_of r1) = w_model (state_of r2) ∧
  w_rng (state_of r1) = w_rng (state_of r2).
Proof.
  intros Hz Hmod p r1 r2. subst p r1 r2. unfold runMOFA.
  assert (∀ w : World C,
            run (world_handler C) (set_seed (Some z)) w =
            match seed_gen C z with
            | inl e => ([Ev unit (RandomSeed z) (inl e)], inl e, w)
            | inr g => ([Ev unit (RandomSeed z) (inr tt)], inr z, set_rng g w)
            end) as Hseed.
  { intros w. unfold set_seed. rewrite bool_decide_eq_false_2 by done. simpl.
    by destruct (seed_gen C z). }
  rewrite !run_bind, !Hseed. destruct (seed_gen C z) as [e|g]; [done|].
  cbv beta iota. rewrite !run_bind.
  pose proof (run_outside C (sanity_checks data_opts) (set_rng g w1)) as Ho1.
  pose proof (run_outside C (sanity_checks data_opts) (set_rng g w2)) as Ho2.
  destruct (run (world_handler C) (sanity_checks data_opts) (set_rng g w1))
    as [[tr1 [e1|[]]] s1]; [done|].
  destruct (run (world_handler C) (sanity_checks data_opts) (set_rng g w2))
    as [[tr2 [e2|[]]] s2]; [done|].
  cbv beta iota.
  assert (uses_only outside_tag (sanity_checks data_opts)) as Hout.
  { eapply conforms_uses_only; [apply conforms_sanity_checks|by vm_compute]. }
  specialize (Ho1 Hout). specialize (Ho2 Hout).
  cbn [state_of snd] in Ho1, Ho2.
  assert (same_model s1 s2) as Hs.
  { destruct Ho1 as [Hr1 Hm1], Ho2 as [Hr2 Hm2]. split.
    - rewrite Hr1, Hr2. by destruct w1, w2.
    - rewrite Hm1, Hm2. by destruct w1, w2. }
  match goal with
  | |- context [run _ ?q s1] =>
      destruct (run_same C q s1 s2) as (_ & _ & Hst1 & Hst2); [|done|]
  end.
  { eapply conforms_uses_only; [apply conforms_after_sanity|by vm_compute]. }
  intros _ _.
  destruct (run (world_handler C) _ s1) as [[? ?] ?],
           (run (world_handler C) _ s2) as [[? ?] ?].
  by cbn [state_of snd fst] in *.
Qed.

Lemma fixed_seed_deterministic_witness :
  let p := runMOFA ex_data (ex_data_opts "/tmp/test.h5") (ex_model_opts ones)
                   ex_train_opts (Some 7) in
  let r1 := run (world_handler registry) p
                (ex_world at_123456 ["/tmp"] 0) in
  let r2 := run (world_handler registry) p
                (ex_world at_987654 [] 5) in
  w_model (state_of r1) = w_model (state_of r2) ∧
  w_rng (state_of r1) = w_rng (state_of r2).
Proof.
  apply (fixed_seed_deterministic registry ex_data (ex_data_opts "/tmp/test.h5")
           (ex_model_opts ones) ex_train_opts 7
           (ex_world at_123456 ["/tmp"] 0)
           (ex_world at_987654 [] 5));
    [lia|reflexivity|vm_compute; reflexivity|vm_compute; reflexivity].
Defined.

(** In the registry the final ELBO stands for the state of the generator
    at [iterate]: seeded with 7 in both worlds, it is the same; the final
    [K] is the configured one. *)
Example registry_same_elbo :
  let p := runMOFA ex_data (ex_data_opts "/tmp/test.h5") (ex_model_opts ones)
                   ex_train_opts (Some 7) in
  let w1 := state_of (run (world_handler registry) p
                (ex_world at_123456 ["/tmp"] 0)) in
  let w2 := state_of (run (world_handler registry) p
                (ex_world at_987654 [] 5)) in
  final_elbo w1 = Some 7 ∧ final_elbo w2 = Some 7 ∧
  final_K w1 = ex_model_opts ones !! "factors" ∧
  final_K w2 = ex_model_opts ones !! "factors" ∧ w_dirs w1 ≠ w_dirs w2.
Proof.
  cbv zeta. split_and!; [by vm_compute..|].
  intros H. assert ("/" ∈ w_dirs (state_of (run (world_handler registry)
     (runMOFA ex_data (ex_data_opts "/tmp/test.h5") (ex_model_opts ones)
        ex_train_opts (Some 7))
     (ex_world at_987654 [] 5)))) as Hin
    by (apply (bool_decide_unpack _); vm_compute; reflexivity).
  rewrite <-H in Hin. revert Hin. apply (bool_decide_unpack _). by vm_compute.
Qed.

(** * Further properties of [runMOFA] *)

Lemma sleep_call_tag ev : is_Some (sleep_call ev) → ev_tag ev = TSleep.
Proof. destruct ev as [X c r]. by destruct c; intros [? [=]]. Qed.

Lemma initModel_call_tag ev : is_Some (initModel_call ev) → ev_tag ev = TInitModel.
Proof. destruct ev as [X c r]. by destruct c; intros [? [=]]. Qed.

Lemma init_answer_tag ev : is_Some (init_answer ev) → ev_tag ev = TInitModel.
Proof. destruct ev as [X c r]. by destruct c; intros [? ?]; simplify_eq/=. Qed.

Lemma mask_answer_tag ev : is_Some (mask_answer ev) → ev_tag ev = TMaskData.
Proof. destruct ev as [X c r]. by destruct c; intros [? ?]; simplify_eq/=. Qed.

Lemma isdir_answer_tag ev : is_Some (isdir_answer ev) → ev_tag ev = TIsDir.
Proof. destruct ev as [X c r]. by destruct c; intros [? ?]; simplify_eq/=. Qed.

Lemma net_call_tag ev : is_Some (net_call ev) → ev_tag ev = TBayesNet.
Proof. destruct ev as [X c r]. by destruct c; intros [? [=]]. Qed.

Lemma net_answer_tag ev : is_Some (net_answer ev) → ev_tag ev = TBayesNet.
Proof. destruct ev as [X c r]. by destruct c; intros [? ?]; simplify_eq/=. Qed.

Lemma iterate_call_tag ev : is_Some (iterate_call ev) → ev_tag ev = TIterate.
Proof. destruct ev as [X c r]. by destruct c; intros [? [=]]. Qed.

Lemma save_call_tag ev : is_Some (save_call ev) → ev_tag ev = TSaveModel.
Proof. destruct ev as [X c r]. by destruct c; intros [? [=]]. Qed.

(** The run of the section that defines the dimensionalities, when it
    comes to its end. *)
Lemma define_dim_returns {S} (h : Handler S) data model_opts z s tr dim s' :
  run h (define_dim data model_opts z) s = (tr, inr dim, s') →
  ∃ df K, head data = Some df ∧ model_opts !! "factors" = Some K ∧
    dim = {| dim_M := length data; dim_N := shape0 df;
             dim_D := shape1 <$> data; dim_K := K |} ∧
    printed tr = banner_lines 24 "## Building the model ##" ++ [seed_notice z] ∧
    sleeps tr = [1].
Proof.
  intros H. unfold define_dim, banner, first_view, getitem in H. simpl in H.
  repeat run_step H.
  all: destruct data as [|df data]; simpl in H; try discriminate H.
  all: repeat run_step H.
  all: injection H as <- <- _; exists df; eexists; split_and!; reflexivity.
Qed.

Lemma run_getitem {S} (h : Handler S) (d : PyDict) k s tr r s' :
  run h (getitem d k) s = (tr, r, s') →
  tr = [] ∧ s' = s ∧
  r = match d !! k with Some v => inr v | None => inl (KeyError k) end.
Proof. unfold getitem. destruct (d !! k); by intros [= <- <- <-]. Qed.

Lemma conforms_after_initModel init data_opts model_opts :
  conforms (initZ init data_opts model_opts ≫= λ _,
            initSW init model_opts ≫= λ _,
            initAlphaW init model_opts ≫= λ _,
            initTau init model_opts ≫= λ _,
            initTheta init model_opts ≫= λ _,
            call (InitY init) ≫= λ _, mret init)
           (lang_seq [[[TInitZ]]; [[TInitSW]]; [[TInitAlphaW_mk]]; [[TInitTau]];
                      L_theta; [[TInitY]]]).
Proof.
  do 4 (conf_seq; [conf|]). conf_seq; [apply conforms_initTheta|]. conf_seq; conf.
Qed.

#[export] Hint Resolve conforms_after_initModel : stagesdb.

Ltac fold_omap :=
  repeat match goal with
         | |- context [list_omap ?A ?B ?f ?l] =>
             change (list_omap A B f l) with (omap f l)
         end.

(** Split off the sections of the run of equation [H] one by one, as long
    as they return. *)
Ltac stages_ok H :=
  repeat (let E := fresh "E" in stage H E; [discriminate H|]).

Lemma init_methods_return {S} (h : Handler S) init data_opts model_opts s tr i s' :
  run h (initZ init data_opts model_opts ≫= λ _,
         initSW init model_opts ≫= λ _,
         initAlphaW init model_opts ≫= λ _,
         initTau init model_opts ≫= λ _,
         initTheta init model_opts ≫= λ _,
         call (InitY init) ≫= λ _, mret init) s = (tr, inr i, s') →
  i = init.
Proof. intros H. stages_ok H. simpl in H. by injection H as _ <- _. Qed.

(** The construction section calls [initModel] once, first, on the
    dimensionalities, the data, the likelihoods and the seed; what it
    returns is what the section returns. *)
Lemma init_nodes_initModel {S} (h : Handler S) dim data data_opts model_opts seed
    s tr res s' :
  run h (init_nodes dim data data_opts model_opts seed) s = (tr, res, s') →
  TInitModel ∈ tags tr →
  ∃ lik, model_opts !! "likelihoods" = Some lik ∧
         initModel_calls tr = [(dim, data, lik, seed)] ∧
         ∀ i, res = inr i → omap init_answer tr = [i].
Proof.
  intros Hrun Hin. unfold init_nodes in Hrun.
  stage Hrun E0; apply run_getitem in E0 as (-> & -> & Hr).
  { injection Hrun as <- _ _. by apply elem_of_nil in Hin. }
  destruct (model_opts !! "likelihoods") as [lik|]; [|done].
  injection Hr as ->. exists lik. split; [done|].
  stage Hrun E1; rewrite run_call in E1;
    destruct (h _ _ s) as [[e'|i] s1]; simplify_eq/=; [done|].
  last_stage Hrun E2. avoid [TInitModel] E2. injection Hrun as <- <- <-.
  unfold initModel_calls. simpl. fold_omap.
  quiet initModel_call TInitModel initModel_call_tag.
  quiet init_answer TInitModel init_answer_tag.
  split; [done|]. intros i' ->.
  by rewrite (init_methods_return h _ _ _ _ _ _ _ E2).
Qed.

(** The run of the section that builds the network. *)
Lemma build_net_run {S} (h : Handler S) dim init model_opts train_opts s tr res s' :
  run h (build_net dim init model_opts train_opts) s = (tr, res, s') →
  TBayesNet ∈ tags tr →
  ∃ schedule nodes,
    model_opts !! "schedule" = Some schedule ∧
    nodes_seen tr = [nodes] ∧
    net_calls tr = [(dim, schedule, nodes, train_opts)] ∧
    ∀ net, res = inr net → omap net_answer tr = [net].
Proof.
  intros H Hin. unfold build_net, getitem in H.
  destruct (model_opts !! "schedule") as [schedule|]; simpl in H;
    [|injection H as <- _ _; by apply elem_of_nil in Hin].
  repeat run_step H; injection H as <- <- _.
  - apply list_elem_of_singleton in Hin. discriminate Hin.
  - eexists _, _. split_and!; try done; by intros ? [=].
  - eexists _, _. split_and!; try done; by intros ? [= <-].
Qed.

(** The run of the training section. *)
Lemma train_run {S} (h : Handler S) net z s tr res s' :
  run h (train net z) s = (tr, res, s') →
  (TIterate ∈ tags tr ∨ res = inr tt →
   iterate_calls tr = [net] ∧ sleeps tr = [1] ∧
   printed tr = banner_lines 45 ("## Running MOFA with seed " +:+ pretty z +:+ " ##")) ∧
  (res = inr tt → Forall (λ ev, ev_ok ev = true) tr).
Proof.
  intros H. unfold train, banner in H. simpl in H.
  repeat run_step H; injection H as <- <- _;
    (split; [intros [Hin|Hres]|intros Hres]; try discriminate Hres;
     try (by repeat constructor);
     try (repeat (apply elem_of_cons in Hin as [Hin|Hin]; [discriminate Hin|]);
          by apply elem_of_nil in Hin)).
Qed.

(** Evaluate a section step by step, also through the tests it makes on
    the data and on the values of the options. *)
Ltac run_case H :=
  match type of H with
  | context [match ?h ?X ?c ?s with _ => _ end] =>
      destruct (h X c s) as [[?e|?x] ?s] eqn:?; simpl in H
  | context [match ?m !! ?k with _ => _ end] =>
      destruct (m !! k) eqn:?; simpl in H
  | context [match ?v with VNone => _ | _ => _ end] => destruct v; simpl in H
  | context [match ?l with [] => _ | _ :: _ => _ end] => destruct l; simpl in H
  | context [negb ?b] => is_var b; destruct b; simpl in H
  | (_, inl _, _) = (_, inr _, _) => discriminate H
  | (_, inr _, _) = (_, inl _, _) => discriminate H
  end.

(** The call named in [Hin] is not among the calls listed there. *)
Ltac not_called Hin :=
  simpl in Hin;
  repeat (apply elem_of_cons in Hin as [Hin|Hin]; [discriminate Hin|]);
  by apply elem_of_nil in Hin.

(** The run of the section that saves the model. *)
Lemma save_run {S} (h : Handler S) net data data_opts model_opts train_opts
    s tr res s' :
  run h (save net data data_opts model_opts train_opts) s = (tr, res, s') →
  TSaveModel ∈ tags tr →
  ∃ df p views,
    head data = Some df ∧ data_opts !! "outfile" = Some (VStr p) ∧
    data_opts !! "view_names" = Some views ∧
    save_calls tr = [{| sv_net := net; sv_outfile := VStr p; sv_view_names := views;
                        sv_sample_names := df_index df;
                        sv_feature_names := df_columns <$> data;
                        sv_train_opts := train_opts; sv_model_opts := model_opts |}] ∧
    printed tr = banner_lines 43 "## Training finished, processing results ##" ++
                 ["Saving model in " +:+ p +:+ "..." +:+ nl].
Proof.
  intros H Hin. unfold save, banner, first_view, getitem, as_str in H. simpl in H.
  repeat run_case H; injection H as <- _ _; try not_called Hin.
  all: eexists _, _, _; split_and!; reflexivity.
Qed.

(** What the sanity check prints. *)
Lemma sanity_checks_printed {S} (h : Handler S) data_opts s tr s' :
  run h (sanity_checks data_opts) s = (tr, inr tt, s') →
  ∃ p b, data_opts !! "outfile" = Some (VStr p) ∧
         isdir_answers tr = [(dirname p, b)] ∧
         printed tr = (if b then [] else [dir_notice]) ∧ sleeps tr = [].
Proof.
  intros H. unfold sanity_checks, getitem, as_str in H. simpl in H.
  repeat run_case H; injection H as <- _.
  all: eexists _, _; split_and!; reflexivity.
Qed.

(** The data the model is built from, in terms of the parsing section. *)
Lemma parse_data_modelled {S} (h : Handler S) data data_opts s tr data' s' :
  run h (parse_data data data_opts) s = (tr, inr data', s') →
  default data (head (omap mask_answer tr)) = data'.
Proof.
  intros E. pose proof (parse_data_run h data data_opts s) as H. cbv zeta in H.
  rewrite E in H. cbn [trace_of result_of fst snd] in H.
  destruct H as [(_ & ans & -> & <-)|(_ & -> & [[= ->]|[? [=]]])]; done.
Qed.

(** X1.  [initModel] is called at most once, on the dimensionalities of the
    data to model (the masked data, if [maskData] was applied): the number
    of views, the number of rows of the first view, the number of columns
    of each view, and [model_opts['factors']]; with that data, with
    [model_opts['likelihoods']] and with the seed given to the generator. *)
Theorem initModel_arguments {S} (h : Handler S) (s : S) (data : Data)
    (data_opts model_opts train_opts : PyDict) (seed : option Z) :
  let tr := trace_of (run h (runMOFA data data_opts model_opts train_opts seed) s) in
  TInitModel ∈ tags tr →
  ∃ df K lik z,
    head (modelled_data data tr) = Some df ∧
    model_opts !! "factors" = Some K ∧
    model_opts !! "likelihoods" = Some lik ∧
    seeds_set tr = [z] ∧
    initModel_calls tr =
      [({| dim_M := length (modelled_data data tr); dim_N := shape0 df;
           dim_D := shape1 <$> modelled_data data tr; dim_K := K |},
        modelled_data data tr, lik, z)].
Proof.
  cbv zeta.
  destruct (run h (runMOFA data data_opts model_opts train_opts seed) s)
    as [[tr res] s'] eqn:Hrun. cbn [trace_of fst].
  intros Hin. unfold runMOFA in Hrun.
  stage Hrun E1; avoid [TInitModel; TMaskData] E1;
    [injection Hrun as <- <- <-; absurd_tag Hin|].
  stage Hrun E2; avoid [TInitModel; TMaskData; TRandomSeed] E2;
    [injection Hrun as <- <- <-; absurd_tag Hin|].
  stage Hrun E3; avoid [TInitModel; TRandomSeed] E3;
    [injection Hrun as <- <- <-; absurd_tag Hin|].
  stage Hrun E4; avoid [TInitModel; TMaskData; TRandomSeed] E4;
    [injection Hrun as <- <- <-; absurd_tag Hin|].
  destruct (set_seed_run h _ _ _ _ _ E1) as (_ & _ & Hseed).
  specialize (Hseed _ eq_refl).
  apply parse_data_modelled in E3.
  destruct (define_dim_returns h _ _ _ _ _ _ _ E4) as (df & K & Hdf & HK & -> & _).
  stage Hrun E5; avoid [TMaskData; TRandomSeed] E5;
    [|last_stage Hrun E6; avoid [TInitModel; TMaskData; TRandomSeed] E6];
    injection Hrun as <- <- <-;
    (destruct (decide (TInitModel ∈ tags tr4)) as [Hin4|Hout];
     [|assert (∀ t, t ∈ tags tr4 → t ∉ [TInitModel])
         by (intros t Ht ->%list_elem_of_singleton; done); absurd_tag Hin]);
    destruct (init_nodes_initModel h _ _ _ _ _ _ _ _ _ E5 Hin4) as (lik & Hlik & Hc & _);
    exists df, K, lik, a;
    unfold modelled_data, seeds_set, initModel_calls in *; rewrite !omap_app;
    quiet mask_answer TMaskData mask_answer_tag;
    quiet seed_call TRandomSeed seed_call_tag;
    quiet initModel_call TInitModel initModel_call_tag;
    rewrite ?app_nil_r; simpl; rewrite E3, Hseed, Hc; done.
Qed.

Lemma initModel_arguments_witness :
  let tr := trace_of (run (world_handler registry)
                (runMOFA ex_data ex_mask_opts (ex_model_opts ones) ex_train_opts (Some 7))
                (ex_world at_1 ["/tmp"] 0)) in
  ∃ df K lik z,
    head (modelled_data ex_data tr) = Some df ∧
    ex_model_opts ones !! "factors" = Some K ∧
    ex_model_opts ones !! "likelihoods" = Some lik ∧
    seeds_set tr = [z] ∧
    initModel_calls tr =
      [({| dim_M := length (modelled_data ex_data tr); dim_N := shape0 df;
           dim_D := shape1 <$> modelled_data ex_data tr; dim_K := K |},
        modelled_data ex_data tr, lik, z)].
Proof.
  apply (initModel_arguments (world_handler registry) (ex_world at_1 ["/tmp"] 0)
           ex_data ex_mask_opts (ex_model_opts ones) ex_train_opts (Some 7)).
  apply (bool_decide_unpack _). vm_compute. reflexivity.
Defined.

(** A run in which [BayesNet] is called has gone through the first six
    sections; the rest of the run is the run of the last three. *)
Lemma sections_before_net {S} (h : Handler S) (s : S) (data : Data)
    (data_opts model_opts train_opts : PyDict) (seed : option Z) tr res s' :
  run h (runMOFA data data_opts model_opts train_opts seed) s = (tr, res, s') →
  TBayesNet ∈ tags tr →
  ∃ z data' dim init tr1 s1 tr2 s2 tr3 s3 tr4 s4 tr5 s5 tr6 s6 tr7,
    run h (set_seed seed) s = (tr1, inr z, s1) ∧
    run h (sanity_checks data_opts) s1 = (tr2, inr tt, s2) ∧
    run h (parse_data data data_opts) s2 = (tr3, inr data', s3) ∧
    run h (define_dim data' model_opts z) s3 = (tr4, inr dim, s4) ∧
    run h (init_nodes dim data' data_opts model_opts z) s4 = (tr5, inr init, s5) ∧
    run h (markov_blankets init) s5 = (tr6, inr tt, s6) ∧
    run h (build_net dim init model_opts train_opts ≫= λ net,
           train net z ≫= λ _,
           save net data' data_opts model_opts train_opts) s6 = (tr7, res, s') ∧
    tr = tr1 ++ tr2 ++ tr3 ++ tr4 ++ tr5 ++ tr6 ++ tr7.
Proof.
  intros Hrun Hin. unfold runMOFA in Hrun.
  stage Hrun E1; avoid [TBayesNet] E1; [injection Hrun as <- <- <-; absurd_tag Hin|].
  stage Hrun E2; avoid [TBayesNet] E2; [injection Hrun as <- <- <-; absurd_tag Hin|].
  stage Hrun E3; avoid [TBayesNet] E3; [injection Hrun as <- <- <-; absurd_tag Hin|].
  stage Hrun E4; avoid [TBayesNet] E4; [injection Hrun as <- <- <-; absurd_tag Hin|].
  stage Hrun E5; avoid [TBayesNet] E5; [injection Hrun as <- <- <-; absurd_tag Hin|].
  stage Hrun E6; avoid [TBayesNet] E6; [injection Hrun as <- <- <-; absurd_tag Hin|].
  last_stage Hrun E7. injection Hrun as <- <- <-. destruct a0, a4.
  by eexists _, _, _, _, _, _, _, _, _, _, _, _, _, _, _, _, _.
Qed.

(** A run that returns has gone through the nine sections. *)
Lemma sections_of_complete_run {S} (h : Handler S) (s : S) (data : Data)
    (data_opts model_opts train_opts : PyDict) (seed : option Z) tr s' :
  run h (runMOFA data data_opts model_opts train_opts seed) s = (tr, inr tt, s') →
  ∃ z data' dim init net tr1 s1 tr2 s2 tr3 s3 tr4 s4 tr5 s5 tr6 s6 tr7 s7 tr8 s8 tr9,
    run h (set_seed seed) s = (tr1, inr z, s1) ∧
    run h (sanity_checks data_opts) s1 = (tr2, inr tt, s2) ∧
    run h (parse_data data data_opts) s2 = (tr3, inr data', s3) ∧
    run h (define_dim data' model_opts z) s3 = (tr4, inr dim, s4) ∧
    run h (init_nodes dim data' data_opts model_opts z) s4 = (tr5, inr init, s5) ∧
    run h (markov_blankets init) s5 = (tr6, inr tt, s6) ∧
    run h (build_net dim init model_opts train_opts) s6 = (tr7, inr net, s7) ∧
    run h (train net z) s7 = (tr8, inr tt, s8) ∧
    run h (save net data' data_opts model_opts train_opts) s8 = (tr9, inr tt, s') ∧
    tr = tr1 ++ tr2 ++ tr3 ++ tr4 ++ tr5 ++ tr6 ++ tr7 ++ tr8 ++ tr9.
Proof.
  intros Hrun. unfold runMOFA in Hrun. stages_ok Hrun.
  destruct (run h (save _ _ _ _ _) _) as [[tr9 r9] s9] eqn:E9.
  injection Hrun as <- -> <-.
  repeat match goal with u : () |- _ => destruct u end.
  by eexists _, _, _, _, _, _, _, _, _, _, _, _, _, _, _, _, _, _, _, _, _, _.
Qed.

(** A section that returns has made all its calls. *)
Lemma returned_calls {S A} (h : Handler S) (p : Prog A) L (t : Tag) s tr a s' :
  conforms p L → forallb (λ w, bool_decide (t ∈ w)) L = true →
  run h p s = (tr, inr a, s') → t ∈ tags tr.
Proof.
  intros Hp HL Hrun.
  pose proof (conforms_finished p L (λ w, bool_decide (t ∈ w)) Hp HL S h s a) as H.
  rewrite Hrun in H. cbn [trace_of result_of fst snd] in H.
  specialize (H eq_refl). by apply bool_decide_eq_true in H.
Qed.

(** X2.  What a run that comes to its end has shown: the notice about the
    output directory if [isdir] answered no, then the three banners, with
    the seed given to the generator in the seed notice and in the second
    banner, and the name of the output file in the last line; and it has
    slept twice, one second each time. *)
Theorem output_of_complete_run {S} (h : Handler S) (s : S) (data : Data)
    (data_opts model_opts train_opts : PyDict) (seed : option Z) :
  let r := run h (runMOFA data data_opts model_opts train_opts seed) s in
  result_of r = inr tt →
  ∃ z p b,
    seeds_set (trace_of r) = [z] ∧
    data_opts !! "outfile" = Some (VStr p) ∧
    isdir_answers (trace_of r) = [(dirname p, b)] ∧
    printed (trace_of r) = (if b then [] else [dir_notice]) ++ output_lines z p ∧
    sleeps (trace_of r) = [1; 1].
Proof.
  cbv zeta.
  destruct (run h (runMOFA data data_opts model_opts train_opts seed) s)
    as [[tr res] s'] eqn:Hrun. cbn [trace_of result_of fst snd].
  intros ->.
  destruct (sections_of_complete_run h _ _ _ _ _ _ _ _ Hrun)
    as (z & data' & dim & init & net & tr1 & s1 & tr2 & s2 & tr3 & s3 & tr4 & s4 &
        tr5 & s5 & tr6 & s6 & tr7 & s7 & tr8 & s8 & tr9 &
        E1 & E2 & E3 & E4 & E5 & E6 & E7 & E8 & E9 & ->).
  destruct (set_seed_run h _ _ _ _ _ E1) as (_ & _ & Hseed).
  specialize (Hseed _ eq_refl).
  destruct (sanity_checks_printed h _ _ _ _ E2) as (p & b & Hp & Hb & Hpr2 & Hsl2).
  destruct (define_dim_returns h _ _ _ _ _ _ _ E4) as (_ & _ & _ & _ & _ & Hpr4 & Hsl4).
  destruct (train_run h _ _ _ _ _ _ E8) as [H8 _].
  destruct (H8 (or_intror eq_refl)) as (_ & Hsl8 & Hpr8).
  assert (TSaveModel ∈ tags tr9) as Hin9.
  { eapply returned_calls; [apply conforms_save|by vm_compute|exact E9]. }
  destruct (save_run h _ _ _ _ _ _ _ _ _ E9 Hin9)
    as (_ & p' & _ & _ & Hp' & _ & _ & Hpr9).
  assert (p' = p) as -> by congruence.
  avoid [TPrint; TSleep; TIsDir] E1.
  avoid [TRandomSeed] E2.
  avoid [TPrint; TSleep; TIsDir; TRandomSeed] E3.
  avoid [TIsDir; TRandomSeed] E4.
  avoid [TPrint; TSleep; TIsDir; TRandomSeed] E5.
  avoid [TPrint; TSleep; TIsDir; TRandomSeed] E6.
  avoid [TPrint; TSleep; TIsDir; TRandomSeed] E7.
  avoid [TIsDir; TRandomSeed] E8.
  avoid [TSleep; TIsDir; TRandomSeed] E9.
  exists z, p, b.
  unfold seeds_set, isdir_answers, printed, sleeps in *. rewrite !omap_app.
  quiet seed_call TRandomSeed seed_call_tag.
  quiet isdir_answer TIsDir isdir_answer_tag.
  quiet print_call TPrint print_call_tag.
  quiet sleep_call TSleep sleep_call_tag.
  rewrite Hseed, Hb, Hpr2, Hsl2, Hpr4, Hsl4, Hpr8, Hsl8, Hpr9.
  rewrite ?app_nil_r, ?app_nil_l. by split_and!.
Qed.

Lemma output_of_complete_run_witness :
  let r := run (world_handler registry)
             (runMOFA ex_data (ex_data_opts "/tmp/out/test.h5") (ex_model_opts ones)
                      ex_train_opts (Some 7))
             (ex_world at_1 ["/tmp"] 0) in
  ∃ z p b,
    seeds_set (trace_of r) = [z] ∧
    ex_data_opts "/tmp/out/test.h5" !! "outfile" = Some (VStr p) ∧
    isdir_answers (trace_of r) = [(dirname p, b)] ∧
    printed (trace_of r) = (if b then [] else [dir_notice]) ++ output_lines z p ∧
    sleeps (trace_of r) = [1; 1].
Proof.
  apply (output_of_complete_run (world_handler registry) (ex_world at_1 ["/tmp"] 0)
           ex_data (ex_data_opts "/tmp/out/test.h5") (ex_model_opts ones)
           ex_train_opts (Some 7)).
  vm_compute. reflexivity.
Defined.

(** The call named in [Hin] was made in the one section that does not
    avoid it. *)
Ltac in_section Hin :=
  repeat rewrite tags_app in Hin; repeat rewrite elem_of_app in Hin;
  repeat match type of Hin with
         | _ ∨ _ => destruct Hin as [Hin|Hin]
         end;
  first [ exact Hin
        | exfalso;
          match goal with
          | Hav : ∀ t, t ∈ tags ?tr → t ∉ _ |- _ =>
              solve [destruct (Hav _ Hin); repeat constructor]
          end ].

(** In every run the network is built before the model is saved. *)
Lemma save_after_net {S} (h : Handler S) (s : S) data data_opts model_opts
    train_opts seed :
  let w := tags (trace_of (run h (runMOFA data data_opts model_opts train_opts seed) s)) in
  (TSaveModel ∈ w → TIterate ∈ w) ∧ (TIterate ∈ w → TBayesNet ∈ w).
Proof.
  cbv zeta.
  pose proof (conforms_run _ _
    (λ w, precedes TIterate TSaveModel w && precedes TBayesNet TIterate w)
    (conforms_runMOFA_any data data_opts model_opts train_opts seed)
    ltac:(by vm_compute) S h s) as H.
  cbv beta in H. apply andb_true_iff in H as [H1 H2].
  split; intros Hin; eapply precedes_elem; eauto.
Qed.

(** X3.  [BayesNet] is called at most once, after [getNodes] has been
    called a second time: on the dimensionalities that [initModel] was
    given, on [model_opts['schedule']], on the nodes that second call
    returned and on [train_opts] as given.  [iterate], if it is called, is
    called once, on the network [BayesNet] returned. *)
Theorem net_arguments {S} (h : Handler S) (s : S) (data : Data)
    (data_opts model_opts train_opts : PyDict) (seed : option Z) :
  let tr := trace_of (run h (runMOFA data data_opts model_opts train_opts seed) s) in
  TBayesNet ∈ tags tr →
  ∃ dim data' lik z schedule nodes0 nodes,
    initModel_calls tr = [(dim, data', lik, z)] ∧
    model_opts !! "schedule" = Some schedule ∧
    nodes_seen tr = [nodes0; nodes] ∧
    net_calls tr = [(dim, schedule, nodes, train_opts)] ∧
    (TIterate ∈ tags tr →
     ∃ net, omap net_answer tr = [net] ∧ iterate_calls tr = [net]).
Proof.
  cbv zeta.
  destruct (run h (runMOFA data data_opts model_opts train_opts seed) s)
    as [[tr res] s'] eqn:Hrun. cbn [trace_of fst].
  intros Hin.
  destruct (sections_before_net h _ _ _ _ _ _ _ _ _ Hrun Hin)
    as (z & data' & dim & init & tr1 & s1 & tr2 & s2 & tr3 & s3 & tr4 & s4 &
        tr5 & s5 & tr6 & s6 & tr7 & E1 & E2 & E3 & E4 & E5 & E6 & E7 & ->).
  assert (TInitModel ∈ tags tr5) as Hin5.
  { eapply returned_calls; [apply conforms_init_nodes_any|by vm_compute|exact E5]. }
  destruct (init_nodes_initModel h _ _ _ _ _ _ _ _ _ E5 Hin5) as (lik & _ & Hc5 & _).
  destruct (markov_blankets_run h _ _ _ _ E6) as (nodes0 & _ & _ & _ & _ & _ & _ &
    _ & _ & _ & _ & _ & _ & Hn6 & _).
  avoid [TInitModel; TGetNodes; TBayesNet; TIterate] E1.
  avoid [TInitModel; TGetNodes; TBayesNet; TIterate] E2.
  avoid [TInitModel; TGetNodes; TBayesNet; TIterate] E3.
  avoid [TInitModel; TGetNodes; TBayesNet; TIterate] E4.
  avoid [TGetNodes; TBayesNet; TIterate] E5.
  avoid [TInitModel; TBayesNet; TIterate] E6.
  assert (∃ schedule nodes,
            model_opts !! "schedule" = Some schedule ∧
            (∀ t, t ∈ tags tr7 → t ∉ [TInitModel]) ∧
            nodes_seen tr7 = [nodes] ∧
            net_calls tr7 = [(dim, schedule, nodes, train_opts)] ∧
            (TIterate ∈ tags tr7 →
             ∃ net, omap net_answer tr7 = [net] ∧ iterate_calls tr7 = [net]))
    as (schedule & nodes & Hsch & Hav7 & Hn7 & Hc7 & Hit7).
  { pose proof E7 as E7'. avoid [TInitModel] E7'.
    assert (TBayesNet ∈ tags tr7) as Hin7 by in_section Hin.
    clear Hin.
    stage E7 E7a.
    - injection E7 as <- _ _. avoid [TIterate] E7a.
      destruct (build_net_run h _ _ _ _ _ _ _ _ E7a Hin7)
        as (schedule & nodes & ? & ? & ? & _).
      exists schedule, nodes. split_and!; try done. intros Hit. absurd_tag Hit.
    - assert (TBayesNet ∈ tags tr) as Hin7a.
      { eapply returned_calls; [apply conforms_build_net|by vm_compute|exact E7a]. }
      destruct (build_net_run h _ _ _ _ _ _ _ _ E7a Hin7a)
        as (schedule & nodes & ? & Hn & Hc & Hans).
      specialize (Hans _ eq_refl).
      avoid [TIterate] E7a.
      exists schedule, nodes.
      stage E7 E7b; [|last_stage E7 E7c; avoid [TGetNodes; TBayesNet; TIterate] E7c];
        injection E7 as <- _ _;
        avoid [TGetNodes; TBayesNet] E7b;
        destruct (train_run h _ _ _ _ _ _ E7b) as [H8 _];
        unfold nodes_seen, net_calls, iterate_calls in *; rewrite !omap_app;
        quiet nodes_answer TGetNodes nodes_answer_tag;
        quiet net_call TBayesNet net_call_tag;
        quiet net_answer TBayesNet net_answer_tag;
        quiet iterate_call TIterate iterate_call_tag;
        rewrite ?app_nil_r; (split_and!; try done);
        intros Hit; exists a; (split; [done|]);
        (destruct (decide (TIterate ∈ tags tr0)) as [Hit0|Hout];
         [|assert (∀ t, t ∈ tags tr0 → t ∉ [TIterate])
            by (intros t Ht ->%list_elem_of_singleton; done); absurd_tag Hit]);
        by destruct (H8 (or_introl Hit0)) as (-> & _). }
  exists dim, data', lik, z, schedule, nodes0, nodes.
  unfold nodes_seen, net_calls, iterate_calls, initModel_calls in *.
  rewrite !omap_app.
  quiet initModel_call TInitModel initModel_call_tag.
  quiet nodes_answer TGetNodes nodes_answer_tag.
  quiet net_call TBayesNet net_call_tag.
  quiet net_answer TBayesNet net_answer_tag.
  quiet iterate_call TIterate iterate_call_tag.
  rewrite Hc5, Hn6, Hn7, Hc7, ?app_nil_r. split_and!; try done.
  intros Hit. apply Hit7. in_section Hit.
Qed.

Lemma net_arguments_witness :
  let tr := trace_of (ex_run "/tmp/test.h5" (ex_model_opts ones) (Some 7) at_1) in
  ∃ dim data' lik z schedule nodes0 nodes,
    initModel_calls tr = [(dim, data', lik, z)] ∧
    ex_model_opts ones !! "schedule" = Some schedule ∧
    nodes_seen tr = [nodes0; nodes] ∧
    net_calls tr = [(dim, schedule, nodes, ex_train_opts)] ∧
    (TIterate ∈ tags tr →
     ∃ net, omap net_answer tr = [net] ∧ iterate_calls tr = [net]).
Proof.
  apply (net_arguments (world_handler registry) (ex_world at_1 ["/tmp"] 0)
           ex_data (ex_data_opts "/tmp/test.h5") (ex_model_opts ones)
           ex_train_opts (Some 7)).
  apply (bool_decide_unpack _). vm_compute. reflexivity.
Defined.

(** X4.  [saveModel] is called at most once and nothing is called after
    it.  It is given the network that [BayesNet] returned and [iterate] was
    called on, [data_opts['outfile']] and [data_opts['view_names']], the
    row labels of the first view and the column labels of every view of
    the data the model was built from (the masked data, if [maskData] was
    applied), and [train_opts] and [model_opts] as [runMOFA] received
    them. *)
Theorem saveModel_arguments {S} (h : Handler S) (s : S) (data : Data)
    (data_opts model_opts train_opts : PyDict) (seed : option Z) :
  let tr := trace_of (run h (runMOFA data data_opts model_opts train_opts seed) s) in
  TSaveModel ∈ tags tr →
  ∃ df p views net,
    head (modelled_data data tr) = Some df ∧
    data_opts !! "outfile" = Some (VStr p) ∧
    data_opts !! "view_names" = Some views ∧
    omap net_answer tr = [net] ∧ iterate_calls tr = [net] ∧
    save_calls tr =
      [{| sv_net := net; sv_outfile := VStr p; sv_view_names := views;
          sv_sample_names := df_index df;
          sv_feature_names := df_columns <$> modelled_data data tr;
          sv_train_opts := train_opts; sv_model_opts := model_opts |}] ∧
    last (tags tr) = Some TSaveModel.
Proof.
  cbv zeta.
  pose proof (save_after_net h s data data_opts model_opts train_opts seed) as Hord.
  pose proof (conforms_run _ _
    (λ w, bool_decide (TSaveModel ∈ w → last w = Some TSaveModel))
    (conforms_runMOFA_any data data_opts model_opts train_opts seed)
    ltac:(by vm_compute) S h s) as Hlast.
  cbv beta zeta in Hord, Hlast. apply bool_decide_eq_true in Hlast.
  destruct (run h (runMOFA data data_opts model_opts train_opts seed) s)
    as [[tr res] s'] eqn:Hrun. cbn [trace_of fst] in *.
  intros Hin. specialize (Hlast Hin). destruct Hord as [Hit Hnet].
  specialize (Hit Hin). specialize (Hnet Hit). clear Hit.
  destruct (sections_before_net h _ _ _ _ _ _ _ _ _ Hrun Hnet)
    as (z & data' & dim & init & tr1 & s1 & tr2 & s2 & tr3 & s3 & tr4 & s4 &
        tr5 & s5 & tr6 & s6 & tr7 & E1 & E2 & E3 & E4 & E5 & E6 & E7 & ->).
  clear Hnet.
  avoid [TMaskData; TBayesNet; TIterate; TSaveModel] E1.
  avoid [TMaskData; TBayesNet; TIterate; TSaveModel] E2.
  avoid [TBayesNet; TIterate; TSaveModel] E3.
  avoid [TMaskData; TBayesNet; TIterate; TSaveModel] E4.
  avoid [TMaskData; TBayesNet; TIterate; TSaveModel] E5.
  avoid [TMaskData; TBayesNet; TIterate; TSaveModel] E6.
  apply parse_data_modelled in E3.
  stage E7 E7a; avoid [TMaskData; TIterate; TSaveModel] E7a;
    [injection E7 as <- _ _; absurd_tag Hin|].
  stage E7 E7b; avoid [TMaskData; TBayesNet; TSaveModel] E7b;
    [injection E7 as <- _ _; absurd_tag Hin|].
  last_stage E7 E7c. avoid [TMaskData; TBayesNet; TIterate] E7c.
  injection E7 as <- _ _.
  lazymatch type of E7c with
  | _ = (?t, _, _) => assert (TSaveModel ∈ tags t) as Hin7 by in_section Hin
  end.
  destruct (save_run h _ _ _ _ _ _ _ _ _ E7c Hin7)
    as (df & p & views & Hdf & Hp & Hv & Hc & _).
  lazymatch type of E7a with
  | _ = (?t, _, _) =>
      assert (TBayesNet ∈ tags t) as Hina
        by (eapply returned_calls; [apply conforms_build_net|by vm_compute|exact E7a])
  end.
  destruct (build_net_run h _ _ _ _ _ _ _ _ E7a Hina) as (_ & _ & _ & _ & _ & Hans).
  specialize (Hans _ eq_refl).
  repeat match goal with u : () |- _ => destruct u end.
  destruct (train_run h _ _ _ _ _ _ E7b) as [H8 _].
  destruct (H8 (or_intror eq_refl)) as (Hic & _).
  exists df, p, views, a. split_and!; try done.
  all: unfold modelled_data, iterate_calls, save_calls in *; rewrite !omap_app.
  all: quiet mask_answer TMaskData mask_answer_tag.
  all: quiet net_answer TBayesNet net_answer_tag.
  all: quiet iterate_call TIterate iterate_call_tag.
  all: quiet save_call TSaveModel save_call_tag.
  all: rewrite ?app_nil_r, ?app_nil_l, ?E3; simpl; done.
Qed.

Lemma saveModel_arguments_witness :
  let tr := trace_of (ex_run "/tmp/test.h5" (ex_model_opts ones) (Some 7) at_1) in
  ∃ df p views net,
    head (modelled_data ex_data tr) = Some df ∧
    ex_data_opts "/tmp/test.h5" !! "outfile" = Some (VStr p) ∧
    ex_data_opts "/tmp/test.h5" !! "view_names" = Some views ∧
    omap net_answer tr = [net] ∧ iterate_calls tr = [net] ∧
    save_calls tr =
      [{| sv_net := net; sv_outfile := VStr p; sv_view_names := views;
          sv_sample_names := df_index df;
          sv_feature_names := df_columns <$> modelled_data ex_data tr;
          sv_train_opts := ex_train_opts; sv_model_opts := ex_model_opts ones |}] ∧
    last (tags tr) = Some TSaveModel.
Proof.
  apply (saveModel_arguments (world_handler registry) (ex_world at_1 ["/tmp"] 0)
           ex_data (ex_data_opts "/tmp/test.h5") (ex_model_opts ones)
           ex_train_opts (Some 7)).
  apply (bool_decide_unpack _). vm_compute. reflexivity.
Defined.

(** ** Missing options *)

Lemma never_returns_raise {A} (e : exn) : never_returns (@Raise A e).
Proof. by intros w r [_ ->]. Qed.

Lemma never_returns_bind_l {A B} (p : Prog A) (f : A → Prog B) :
  never_returns p → never_returns (p ≫= f).
Proof.
  intros Hp w r [[-> _]|(w1 & a & w2 & Hw1 & _)]%path_bind; [done|].
  by apply Hp in Hw1.
Qed.

Lemma never_returns_bind_r {A B} (p : Prog A) (f : A → Prog B) :
  (∀ a, never_returns (f a)) → never_returns (p ≫= f).
Proof.
  intros Hf w r [[-> _]|(w1 & a & w2 & _ & Hw2 & _)]%path_bind; [done|].
  by apply Hf in Hw2.
Qed.

Lemma never_returns_run {S A} (h : Handler S) (p : Prog A) s tr a s' :
  never_returns p → run h p s = (tr, inr a, s') → False.
Proof.
  intros Hp Hrun. pose proof (run_path h p s) as H. rewrite Hrun in H.
  by apply Hp in H.
Qed.

(** Find the lookup of the missing key [Hk : d !! k = None]. *)
Ltac nr Hk :=
  lazymatch goal with
  | |- never_returns (mbind _ _) =>
      first [ apply never_returns_bind_l; nr Hk
            | apply never_returns_bind_r; intros ?; nr Hk ]
  | |- never_returns (getitem _ _) =>
      unfold getitem; rewrite Hk; apply never_returns_raise
  end.

Lemma define_dim_needs data (model_opts : PyDict) z :
  model_opts !! "factors" = None → never_returns (define_dim data model_opts z).
Proof. intros Hk. unfold define_dim. nr Hk. Qed.

Lemma init_nodes_needs dim data data_opts (model_opts : PyDict) z k :
  k ∈ ["likelihoods"; "priorZ"; "initZ"; "priorSW"; "initSW"; "priorAlphaW";
       "initAlphaW"; "priorTau"; "initTau"; "sparsity"] →
  model_opts !! k = None →
  never_returns (init_nodes dim data data_opts model_opts z).
Proof.
  intros Hin Hk.
  unfold init_nodes, initZ, initSW, initAlphaW, initTau, initTheta, ab_args, getitem2.
  repeat (apply elem_of_cons in Hin as [->|Hin]; [nr Hk|]).
  by apply elem_of_nil in Hin.
Qed.

Lemma build_net_needs dim init (model_opts train_opts : PyDict) :
  model_opts !! "schedule" = None →
  never_returns (build_net dim init model_opts train_opts).
Proof. intros Hk. unfold build_net. nr Hk. Qed.

(** A run in which [initModel] is called has gone through the first four
    sections, and the call is made in the fifth. *)
Lemma sections_before_initModel {S} (h : Handler S) (s : S) (data : Data)
    (data_opts model_opts train_opts : PyDict) (seed : option Z) tr res s' :
  run h (runMOFA data data_opts model_opts train_opts seed) s = (tr, res, s') →
  TInitModel ∈ tags tr →
  ∃ z data' dim tr1 s1 tr2 s2 tr3 s3 tr4 s4 tr5 r5 s5,
    run h (set_seed seed) s = (tr1, inr z, s1) ∧
    run h (sanity_checks data_opts) s1 = (tr2, inr tt, s2) ∧
    run h (parse_data data data_opts) s2 = (tr3, inr data', s3) ∧
    run h (define_dim data' model_opts z) s3 = (tr4, inr dim, s4) ∧
    run h (init_nodes dim data' data_opts model_opts z) s4 = (tr5, r5, s5) ∧
    TInitModel ∈ tags tr5.
Proof.
  intros Hrun Hin. unfold runMOFA in Hrun.
  stage Hrun E1; avoid [TInitModel] E1; [injection Hrun as <- <- <-; absurd_tag Hin|].
  stage Hrun E2; avoid [TInitModel] E2; [injection Hrun as <- <- <-; absurd_tag Hin|].
  stage Hrun E3; avoid [TInitModel] E3; [injection Hrun as <- <- <-; absurd_tag Hin|].
  stage Hrun E4; avoid [TInitModel] E4; [injection Hrun as <- <- <-; absurd_tag Hin|].
  destruct a0.
  stage Hrun E5; [|last_stage Hrun E6; avoid [TInitModel] E6];
    injection Hrun as <- <- <-;
    eexists _, _, _, _, _, _, _, _, _, _, _, _, _, _; (split_and!; [done..|]);
    in_section Hin.
Qed.

(** X5.  When [model_opts] lacks one of the keys [factors], [likelihoods],
    [priorZ], [initZ], [priorSW], [initSW], [priorAlphaW], [initAlphaW],
    [priorTau], [initTau], [sparsity], [schedule], no run of [runMOFA]
    returns: it ends with an exception, and neither [BayesNet] nor
    [iterate] nor [saveModel] is called; without [factors] or without
    [likelihoods] not even [initModel] is. *)
Theorem missing_model_option {S} (h : Handler S) (s : S) (data : Data)
    (data_opts model_opts train_opts : PyDict) (seed : option Z) (k : string) :
  k ∈ required_keys → model_opts !! k = None →
  let r := run h (runMOFA data data_opts model_opts train_opts seed) s in
  (∃ e, result_of r = inl e) ∧
  (TBayesNet ∉ tags (trace_of r)) ∧ (TIterate ∉ tags (trace_of r)) ∧
  (TSaveModel ∉ tags (trace_of r)) ∧
  (k ∈ ["factors"; "likelihoods"] → TInitModel ∉ tags (trace_of r)).
Proof.
  intros Hreq Hk. cbv zeta.
  pose proof (save_after_net h s data data_opts model_opts train_opts seed) as Hord.
  pose proof (runMOFA_complete h s data data_opts model_opts train_opts seed) as Hcom.
  cbv zeta in Hord.
  destruct (run h (runMOFA data data_opts model_opts train_opts seed) s)
    as [[tr res] s'] eqn:Hrun. cbn [trace_of result_of fst snd] in *.
  assert (TBayesNet ∉ tags tr) as Hnet.
  { intros Hin.
    destruct (sections_before_net h _ _ _ _ _ _ _ _ _ Hrun Hin)
      as (z & data' & dim & init & tr1 & s1 & tr2 & s2 & tr3 & s3 & tr4 & s4 &
          tr5 & s5 & tr6 & s6 & tr7 & E1 & E2 & E3 & E4 & E5 & E6 & E7 & ->).
    unfold required_keys in Hreq.
    apply elem_of_cons in Hreq as [->|Hreq].
    { eapply never_returns_run; [by apply define_dim_needs|exact E4]. }
    destruct (decide (k = "schedule")) as [->|Hne].
    - avoid [TBayesNet] E1. avoid [TBayesNet] E2. avoid [TBayesNet] E3.
      avoid [TBayesNet] E4. avoid [TBayesNet] E5. avoid [TBayesNet] E6.
      assert (TBayesNet ∈ tags tr7) as Hin7 by in_section Hin.
      stage E7 E7a.
      + injection E7 as <- _ _.
        destruct (build_net_run h _ _ _ _ _ _ _ _ E7a Hin7) as (? & ? & ? & _).
        congruence.
      + eapply never_returns_run; [by apply build_net_needs|exact E7a].
    - eapply never_returns_run; [|exact E5].
      apply (init_nodes_needs _ _ _ _ _ k); [|done].
      repeat (apply elem_of_cons in Hreq as [->|Hreq]; [by repeat constructor|]).
      by apply elem_of_nil in Hreq. }
  destruct Hord as [H1 H2].
  split_and!; [|done|by auto|by auto|].
  - destruct res as [e|a]; [by exists e|].
    specialize (Hcom a eq_refl). destruct Hnet.
    unfold complete in Hcom. rewrite forallb_forall in Hcom.
    eapply bool_decide_eq_true, Hcom, list_elem_of_In. by repeat constructor.
  - intros Hk2 Hin.
    destruct (sections_before_initModel h _ _ _ _ _ _ _ _ _ Hrun Hin)
      as (z & data' & dim & tr1 & s1 & tr2 & s2 & tr3 & s3 & tr4 & s4 & tr5 & r5 & s5 &
          E1 & E2 & E3 & E4 & E5 & Hin5).
    apply elem_of_cons in Hk2 as [->|Hk2].
    { eapply never_returns_run; [by apply define_dim_needs|exact E4]. }
    apply list_elem_of_singleton in Hk2 as ->.
    destruct (init_nodes_initModel h _ _ _ _ _ _ _ _ _ E5 Hin5) as (? & ? & _).
    congruence.
Qed.

Lemma missing_model_option_witness :
  let r := ex_run "/tmp/test.h5" (delete "initTau" (ex_model_opts ones)) (Some 7) at_1 in
  (∃ e, result_of r = inl e) ∧
  (TBayesNet ∉ tags (trace_of r)) ∧ (TIterate ∉ tags (trace_of r)) ∧
  (TSaveModel ∉ tags (trace_of r)) ∧
  ("initTau" ∈ ["factors"; "likelihoods"] → TInitModel ∉ tags (trace_of r)).
Proof.
  apply (missing_model_option (world_handler registry) (ex_world at_1 ["/tmp"] 0)
           ex_data (ex_data_opts "/tmp/test.h5") (delete "initTau" (ex_model_opts ones))
           ex_train_opts (Some 7) "initTau").
  - unfold required_keys. by repeat constructor.
  - vm_compute. reflexivity.
Defined.

(** Without [initTau] the run stops at [KeyError], when three nodes have
    been asked for. *)
Example missing_initTau_run :
  let r := ex_run "/tmp/test.h5" (delete "initTau" (ex_model_opts ones)) (Some 7) at_1 in
  result_of r = inl (KeyError "initTau") ∧
  last (tags (trace_of r)) = Some TInitAlphaW_mk.
Proof. by vm_compute. Qed.

(** A run in which [iterate] is called has gone through the first seven
    sections; the rest of the run is the run of the last two. *)
Lemma sections_before_iterate {S} (h : Handler S) (s : S) (data : Data)
    (data_opts model_opts train_opts : PyDict) (seed : option Z) tr res s' :
  run h (runMOFA data data_opts model_opts train_opts seed) s = (tr, res, s') →
  TIterate ∈ tags tr →
  ∃ z data' dim init net tr1 s1 tr2 s2 tr3 s3 tr4 s4 tr5 s5 tr6 s6 tr7 s7 tr8,
    run h (set_seed seed) s = (tr1, inr z, s1) ∧
    run h (sanity_checks data_opts) s1 = (tr2, inr tt, s2) ∧
    run h (parse_data data data_opts) s2 = (tr3, inr data', s3) ∧
    run h (define_dim data' model_opts z) s3 = (tr4, inr dim, s4) ∧
    run h (init_nodes dim data' data_opts model_opts z) s4 = (tr5, inr init, s5) ∧
    run h (markov_blankets init) s5 = (tr6, inr tt, s6) ∧
    run h (build_net dim init model_opts train_opts) s6 = (tr7, inr net, s7) ∧
    run h (train net z ≫= λ _,
           save net data' data_opts model_opts train_opts) s7 = (tr8, res, s') ∧
    tr = tr1 ++ tr2 ++ tr3 ++ tr4 ++ tr5 ++ tr6 ++ tr7 ++ tr8.
Proof.
  intros Hrun Hin.
  pose proof (save_after_net h s data data_opts model_opts train_opts seed) as [_ Hnet].
  rewrite Hrun in Hnet. cbn [trace_of fst] in Hnet.
  destruct (sections_before_net h _ _ _ _ _ _ _ _ _ Hrun (Hnet Hin))
    as (z & data' & dim & init & tr1 & s1 & tr2 & s2 & tr3 & s3 & tr4 & s4 &
        tr5 & s5 & tr6 & s6 & tr7 & E1 & E2 & E3 & E4 & E5 & E6 & E7 & ->).
  avoid [TIterate] E1. avoid [TIterate] E2. avoid [TIterate] E3.
  avoid [TIterate] E4. avoid [TIterate] E5. avoid [TIterate] E6.
  stage E7 E7a; avoid [TIterate] E7a; [injection E7 as <- _ _; absurd_tag Hin|].
  last_stage E7 E7b. injection E7 as <- <- <-.
  by eexists _, _, _, _, _, _, _, _, _, _, _, _, _, _, _, _, _, _, _, _.
Qed.

(** No call of the run has raised, so the exception comes from the program
    itself. *)
Ltac all_ok Hok :=
  repeat match type of Hok with
         | Forall _ (_ :: _) => apply Forall_cons in Hok as [? Hok]
         end;
  try done.

Lemma train_all_ok {S} (h : Handler S) net z s tr res s' :
  run h (train net z) s = (tr, res, s') →
  Forall (λ ev, ev_ok ev = true) tr → res = inr tt.
Proof.
  intros H Hok. unfold train, banner in H. simpl in H.
  repeat run_step H; injection H as <- <- _;
    repeat match goal with u : () |- _ => destruct u end; try done; all_ok Hok.
Qed.

Lemma save_without_view_names {S} (h : Handler S) net data (data_opts : PyDict)
    model_opts train_opts s tr res s' :
  data_opts !! "view_names" = None →
  run h (save net data data_opts model_opts train_opts) s = (tr, res, s') →
  (∃ e, res = inl e) ∧ (TSaveModel ∉ tags tr) ∧
  (Forall (λ ev, ev_ok ev = true) tr → is_Some (head data) →
   (∃ p, data_opts !! "outfile" = Some (VStr p)) →
   res = inl (KeyError "view_names")).
Proof.
  intros Hv H. unfold save, banner, first_view, getitem, as_str in H.
  rewrite Hv in H. simpl in H.
  repeat run_case H; injection H as <- <- _.
  all: split; [by eexists|]; split; [intros Hin; not_called Hin|].
  all: intros Hok [? ?] [? ?]; simplify_eq/=; try done; all_ok Hok.
Qed.

(** X6.  When [data_opts] lacks the key [view_names], [saveModel] is never
    called and no run returns; but the key is read only after the
    training: in a run in which [iterate] was called and no call raised,
    the outcome is [KeyError 'view_names']. *)
Theorem missing_view_names {S} (h : Handler S) (s : S) (data : Data)
    (data_opts model_opts train_opts : PyDict) (seed : option Z) :
  data_opts !! "view_names" = None →
  let r := run h (runMOFA data data_opts model_opts train_opts seed) s in
  (∃ e, result_of r = inl e) ∧ (TSaveModel ∉ tags (trace_of r)) ∧
  (TIterate ∈ tags (trace_of r) →
   Forall (λ ev, ev_ok ev = true) (trace_of r) →
   result_of r = inl (KeyError "view_names")).
Proof.
  intros Hv. cbv zeta.
  pose proof (save_after_net h s data data_opts model_opts train_opts seed) as [Hsi _].
  pose proof (runMOFA_complete h s data data_opts model_opts train_opts seed) as Hcom.
  destruct (run h (runMOFA data data_opts model_opts train_opts seed) s)
    as [[tr res] s'] eqn:Hrun. cbn [trace_of result_of fst snd] in *.
  assert (TIterate ∈ tags tr →
          (TSaveModel ∉ tags tr) ∧
          (Forall (λ ev, ev_ok ev = true) tr → res = inl (KeyError "view_names")))
    as Hmain.
  { intros Hin.
    destruct (sections_before_iterate h _ _ _ _ _ _ _ _ _ Hrun Hin)
      as (z & data' & dim & init & net & tr1 & s1 & tr2 & s2 & tr3 & s3 & tr4 & s4 &
          tr5 & s5 & tr6 & s6 & tr7 & s7 & tr8 &
          E1 & E2 & E3 & E4 & E5 & E6 & E7 & E8 & ->).
    avoid [TSaveModel] E1. avoid [TSaveModel] E2. avoid [TSaveModel] E3.
    avoid [TSaveModel] E4. avoid [TSaveModel] E5. avoid [TSaveModel] E6.
    avoid [TSaveModel] E7.
    destruct (sanity_checks_printed h _ _ _ _ E2) as (p & _ & Hp & _).
    destruct (define_dim_returns h _ _ _ _ _ _ _ E4) as (df & _ & Hdf & _).
    stage E8 E8a; avoid [TSaveModel] E8a.
    - injection E8 as <- <- _. split; [intros Hs; absurd_tag Hs|].
      rewrite !Forall_app. intros (_ & _ & _ & _ & _ & _ & _ & Hok).
      by pose proof (train_all_ok h _ _ _ _ _ _ E8a Hok).
    - last_stage E8 E8b. injection E8 as <- <- _.
      destruct (save_without_view_names h _ _ _ _ _ _ _ _ _ Hv E8b)
        as (_ & Hno & Hres).
      split.
      + intros Hs. apply Hno. in_section Hs.
      + rewrite !Forall_app. intros (_ & _ & _ & _ & _ & _ & _ & _ & Hok).
        apply Hres; [done|by rewrite Hdf|by exists p]. }
  split_and!.
  - destruct res as [e|a]; [by exists e|].
    specialize (Hcom a eq_refl).
    unfold complete in Hcom. rewrite forallb_forall in Hcom.
    assert (TIterate ∈ tags tr) as Hit
      by (eapply bool_decide_eq_true, Hcom, list_elem_of_In; by repeat constructor).
    assert (TSaveModel ∈ tags tr) as Hs
      by (eapply bool_decide_eq_true, Hcom, list_elem_of_In; by repeat constructor).
    by destruct (Hmain Hit) as [Hno _].
  - intros Hs. by destruct (Hmain (Hsi Hs)) as [Hno _].
  - intros Hit. by destruct (Hmain Hit) as [_ Hres].
Qed.

Lemma missing_view_names_witness :
  let r := run (world_handler registry)
             (runMOFA ex_data (delete "view_names" (ex_data_opts "/tmp/test.h5"))
                      (ex_model_opts ones) ex_train_opts (Some 7))
             (ex_world at_1 ["/tmp"] 0) in
  TIterate ∈ tags (trace_of r) ∧ final_elbo (state_of r) = Some 7 ∧
  result_of r = inl (KeyError "view_names").
Proof.
  cbv zeta.
  destruct (missing_view_names (world_handler registry) (ex_world at_1 ["/tmp"] 0)
              ex_data (delete "view_names" (ex_data_opts "/tmp/test.h5"))
              (ex_model_opts ones) ex_train_opts (Some 7)) as (_ & _ & H).
  { vm_compute. reflexivity. }
  split_and!.
  - apply (bool_decide_unpack _). vm_compute. reflexivity.
  - vm_compute. reflexivity.
  - apply H.
    + apply (bool_decide_unpack _). vm_compute. reflexivity.
    + apply (bool_decide_unpack _). vm_compute. reflexivity.
Defined.

(** ** No data *)

Lemma define_dim_empty {S} (h : Handler S) model_opts z s tr res s' :
  run h (define_dim [] model_opts z) s = (tr, res, s') →
  ∃ e, res = inl e ∧
       (Forall (λ ev, ev_ok ev = true) tr →
        e = IndexError ∧ seed_notice z ∈ printed tr).
Proof.
  intros H. unfold define_dim, banner, first_view in H. simpl in H.
  repeat run_step H; injection H as <- <- _; eexists; (split; [done|]);
    intros Hok; all_ok Hok.
  split; [done|]. simpl. do 5 right. by left.
Qed.

(** X7.  With no view to model (an empty list of data, or an empty list
    returned by [maskData]) no run returns and [initModel] is not called.
    The emptiness is found at [data[0]], after the first banner: a run
    that got as far as the first [sleep] and in which no call raised has
    printed the seed notice and ends with [IndexError]. *)
Theorem no_view_IndexError {S} (h : Handler S) (s : S) (data : Data)
    (data_opts model_opts train_opts : PyDict) (seed : option Z) :
  let r := run h (runMOFA data data_opts model_opts train_opts seed) s in
  modelled_data data (trace_of r) = [] →
  (∃ e, result_of r = inl e) ∧ (TInitModel ∉ tags (trace_of r)) ∧
  (TSleep ∈ tags (trace_of r) →
   Forall (λ ev, ev_ok ev = true) (trace_of r) →
   result_of r = inl IndexError ∧
   ∃ z, seeds_set (trace_of r) = [z] ∧ seed_notice z ∈ printed (trace_of r)).
Proof.
  cbv zeta.
  destruct (run h (runMOFA data data_opts model_opts train_opts seed) s)
    as [[tr res] s'] eqn:Hrun. cbn [trace_of result_of fst snd].
  intros Hempty. unfold runMOFA in Hrun.
  stage Hrun E1; avoid [TInitModel; TSleep; TMaskData; TPrint] E1;
    [injection Hrun as <- <- <-;
     split_and!; [by eexists|intros Hin; absurd_tag Hin|intros Hin; absurd_tag Hin]|].
  stage Hrun E2; avoid [TInitModel; TSleep; TMaskData; TRandomSeed] E2;
    [injection Hrun as <- <- <-;
     split_and!; [by eexists|intros Hin; absurd_tag Hin|intros Hin; absurd_tag Hin]|].
  stage Hrun E3; avoid [TInitModel; TSleep; TPrint; TRandomSeed] E3;
    [injection Hrun as <- <- <-;
     split_and!; [by eexists|intros Hin; absurd_tag Hin|intros Hin; absurd_tag Hin]|].
  destruct (set_seed_run h _ _ _ _ _ E1) as (_ & _ & Hseed).
  specialize (Hseed _ eq_refl).
  apply parse_data_modelled in E3.
  stage Hrun E4; avoid [TInitModel; TMaskData; TRandomSeed] E4.
  - injection Hrun as <- <- <-.
    unfold modelled_data in Hempty. rewrite !omap_app in Hempty.
    revert Hempty. quiet mask_answer TMaskData mask_answer_tag.
    rewrite ?app_nil_r. simpl. rewrite E3. intros ->.
    destruct (define_dim_empty h _ _ _ _ _ _ E4) as (e' & [= <-] & Hok4).
    split_and!; [by eexists|intros Hin; absurd_tag Hin|].
    intros _. rewrite !Forall_app. intros (_ & _ & _ & Hok).
    destruct (Hok4 Hok) as [-> Hn]. split; [done|]. exists a.
    unfold seeds_set, printed. rewrite !omap_app.
    quiet seed_call TRandomSeed seed_call_tag.
    rewrite ?app_nil_r. split; [done|].
    rewrite !elem_of_app. eauto.
  - exfalso. last_stage Hrun E5. injection Hrun as <- <- <-.
    pose proof E5 as E5'. avoid [TMaskData] E5'.
    unfold modelled_data in Hempty. rewrite !omap_app in Hempty.
    revert Hempty. quiet mask_answer TMaskData mask_answer_tag.
    rewrite ?app_nil_r. simpl. rewrite E3. intros ->.
    by destruct (define_dim_empty h _ _ _ _ _ _ E4) as (e' & [=] & _).
Qed.

Lemma no_view_IndexError_witness :
  let r := run (world_handler registry)
             (runMOFA [] (ex_data_opts "/tmp/test.h5") (ex_model_opts ones)
                      ex_train_opts (Some 7))
             (ex_world at_1 ["/tmp"] 0) in
  result_of r = inl IndexError ∧
  ∃ z, seeds_set (trace_of r) = [z] ∧ seed_notice z ∈ printed (trace_of r).
Proof.
  cbv zeta.
  destruct (no_view_IndexError (world_handler registry) (ex_world at_1 ["/tmp"] 0)
              [] (ex_data_opts "/tmp/test.h5") (ex_model_opts ones) ex_train_opts
              (Some 7)) as (_ & _ & H).
  { vm_compute. reflexivity. }
  apply H; apply (bool_decide_unpack _); vm_compute; reflexivity.
Defined.

(** ** What [runMOFA] looks at in [model_opts] *)

Ltac same_keys H mo1 :=
  repeat match goal with
         | |- context [mo1 !! ?k] =>
             rewrite (H k) by (unfold keys_read; repeat constructor)
         end.

Lemma define_dim_same_read data mo1 mo2 z :
  same_read mo1 mo2 → define_dim data mo1 z = define_dim data mo2 z.
Proof. intros H. unfold define_dim, getitem. by same_keys H mo1. Qed.

Lemma init_nodes_same_read dim data data_opts mo1 mo2 z :
  same_read mo1 mo2 →
  init_nodes dim data data_opts mo1 z = init_nodes dim data data_opts mo2 z.
Proof.
  intros H.
  unfold init_nodes, initZ, initSW, initAlphaW, initTau, initTheta,
    initThetaMixed, initThetaConst, ab_args, getitem2, getitem.
  by same_keys H mo1.
Qed.

Lemma build_net_same_read dim init mo1 mo2 train_opts :
  same_read mo1 mo2 →
  build_net dim init mo1 train_opts = build_net dim init mo2 train_opts.
Proof. intros H. unfold build_net, getitem. by same_keys H mo1. Qed.

(** The last section hands [model_opts] to [saveModel] and does nothing
    else with it. *)
Lemma save_frame {S} (h : Handler S) net data data_opts mo1 mo2 train_opts s :
  let r1 := run h (save net data data_opts mo1 train_opts) s in
  let r2 := run h (save net data data_opts mo2 train_opts) s in
  r1 = r2 ∨
  ∃ pre o v sn fn ans1 ans2,
    trace_of r1 = pre ++ [Ev unit (SaveModel net o v sn fn train_opts mo1) ans1] ∧
    trace_of r2 = pre ++ [Ev unit (SaveModel net o v sn fn train_opts mo2) ans2].
Proof.
  cbv zeta.
  destruct (run h (save net data data_opts mo1 train_opts) s) as [[tr1 r1] s1] eqn:H1.
  destruct (run h (save net data data_opts mo2 train_opts) s) as [[tr2 r2] s2] eqn:H2.
  unfold save, banner, first_view, getitem, as_str in H1, H2. simpl in H1, H2.
  repeat (run_case H1; simpl in H2); try (left; congruence).
  all: repeat run_case H2.
  all: injection H1 as <- _ _; injection H2 as <- _ _; right.
  all: cbn [trace_of fst].
  all: eexists (_ :: _ :: _ :: _ :: _ :: [_]), _, _, _, _, _, _; split; reflexivity.
Qed.

(** Run the next section of both runs at once; they part only if it
    returns. *)
Ltac both_stage :=
  rewrite !run_bind;
  lazymatch goal with
  | |- context [run ?h ?p ?s] => destruct (run h p s) as [[?tr [?e|?a]] ?s]
  end;
  cbv beta iota; [by left|].

(** X9.  Of [model_opts], [runMOFA] looks at the entries under [factors],
    [likelihoods], [priorZ], [initZ], [priorSW], [initSW], [priorAlphaW],
    [initAlphaW], [priorTau], [initTau], [sparsity], [priorTheta],
    [initTheta] and [schedule], and at nothing else; the dictionary as a
    whole is only handed to [saveModel].  Two runs on option dictionaries
    that agree on these keys, with the same collaborators in the same
    state, are the same run, or differ only in that last call, which gets
    the one dictionary or the other. *)
Theorem model_opts_frame {S} (h : Handler S) (s : S) (data : Data)
    (data_opts mo1 mo2 train_opts : PyDict) (seed : option Z) :
  same_read mo1 mo2 →
  let r1 := run h (runMOFA data data_opts mo1 train_opts seed) s in
  let r2 := run h (runMOFA data data_opts mo2 train_opts seed) s in
  r1 = r2 ∨
  ∃ pre net o v sn fn ans1 ans2,
    trace_of r1 = pre ++ [Ev unit (SaveModel net o v sn fn train_opts mo1) ans1] ∧
    trace_of r2 = pre ++ [Ev unit (SaveModel net o v sn fn train_opts mo2) ans2].
Proof.
  intros Hsame. cbv zeta. unfold runMOFA.
  do 3 both_stage.
  rewrite (define_dim_same_read _ _ _ _ Hsame). both_stage.
  rewrite (init_nodes_same_read _ _ _ _ _ _ Hsame). both_stage.
  both_stage.
  rewrite (build_net_same_read _ _ _ _ _ Hsame). both_stage.
  both_stage.
  match goal with
  | |- context [run h (save ?net ?d _ mo1 _) ?s8] =>
      destruct (save_frame h net d data_opts mo1 mo2 train_opts s8)
        as [->|(pre & o & v & sn & fn & ans1 & ans2 & H1 & H2)]; [by left|];
      destruct (run h (save net d data_opts mo1 train_opts) s8) as [[tra ra] sa];
      destruct (run h (save net d data_opts mo2 train_opts) s8) as [[trb rb] sb];
      right; cbn [trace_of fst] in *; subst tra trb;
      exists (tr ++ tr0 ++ tr1 ++ tr2 ++ tr3 ++ tr4 ++ tr5 ++ tr6 ++ pre),
        net, o, v, sn, fn, ans1, ans2
  end.
  by rewrite <-!app_assoc.
Qed.

Lemma model_opts_frame_witness :
  let r1 := ex_run "/tmp/test.h5" (ex_model_opts ones) (Some 7) at_1 in
  let r2 := ex_run "/tmp/test.h5" (with_ard "k") (Some 7) at_1 in
  r1 = r2 ∨
  ∃ pre net o v sn fn ans1 ans2,
    trace_of r1 =
      pre ++ [Ev unit (SaveModel net o v sn fn ex_train_opts (ex_model_opts ones)) ans1] ∧
    trace_of r2 =
      pre ++ [Ev unit (SaveModel net o v sn fn ex_train_opts (with_ard "k")) ans2].
Proof.
  apply (model_opts_frame (world_handler registry) (ex_world at_1 ["/tmp"] 0)
           ex_data (ex_data_opts "/tmp/test.h5") (ex_model_opts ones) (with_ard "k")
           ex_train_opts (Some 7)).
  intros k Hk. unfold with_ard. rewrite lookup_insert_ne; [done|].
  intros <-. revert Hk. apply (bool_decide_unpack _). vm_compute. reflexivity.
Defined.

(** ** An output file without a directory part *)

Lemma makedirs_call_tag ev : is_Some (makedirs_call ev) → ev_tag ev = TMakeDirs.
Proof. destruct ev as [X c r]. by destruct c; intros [? [=]]. Qed.

Lemma isdir_call_tag ev : is_Some (isdir_call ev) → ev_tag ev = TIsDir.
Proof. destruct ev as [X c r]. by destruct c; intros [? [=]]. Qed.

Lemma drop_while_all {A} (f : A → bool) (l : list A) :
  Forall (λ x, f x = true) l → drop_while f l = [].
Proof. induction 1 as [|x l Hx _ IH]; simpl; [done|]. by rewrite Hx. Qed.

(** A path without a slash has no directory part. *)
Lemma dirname_bare (p : string) :
  "/"%char ∉ list_ascii_of_string p → dirname p = "".
Proof.
  intros Hno. unfold dirname.
  rewrite drop_while_all; [done|].
  apply Forall_forall. intros c Hc. apply list_elem_of_In, in_rev, list_elem_of_In in Hc.
  unfold is_slash. rewrite bool_decide_eq_false_2; [done|]. by intros ->.
Qed.

Lemma tags_cons ev tr : tags (ev :: tr) = ev_tag ev :: tags tr.
Proof. done. Qed.

(** The call named in [Hin] was not made: each section avoids it, or its
    calls are known and it is not among them. *)
Ltac absurd_in Hin :=
  repeat first [ rewrite tags_app in Hin | rewrite tags_cons in Hin
               | rewrite elem_of_app in Hin | rewrite elem_of_cons in Hin ];
  repeat match type of Hin with
         | _ ∨ _ => destruct Hin as [Hin|Hin]
         end;
  first [ discriminate Hin
        | by (simpl in Hin; apply elem_of_nil in Hin)
        | match goal with
          | Hav : ∀ t, t ∈ tags ?tr → t ∉ _ |- _ =>
              solve [destruct (Hav _ Hin); repeat constructor]
          end ].

#[export] Hint Resolve conforms_after_sanity : stagesdb.

(** In a world, the seed section leaves the directories as they are. *)
Lemma set_seed_world (C : Collab) (w : World C) seed :
  w_dirs (state_of (run (world_handler C) (set_seed seed) w)) = w_dirs w.
Proof.
  unfold set_seed.
  destruct seed as [z|]; [case_bool_decide|]; simpl;
    try (destruct (clock_seed (w_clock w)); simpl; [done|]);
    by destruct (seed_gen C _).
Qed.

(** X10.  When [data_opts['outfile']] has no slash in it, the directory
    [runMOFA] asks about and, on the answer no, has created is the empty
    path.  In a world where the empty path is no directory the run ends
    there, with the error of [os.makedirs], before the data is parsed and
    before any node is built. *)
Theorem bare_outfile {S} (h : Handler S) (s : S) (data : Data)
    (data_opts model_opts train_opts : PyDict) (seed : option Z) (p : string) :
  data_opts !! "outfile" = Some (VStr p) →
  "/"%char ∉ list_ascii_of_string p →
  (let tr := trace_of (run h (runMOFA data data_opts model_opts train_opts seed) s) in
   (TIsDir ∈ tags tr → isdir_calls tr = [""]) ∧
   (TMakeDirs ∈ tags tr → makedirs_calls tr = [""])) ∧
  (∀ (C : Collab) (w : World C),
     let R := run (world_handler C)
                  (runMOFA data data_opts model_opts train_opts seed) w in
     "" ∉ w_dirs w → TIsDir ∈ tags (trace_of R) →
     result_of R = inl (Raised "OSError: no such file or directory") ∧
     makedirs_calls (trace_of R) = [""] ∧
     (TMaskData ∉ tags (trace_of R)) ∧ (TInitModel ∉ tags (trace_of R)) ∧
     w_dirs (state_of R) = w_dirs w).
Proof.
  intros Hout Hbare. pose proof (dirname_bare p Hbare) as Hd. split.
  - cbv zeta.
    destruct (run h (runMOFA data data_opts model_opts train_opts seed) s)
      as [[tr res] s'] eqn:Hrun. cbn [trace_of fst]. unfold runMOFA in Hrun.
    stage Hrun E1; avoid [TIsDir; TMakeDirs] E1;
      [injection Hrun as <- <- <-; split; intros Hin; absurd_tag Hin|].
    pose proof (sanity_checks_run h data_opts p s0 Hout) as H2. cbv zeta in H2.
    rewrite Hd in H2.
    stage Hrun E2; [|last_stage Hrun E3; avoid [TIsDir; TMakeDirs] E3];
      injection Hrun as <- <- <-; cbn [trace_of result_of fst snd] in H2;
      unfold isdir_calls, makedirs_calls; rewrite !omap_app;
      quiet isdir_call TIsDir isdir_call_tag;
      quiet makedirs_call TMakeDirs makedirs_call_tag;
      rewrite ?app_nil_r;
      (destruct H2 as [[-> _]|[(ans & -> & _)|(e' & _ & [->| ->])]]; simpl;
       (split; [done|]); intros Hin; try done; absurd_in Hin).
  - intros C w. cbv zeta. intros Hno.
    pose proof (set_seed_world C w seed) as Hdirs.
    unfold runMOFA. rewrite run_bind.
    destruct (run (world_handler C) (set_seed seed) w) as [[tr1 [e|z]] w1] eqn:E1;
      cbn [state_of snd] in Hdirs.
    { avoid [TIsDir] E1. cbn [trace_of fst]. intros Hin. absurd_tag Hin. }
    intros _. rewrite run_bind.
    avoid [TMakeDirs; TMaskData; TInitModel] E1.
    assert (run (world_handler C) (sanity_checks data_opts) w1 =
            ([Ev bool (IsDir "") (inr false); Ev unit (Print dir_notice) (inr tt);
              Ev unit (MakeDirs "") (inl (Raised "OSError: no such file or directory"))],
             inl (Raised "OSError: no such file or directory"),
             set_out (w_out w1 ++ [dir_notice]) w1)) as ->.
    { unfold sanity_checks, getitem. rewrite Hout. simpl. rewrite Hd.
      rewrite bool_decide_eq_false_2 by (by rewrite Hdirs). done. }
    cbn [trace_of result_of state_of fst snd].
    unfold makedirs_calls. rewrite !omap_app, !tags_app.
    quiet makedirs_call TMakeDirs makedirs_call_tag.
    split_and!; try done.
    + intros Hin. apply elem_of_app in Hin as [Hin|Hin]; [absurd_tag Hin|].
      not_called Hin.
    + intros Hin. apply elem_of_app in Hin as [Hin|Hin]; [absurd_tag Hin|].
      not_called Hin.
Qed.

Lemma bare_outfile_witness :
  let R := run (world_handler registry)
             (runMOFA ex_data (ex_data_opts "model.h5") (ex_model_opts ones)
                      ex_train_opts (Some 7))
             (ex_world at_1 ["/tmp"] 0) in
  result_of R = inl (Raised "OSError: no such file or directory") ∧
  makedirs_calls (trace_of R) = [""] ∧ (TInitModel ∉ tags (trace_of R)).
Proof.
  destruct (bare_outfile (world_handler registry) (ex_world at_1 ["/tmp"] 0) ex_data
              (ex_data_opts "model.h5") (ex_model_opts ones) ex_train_opts (Some 7)
              "model.h5") as [_ H].
  - vm_compute. reflexivity.
  - apply (bool_decide_unpack _). vm_compute. reflexivity.
  - destruct (H registry (ex_world at_1 ["/tmp"] 0)) as (Hres & Hmk & _ & Hno & _).
    + apply (bool_decide_unpack _). vm_compute. reflexivity.
    + apply (bool_decide_unpack _). vm_compute. reflexivity.
    + cbv zeta. split_and!; [exact Hres|exact Hmk|exact Hno].
Defined.

(** ** The options of the Theta node *)

Lemma initThetaMixed_needs init (model_opts : PyDict) :
  model_opts !! "priorTheta" = None ∨ model_opts !! "initTheta" = None →
  ∃ e, initThetaMixed init model_opts = Raise e.
Proof.
  intros Hk. unfold initThetaMixed.
  destruct (ab_args_cases model_opts "priorTheta" "initTheta")
    as [[e ->]|(pa & pb & qa & qb & qE & Hpa & _ & Hqa & _)]; [by eexists|].
  exfalso. unfold getitem2, getitem in Hpa, Hqa.
  by destruct Hk as [Hk|Hk]; rewrite Hk in *.
Qed.

Lemma initThetaConst_needs init (model_opts : PyDict) :
  model_opts !! "initTheta" = None →
  initThetaConst init model_opts = Raise (KeyError "initTheta").
Proof. intros Hk. unfold initThetaConst, getitem2, getitem. by rewrite Hk. Qed.

Lemma init_nodes_needs_theta dim data data_opts model_opts z :
  (∀ init, ∃ e, initTheta init model_opts = Raise e) →
  never_returns (init_nodes dim data data_opts model_opts z).
Proof.
  intros H. unfold init_nodes.
  do 6 (apply never_returns_bind_r; intros ?).
  apply never_returns_bind_l.
  match goal with |- never_returns (initTheta ?i _) => destruct (H i) as [e ->] end.
  apply never_returns_raise.
Qed.

(** Without the Theta node the run stops in the construction section. *)
Lemma run_without_theta {S} (h : Handler S) (s : S) data data_opts model_opts
    train_opts seed :
  (∀ init, ∃ e, initTheta init model_opts = Raise e) →
  let r := run h (runMOFA data data_opts model_opts train_opts seed) s in
  (∃ e, result_of r = inl e) ∧
  (TInitThetaMixed ∉ tags (trace_of r)) ∧ (TInitThetaConst ∉ tags (trace_of r)) ∧
  (TBayesNet ∉ tags (trace_of r)).
Proof.
  intros H. cbv zeta.
  assert (conforms (runMOFA data data_opts model_opts train_opts seed)
                   (L_runMOFA L_set_seed [[]])) as Hconf.
  { apply conforms_runMOFA; [apply conforms_set_seed| |done].
    intros init. destruct (H init) as [e ->]. apply conforms_raise. }
  pose proof (runMOFA_complete h s data data_opts model_opts train_opts seed) as Hcom.
  destruct (run h (runMOFA data data_opts model_opts train_opts seed) s)
    as [[tr res] s'] eqn:Hrun. cbn [trace_of result_of fst snd] in *.
  assert (∀ t, t ∈ tags tr → t ∉ [TInitThetaMixed; TInitThetaConst]) as Hav.
  { eapply (run_avoids h _ _ _ s tr res s'); [exact Hconf|by vm_compute|exact Hrun]. }
  assert (TBayesNet ∉ tags tr) as Hnet.
  { intros Hin.
    destruct (sections_before_net h _ _ _ _ _ _ _ _ _ Hrun Hin)
      as (z & data' & dim & init & tr1 & s1 & tr2 & s2 & tr3 & s3 & tr4 & s4 &
          tr5 & s5 & tr6 & s6 & tr7 & E1 & E2 & E3 & E4 & E5 & E6 & E7 & ->).
    eapply never_returns_run; [by apply init_nodes_needs_theta|exact E5]. }
  split_and!; [| | |done].
  - destruct res as [e|a]; [by exists e|].
    specialize (Hcom a eq_refl). destruct Hnet.
    unfold complete in Hcom. rewrite forallb_forall in Hcom.
    eapply bool_decide_eq_true, Hcom, list_elem_of_In. by repeat constructor.
  - intros Hin. destruct (Hav _ Hin). by repeat constructor.
  - intros Hin. destruct (Hav _ Hin). by repeat constructor.
Qed.

(** X11.  Which of the Theta options are needed depends on the sparsity
    array.  When 1 is its only value, or when it has several values,
    [priorTheta] and [initTheta] are both needed: without one of them no
    Theta initialiser is called, no network is built and the run ends with
    an exception.  When 0 is its only value, [initTheta] is needed in the
    same way, and [priorTheta] is not read: the nodes are constructed in
    the same way whatever is stored under that key. *)
Theorem theta_options {S} (h : Handler S) (s : S) (data : Data)
    (data_opts model_opts train_opts : PyDict) (seed : option Z)
    (v : PyVal) (l : list Qc) :
  model_opts !! "sparsity" = Some v → np_flatten v = Some l →
  let r := run h (runMOFA data data_opts model_opts train_opts seed) s in
  let stops :=
    (∃ e, result_of r = inl e) ∧
    (TInitThetaMixed ∉ tags (trace_of r)) ∧ (TInitThetaConst ∉ tags (trace_of r)) ∧
    (TBayesNet ∉ tags (trace_of r)) in
  (only_value l 1%Qc ∨ several_values l →
   model_opts !! "priorTheta" = None ∨ model_opts !! "initTheta" = None → stops) ∧
  (only_value l 0%Qc → model_opts !! "initTheta" = None → stops) ∧
  (only_value l 0%Qc → ∀ x dim data' z,
     init_nodes dim data' data_opts (<["priorTheta" := x]> model_opts) z =
     init_nodes dim data' data_opts model_opts z).
Proof.
  intros Hv Hl. cbv zeta. split_and!.
  - intros Hcase Hk. apply run_without_theta. intros init.
    destruct (initThetaMixed_needs init model_opts Hk) as [e He]. exists e.
    destruct Hcase as [H|H].
    + by rewrite (initTheta_all _ _ _ _ Hv Hl H).
    + by rewrite (initTheta_some _ _ _ _ Hv Hl H).
  - intros H Hk. apply run_without_theta. intros init. eexists.
    rewrite (initTheta_none _ _ _ _ Hv Hl H). by apply initThetaConst_needs.
  - intros H x dim data' z.
    unfold init_nodes, initZ, initSW, initAlphaW, initTau, initTheta, ab_args,
      getitem2, getitem, np_unique.
    rewrite !lookup_insert_ne by done.
    rewrite Hv. cbn [mbind Prog_bind bind]. rewrite Hl. cbn [mbind Prog_bind bind].
    rewrite (np_unique_list_only _ _ H). cbn [length np_eq_truth mbind Prog_bind bind].
    rewrite (bool_decide_eq_true_2 (1%nat = 1%nat)) by done.
    rewrite (bool_decide_eq_false_2 (0%Qc = 1%Qc)) by done.
    rewrite (bool_decide_eq_true_2 (0%Qc = 0%Qc)) by done.
    unfold initThetaConst, getitem2, getitem.
    rewrite !lookup_insert_ne by done.
    reflexivity.
Qed.

Lemma theta_options_witness :
  (let r := ex_run "/tmp/test.h5" (delete "priorTheta" (ex_model_opts ones))
                   (Some 7) at_1 in
   (∃ e, result_of r = inl e) ∧
   (TInitThetaMixed ∉ tags (trace_of r)) ∧ (TInitThetaConst ∉ tags (trace_of r)) ∧
   (TBayesNet ∉ tags (trace_of r))) ∧
  init_nodes (Build_Dim 1 2 [3%nat] (num 2)) ex_data (ex_data_opts "/tmp/test.h5")
             (<["priorTheta" := VNone]> (ex_model_opts zeros)) 7 =
  init_nodes (Build_Dim 1 2 [3%nat] (num 2)) ex_data (ex_data_opts "/tmp/test.h5")
             (ex_model_opts zeros) 7.
Proof.
  split.
  - destruct (theta_options (world_handler registry) (ex_world at_1 ["/tmp"] 0)
                ex_data (ex_data_opts "/tmp/test.h5")
                (delete "priorTheta" (ex_model_opts ones)) ex_train_opts (Some 7)
                ones [1; 1]%Qc) as (H & _ & _);
      [vm_compute; reflexivity|reflexivity|].
    apply H.
    + left. split; [discriminate|repeat constructor].
    + left. reflexivity.
  - destruct (theta_options (world_handler registry) (ex_world at_1 ["/tmp"] 0)
                ex_data (ex_data_opts "/tmp/test.h5")
                (ex_model_opts zeros) ex_train_opts (Some 7)
                zeros [0; 0]%Qc eq_refl eq_refl) as (_ & _ & H).
    apply H. split; [discriminate|repeat constructor].
Defined.

(** With 1 everywhere and no [priorTheta], the run stops at the Theta
    section with the [KeyError]; with 0 everywhere it runs to its end. *)
Example priorTheta_runs :
  result_of (ex_run "/tmp/test.h5" (delete "priorTheta" (ex_model_opts ones))
                    (Some 7) at_1) = inl (KeyError "priorTheta") ∧
  result_of (ex_run "/tmp/test.h5" (delete "priorTheta" (ex_model_opts zeros))
                    (Some 7) at_1) = inr tt.
Proof. by vm_compute. Qed.

(** ** The arguments of the initialisers *)

Lemma initZ_call_tag ev : is_Some (initZ_call ev) → ev_tag ev = TInitZ.
Proof. destruct ev as [X c r]. by destruct c; intros [? [=]]. Qed.

Lemma initSW_call_tag ev : is_Some (initSW_call ev) → ev_tag ev = TInitSW.
Proof. destruct ev as [X c r]. by destruct c; intros [? [=]]. Qed.

Lemma initTau_call_tag ev : is_Some (initTau_call ev) → ev_tag ev = TInitTau.
Proof. destruct ev as [X c r]. by destruct c; intros [? [=]]. Qed.

(** What the program at hand tests first. *)
Ltac head_scrutinee p :=
  lazymatch p with
  | bind ?q _ => head_scrutinee q
  | mbind _ ?q => head_scrutinee q
  | match ?x with _ => _ end => x
  end.

(** Evaluate a section step by step, in the order of the program. *)
Ltac run_head H :=
  match type of H with
  | (_, inl _, _) = (_, inr _, _) => discriminate H
  | (_, inr _, _) = (_, inl _, _) => discriminate H
  | _ => progress unfold getitem2, getitem, subscript, as_str, first_view in H
  | context [run ?h ?p ?s] =>
      let x := head_scrutinee p in destruct x eqn:?; simpl in H
  | context [match ?h ?X ?c ?s with _ => _ end] =>
      destruct (h X c s) as [[?e|?x] ?s] eqn:?; simpl in H
  end.

(** Use the lookups found on the way. *)
Ltac use_lookups :=
  repeat match goal with
         | H : _ !! _ = Some _ |- _ => rewrite H; clear H
         end.

Lemma initZ_run {S} (h : Handler S) init data_opts model_opts s tr res s' :
  run h (initZ init data_opts model_opts) s = (tr, res, s') →
  TInitZ ∈ tags tr →
  ∃ kw, read_kwargs data_opts model_opts initZ_table = Some kw ∧
        omap initZ_call tr = [(init, kw)].
Proof.
  intros H Hin. unfold initZ, getitem2, getitem, subscript in H. simpl in H.
  repeat run_head H.
  all: injection H as <- _ _; try not_called Hin.
  all: eexists; split; [simpl; use_lookups; reflexivity|reflexivity].
Qed.

Lemma initSW_run {S} (h : Handler S) init data_opts model_opts s tr res s' :
  run h (initSW init model_opts) s = (tr, res, s') →
  TInitSW ∈ tags tr →
  ∃ kw, read_kwargs data_opts model_opts initSW_table = Some kw ∧
        omap initSW_call tr = [(init, kw)].
Proof.
  intros H Hin. unfold initSW in H. simpl in H.
  repeat run_head H; injection H as <- _ _; try not_called Hin.
  all: eexists; split; [simpl; use_lookups; reflexivity|reflexivity].
Qed.

Lemma initTau_run {S} (h : Handler S) init data_opts model_opts s tr res s' :
  run h (initTau init model_opts) s = (tr, res, s') →
  TInitTau ∈ tags tr →
  ∃ kw, read_kwargs data_opts model_opts initTau_table = Some kw ∧
        omap initTau_call tr = [(init, kw)].
Proof.
  intros H Hin. unfold initTau, ab_args in H. simpl in H.
  repeat run_head H; injection H as <- _ _; try not_called Hin.
  all: eexists; split; [simpl; use_lookups; reflexivity|reflexivity].
Qed.

Lemma conforms_after_initZ init model_opts :
  conforms (initSW init model_opts ≫= λ _,
            initAlphaW init model_opts ≫= λ _,
            initTau init model_opts ≫= λ _,
            initTheta init model_opts ≫= λ _,
            call (InitY init) ≫= λ _, mret init)
           (lang_seq [[[TInitSW]]; [[TInitAlphaW_mk]]; [[TInitTau]]; L_theta; [[TInitY]]]).
Proof.
  do 3 (conf_seq; [conf|]). conf_seq; [apply conforms_initTheta|]. conf_seq; conf.
Qed.

Lemma conforms_after_initSW init model_opts :
  conforms (initAlphaW init model_opts ≫= λ _,
            initTau init model_opts ≫= λ _,
            initTheta init model_opts ≫= λ _,
            call (InitY init) ≫= λ _, mret init)
           (lang_seq [[[TInitAlphaW_mk]]; [[TInitTau]]; L_theta; [[TInitY]]]).
Proof.
  do 2 (conf_seq; [conf|]). conf_seq; [apply conforms_initTheta|]. conf_seq; conf.
Qed.

Lemma conforms_after_initTau init model_opts :
  conforms (initTheta init model_opts ≫= λ _,
            call (InitY init) ≫= λ _, mret init)
           (lang_seq [L_theta; [[TInitY]]]).
Proof. conf_seq; [apply conforms_initTheta|]. conf_seq; conf. Qed.

#[export] Hint Resolve conforms_after_initZ conforms_after_initSW conforms_after_initTau
  conforms_initTau : stagesdb.

Lemma run_call_returns {S X} (h : Handler S) (c : Cmd X) s tr a s' :
  run h (call c) s = (tr, inr a, s') → tr = [Ev X c (inr a)].
Proof. rewrite run_call. destruct (h X c s) as [[?|?] ?]; by intros [= <- <- <-]. Qed.

(** The next section of the run of [Hrun] avoids the calls [T]; if it
    fails, the call of [Hin] was not made. *)
Ltac pre_stage Hrun Hin E T :=
  stage Hrun E; avoid T E; [injection Hrun as <- _ _; absurd_in Hin|].

(** The run of the construction section up to [initZ]. *)
Ltac to_initZ Hrun Hin E1 t :=
  unfold init_nodes in Hrun;
  let E0 := fresh "E0" in
  stage Hrun E0; apply run_getitem in E0 as (-> & -> & _);
    [injection Hrun as <- _ _; by apply elem_of_nil in Hin|];
  pre_stage Hrun Hin E1 [t];
  let Htr := fresh "Htr" in
  pose proof (run_call_returns _ _ _ _ _ _ E1) as Htr.

(** Put the calls of the sections together. *)
Ltac gather f t lem :=
  rewrite !omap_app;
  quiet init_answer TInitModel init_answer_tag;
  quiet f t lem;
  rewrite ?app_nil_r, ?app_nil_l.

Lemma init_nodes_initZ {S} (h : Handler S) dim data data_opts model_opts z
    s tr res s' :
  run h (init_nodes dim data data_opts model_opts z) s = (tr, res, s') →
  TInitZ ∈ tags tr →
  ∃ init kw, omap init_answer tr = [init] ∧
             read_kwargs data_opts model_opts initZ_table = Some kw ∧
             omap initZ_call tr = [(init, kw)].
Proof.
  intros Hrun Hin. to_initZ Hrun Hin E1 TInitZ.
  stage Hrun EZ; avoid [TInitModel] EZ;
    [|last_stage Hrun ER; avoid [TInitModel; TInitZ] ER];
    injection Hrun as <- _ _;
    (lazymatch type of EZ with
     | _ = (?trZ, _, _) => assert (TInitZ ∈ tags trZ) as HinZ by in_section Hin
     end);
    destruct (initZ_run h _ _ _ _ _ _ _ EZ HinZ) as (kw & Hkw & Hc);
    exists a0, kw; gather initZ_call TInitZ initZ_call_tag;
    rewrite Hc, Htr; done.
Qed.

Lemma init_nodes_initSW {S} (h : Handler S) dim data data_opts model_opts z
    s tr res s' :
  run h (init_nodes dim data data_opts model_opts z) s = (tr, res, s') →
  TInitSW ∈ tags tr →
  ∃ init kw, omap init_answer tr = [init] ∧
             read_kwargs data_opts model_opts initSW_table = Some kw ∧
             omap initSW_call tr = [(init, kw)].
Proof.
  intros Hrun Hin. to_initZ Hrun Hin E1 TInitSW.
  pre_stage Hrun Hin EZ [TInitModel; TInitSW].
  stage Hrun ES; avoid [TInitModel] ES;
    [|last_stage Hrun ER; avoid [TInitModel; TInitSW] ER];
    injection Hrun as <- _ _;
    (lazymatch type of ES with
     | _ = (?trS, _, _) => assert (TInitSW ∈ tags trS) as HinS by in_section Hin
     end);
    destruct (initSW_run h _ data_opts _ _ _ _ _ ES HinS) as (kw & Hkw & Hc);
    exists a0, kw; gather initSW_call TInitSW initSW_call_tag;
    rewrite Hc, Htr; done.
Qed.

Lemma init_nodes_initTau {S} (h : Handler S) dim data data_opts model_opts z
    s tr res s' :
  run h (init_nodes dim data data_opts model_opts z) s = (tr, res, s') →
  TInitTau ∈ tags tr →
  ∃ init kw, omap init_answer tr = [init] ∧
             read_kwargs data_opts model_opts initTau_table = Some kw ∧
             omap initTau_call tr = [(init, kw)].
Proof.
  intros Hrun Hin. to_initZ Hrun Hin E1 TInitTau.
  pre_stage Hrun Hin EZ [TInitModel; TInitTau].
  pre_stage Hrun Hin ES [TInitModel; TInitTau].
  pre_stage Hrun Hin EA [TInitModel; TInitTau].
  stage Hrun ET; avoid [TInitModel] ET;
    [|last_stage Hrun ER; avoid [TInitModel; TInitTau] ER];
    injection Hrun as <- _ _;
    (lazymatch type of ET with
     | _ = (?trT, _, _) => assert (TInitTau ∈ tags trT) as HinT by in_section Hin
     end);
    destruct (initTau_run h _ data_opts _ _ _ _ _ ET HinT) as (kw & Hkw & Hc);
    exists a0, kw; gather initTau_call TInitTau initTau_call_tag;
    rewrite Hc, Htr; done.
Qed.

(** From the construction section to the whole run. *)
Ltac whole_run Hrun Hin t f lem sec :=
  unfold runMOFA in Hrun;
  let E1 := fresh "E" in pre_stage Hrun Hin E1 [TInitModel; t];
  let E2 := fresh "E" in pre_stage Hrun Hin E2 [TInitModel; t];
  let E3 := fresh "E" in pre_stage Hrun Hin E3 [TInitModel; t];
  let E4 := fresh "E" in pre_stage Hrun Hin E4 [TInitModel; t];
  let E5 := fresh "E" in
  let E6 := fresh "E" in
  let Hin5 := fresh "Hin" in
  stage Hrun E5; [|last_stage Hrun E6; avoid [TInitModel; t] E6];
    injection Hrun as <- _ _;
    (lazymatch type of E5 with
     | _ = (?tr5, _, _) => assert (t ∈ tags tr5) as Hin5 by in_section Hin
     end);
    (let init := fresh "init" in
     let kw := fresh "kw" in
     let Hi := fresh "Hi" in
     let Hkw := fresh "Hkw" in
     let Hc := fresh "Hc" in
     destruct (sec _ _ _ _ _ _ _ _ _ _ _ E5 Hin5) as (init & kw & Hi & Hkw & Hc);
     exists init, kw; gather f t lem; rewrite Hi, Hc; done).

(** X12.  [initZ], [initSW] and [initTau] are each called at most once, on
    the object that [initModel] returned.  Their keyword arguments are
    read as follows: [initZ] gets [pmean], [pvar] from
    [model_opts['priorZ']] ([mean], [var]), [qmean], [qvar], [qE], [qE2]
    from [model_opts['initZ']] ([mean], [var], [E], [E2]) and [covariates],
    [scale_covariates] from [data_opts]; [initSW] gets [ptheta],
    [pmean_S0], [pvar_S0], [pmean_S1], [pvar_S1] from
    [model_opts['priorSW']] and [qtheta], [qmean_S0], [qvar_S0],
    [qmean_S1], [qvar_S1], [qEW_S0], [qEW_S1], [qES] from
    [model_opts['initSW']]; [initTau] gets [pa], [pb] from
    [model_opts['priorTau']] and [qa], [qb], [qE] from
    [model_opts['initTau']]. *)
Theorem initialiser_arguments {S} (h : Handler S) (s : S) (data : Data)
    (data_opts model_opts train_opts : PyDict) (seed : option Z) :
  let tr := trace_of (run h (runMOFA data data_opts model_opts train_opts seed) s) in
  ∀ (t : Tag) (f : Event → option (ref * kwargs)) table,
    (t, f, table) ∈ [(TInitZ, initZ_call, initZ_table);
                     (TInitSW, initSW_call, initSW_table);
                     (TInitTau, initTau_call, initTau_table)] →
    t ∈ tags tr →
    ∃ init kw, omap init_answer tr = [init] ∧
               read_kwargs data_opts model_opts table = Some kw ∧
               omap f tr = [(init, kw)].
Proof.
  cbv zeta.
  destruct (run h (runMOFA data data_opts model_opts train_opts seed) s)
    as [[tr res] s'] eqn:Hrun. cbn [trace_of fst].
  intros t f table Hcase Hin.
  apply elem_of_cons in Hcase as [[= -> -> ->]|Hcase];
    [whole_run Hrun Hin TInitZ initZ_call initZ_call_tag (@init_nodes_initZ)|].
  apply elem_of_cons in Hcase as [[= -> -> ->]|Hcase];
    [whole_run Hrun Hin TInitSW initSW_call initSW_call_tag (@init_nodes_initSW)|].
  apply elem_of_cons in Hcase as [[= -> -> ->]|Hcase];
    [whole_run Hrun Hin TInitTau initTau_call initTau_call_tag (@init_nodes_initTau)|].
  by apply elem_of_nil in Hcase.
Qed.

Lemma initialiser_arguments_witness :
  let tr := trace_of (ex_run "/tmp/test.h5" (ex_model_opts ones) (Some 7) at_1) in
  ∃ init kw, omap init_answer tr = [init] ∧
             read_kwargs (ex_data_opts "/tmp/test.h5") (ex_model_opts ones)
                         initZ_table = Some kw ∧
             omap initZ_call tr = [(init, kw)].
Proof.
  apply (initialiser_arguments (world_handler registry) (ex_world at_1 ["/tmp"] 0)
           ex_data (ex_data_opts "/tmp/test.h5") (ex_model_opts ones) ex_train_opts
           (Some 7) TInitZ initZ_call initZ_table).
  - by left.
  - apply (bool_decide_unpack _). vm_compute. reflexivity.
Defined.

(** ** The choice of the Theta node *)

Lemma thetaMixed_call_tag ev : is_Some (thetaMixed_call ev) → ev_tag ev = TInitThetaMixed.
Proof. destruct ev as [X c r]. by destruct c; intros [? [=]]. Qed.

Lemma thetaConst_call_tag ev : is_Some (thetaConst_call ev) → ev_tag ev = TInitThetaConst.
Proof. destruct ev as [X c r]. by destruct c; intros [? [=]]. Qed.

Lemma initThetaMixed_run {S} (h : Handler S) init data_opts model_opts v s tr res s' :
  model_opts !! "sparsity" = Some v →
  run h (initThetaMixed init model_opts) s = (tr, res, s') →
  TInitThetaMixed ∈ tags tr →
  ∃ kw, read_kwargs data_opts model_opts initThetaMixed_table = Some kw ∧
        omap thetaMixed_call tr = [(init, kw ++ [("sparsity", v)])].
Proof.
  intros Hv H Hin. unfold initThetaMixed, ab_args, getitem2, getitem, subscript in H.
  rewrite Hv in H. simpl in H.
  repeat run_head H; injection H as <- _ _; try not_called Hin.
  all: eexists; split; [simpl; use_lookups; reflexivity|].
  all: reflexivity.
Qed.

Lemma initThetaConst_run {S} (h : Handler S) init data_opts model_opts s tr res s' :
  run h (initThetaConst init model_opts) s = (tr, res, s') →
  TInitThetaConst ∈ tags tr →
  ∃ kw, read_kwargs data_opts model_opts initThetaConst_table = Some kw ∧
        omap thetaConst_call tr = [(init, kw)].
Proof.
  intros H Hin. unfold initThetaConst, getitem2, getitem, subscript in H. simpl in H.
  repeat run_head H; injection H as <- _ _; try not_called Hin.
  all: eexists; split; [simpl; use_lookups; reflexivity|reflexivity].
Qed.

Lemma conforms_after_theta (init : ref) :
  conforms (call (InitY init) ≫= λ _, mret init) [[TInitY]].
Proof. conf_sub. Qed.

(** The Theta initialiser called in the construction section, when the
    Theta section comes down to one of them. *)
Ltac theta_in_init_nodes Hrun Hin Heq t f lem sec :=
  unfold init_nodes in Hrun;
  let E0 := fresh "E" in
  stage Hrun E0; apply run_getitem in E0 as (-> & -> & _);
    [injection Hrun as <- _ _; by apply elem_of_nil in Hin|];
  let E1 := fresh "E" in
  pre_stage Hrun Hin E1 [t];
  let Htr := fresh "Htr" in
  pose proof (run_call_returns _ _ _ _ _ _ E1) as Htr;
  let EZ := fresh "E" in pre_stage Hrun Hin EZ [TInitModel; t];
  let ES := fresh "E" in pre_stage Hrun Hin ES [TInitModel; t];
  let EA := fresh "E" in pre_stage Hrun Hin EA [TInitModel; t];
  let ET := fresh "E" in pre_stage Hrun Hin ET [TInitModel; t];
  rewrite Heq in Hrun;
  let EH := fresh "E" in
  let ER := fresh "E" in
  let HinH := fresh "Hin" in
  stage Hrun EH; avoid [TInitModel] EH;
    [|last_stage Hrun ER; avoid [TInitModel; t] ER];
    injection Hrun as <- _ _;
    (lazymatch type of EH with
     | _ = (?trH, _, _) => assert (t ∈ tags trH) as HinH by in_section Hin
     end);
    (let kw := fresh "kw" in
     let Hkw := fresh "Hkw" in
     let Hc := fresh "Hc" in
     destruct (sec _ _ _ _ _ EH HinH) as (kw & Hkw & Hc);
     eexists _, kw; gather f t lem; rewrite Hc, Htr; done).

#[export] Hint Resolve conforms_initThetaMixed conforms_initThetaConst
  conforms_after_theta : stagesdb.

Lemma init_nodes_thetaMixed {S} (h : Handler S) dim data data_opts model_opts z v
    s tr res s' :
  (∀ init, initTheta init model_opts = initThetaMixed init model_opts) →
  model_opts !! "sparsity" = Some v →
  run h (init_nodes dim data data_opts model_opts z) s = (tr, res, s') →
  TInitThetaMixed ∈ tags tr →
  ∃ init kw, omap init_answer tr = [init] ∧
             read_kwargs data_opts model_opts initThetaMixed_table = Some kw ∧
             omap thetaMixed_call tr = [(init, kw ++ [("sparsity", v)])].
Proof.
  intros Heq Hv Hrun Hin.
  theta_in_init_nodes Hrun Hin Heq TInitThetaMixed thetaMixed_call
    thetaMixed_call_tag
    (λ init s tr res s',
       initThetaMixed_run h init data_opts model_opts v s tr res s' Hv).
Qed.

Lemma init_nodes_thetaConst {S} (h : Handler S) dim data data_opts model_opts z
    s tr res s' :
  (∀ init, initTheta init model_opts = initThetaConst init model_opts) →
  run h (init_nodes dim data data_opts model_opts z) s = (tr, res, s') →
  TInitThetaConst ∈ tags tr →
  ∃ init kw, omap init_answer tr = [init] ∧
             read_kwargs data_opts model_opts initThetaConst_table = Some kw ∧
             omap thetaConst_call tr = [(init, kw)].
Proof.
  intros Heq Hrun Hin.
  theta_in_init_nodes Hrun Hin Heq TInitThetaConst thetaConst_call
    thetaConst_call_tag
    (λ init s tr res s',
       initThetaConst_run h init data_opts model_opts s tr res s').
Qed.

(** The calls of a run whose Theta section comes down to one initialiser:
    the other one is not called, and a run that gets to [initY] has called
    this one. *)
Lemma run_with_theta {S} (h : Handler S) (s : S) data data_opts model_opts
    train_opts seed (theta : ref → PyDict → Prog unit) (t t' : Tag) :
  (t, t') = (TInitThetaMixed, TInitThetaConst) ∨
  (t, t') = (TInitThetaConst, TInitThetaMixed) →
  (∀ init, initTheta init model_opts = theta init model_opts) →
  (∀ init, conforms (theta init model_opts) [[t]]) →
  let tr := trace_of (run h (runMOFA data data_opts model_opts train_opts seed) s) in
  (t' ∉ tags tr) ∧ (TInitY ∈ tags tr → t ∈ tags tr).
Proof.
  intros Ht Heq Hth. cbv zeta.
  assert (conforms (runMOFA data data_opts model_opts train_opts seed)
                   (L_runMOFA L_set_seed [[t]])) as Hconf.
  { apply conforms_runMOFA; [apply conforms_set_seed| |done].
    intros init. rewrite Heq. apply Hth. }
  split.
  - pose proof (conforms_run _ _ (λ w, bool_decide (t' ∉ w)) Hconf) as Hno.
    destruct Ht as [[= -> ->]|[= -> ->]];
      specialize (Hno ltac:(by vm_compute) S h s);
      by apply bool_decide_eq_true in Hno.
  - pose proof (conforms_run _ _ (precedes t TInitY) Hconf) as Hpre.
    destruct Ht as [[= -> ->]|[= -> ->]];
      specialize (Hpre ltac:(by vm_compute) S h s);
      by apply precedes_elem.
Qed.

(** From the construction section to the whole run, for a Theta
    initialiser. *)
Ltac whole_run_theta Hrun Hin t f lem sec :=
  unfold runMOFA in Hrun;
  let E1 := fresh "E" in pre_stage Hrun Hin E1 [TInitModel; t];
  let E2 := fresh "E" in pre_stage Hrun Hin E2 [TInitModel; t];
  let E3 := fresh "E" in pre_stage Hrun Hin E3 [TInitModel; t];
  let E4 := fresh "E" in pre_stage Hrun Hin E4 [TInitModel; t];
  let E5 := fresh "E" in
  let E6 := fresh "E" in
  let Hin5 := fresh "Hin" in
  stage Hrun E5; [|last_stage Hrun E6; avoid [TInitModel; t] E6];
    injection Hrun as <- _ _;
    (lazymatch type of E5 with
     | _ = (?tr5, _, _) => assert (t ∈ tags tr5) as Hin5 by in_section Hin
     end);
    (let init := fresh "init" in
     let kw := fresh "kw" in
     let Hi := fresh "Hi" in
     let Hkw := fresh "Hkw" in
     let Hc := fresh "Hc" in
     destruct (sec _ _ _ _ _ _ _ E5 Hin5) as (init & kw & Hi & Hkw & Hc);
     exists init, kw; gather f t lem; rewrite Hi, Hc; done).

(** C2. The Theta node is chosen from the distinct values of
    [model_opts['sparsity']].  When 1 is the only value, and when there are
    several distinct values, [initThetaConst] is not called and
    [initThetaMixed] is: at most once, in every run that gets as far as
    [initY], on the object that [initModel] returned, with [pa], [pb] from
    [model_opts['priorTheta']], [qa], [qb], [qE] from
    [model_opts['initTheta']] and the sparsity array as [sparsity].  When 0
    is the only value, [initThetaMixed] is not called and [initThetaConst]
    is, in the same way, with [model_opts['initTheta']['E']] as [value]. *)
Theorem theta_chosen_by_distinct_values {S} (h : Handler S) (s : S) (data : Data)
    (data_opts model_opts train_opts : PyDict) (seed : option Z)
    (v : PyVal) (l : list Qc) :
  model_opts !! "sparsity" = Some v →
  np_flatten v = Some l →
  let tr := trace_of (run h (runMOFA data data_opts model_opts train_opts seed) s) in
  (only_value l 1%Qc ∨ several_values l →
     (TInitThetaConst ∉ tags tr) ∧
     (TInitY ∈ tags tr → TInitThetaMixed ∈ tags tr) ∧
     (TInitThetaMixed ∈ tags tr →
        ∃ init kw,
          omap init_answer tr = [init] ∧
          read_kwargs data_opts model_opts initThetaMixed_table = Some kw ∧
          omap thetaMixed_call tr = [(init, kw ++ [("sparsity", v)])])) ∧
  (only_value l 0%Qc →
     (TInitThetaMixed ∉ tags tr) ∧
     (TInitY ∈ tags tr → TInitThetaConst ∈ tags tr) ∧
     (TInitThetaConst ∈ tags tr →
        ∃ init kw,
          omap init_answer tr = [init] ∧
          read_kwargs data_opts model_opts initThetaConst_table = Some kw ∧
          omap thetaConst_call tr = [(init, kw)])).
Proof.
  intros Hv Hl. cbv zeta. split.
  - intros Hcase.
    assert (∀ init, initTheta init model_opts = initThetaMixed init model_opts) as Heq.
    { intros init. destruct Hcase as [H|H].
      - exact (initTheta_all init model_opts v l Hv Hl H).
      - exact (initTheta_some init model_opts v l Hv Hl H). }
    destruct (run_with_theta h s data data_opts model_opts train_opts seed
                initThetaMixed TInitThetaMixed TInitThetaConst)
      as [Hno Hy]; [by left|done|intros; apply conforms_initThetaMixed|].
    split_and!; [done..|].
    destruct (run h (runMOFA data data_opts model_opts train_opts seed) s)
      as [[tr res] s'] eqn:Hrun. cbn [trace_of fst]. intros Hin.
    whole_run_theta Hrun Hin TInitThetaMixed thetaMixed_call thetaMixed_call_tag
      (λ dim0 data0 z0 s0 tr0 res0 s0',
         init_nodes_thetaMixed h dim0 data0 data_opts model_opts z0 v s0 tr0 res0 s0'
                               Heq Hv).
  - intros Hcase.
    assert (∀ init, initTheta init model_opts = initThetaConst init model_opts) as Heq.
    { intros init. exact (initTheta_none init model_opts v l Hv Hl Hcase). }
    destruct (run_with_theta h s data data_opts model_opts train_opts seed
                initThetaConst TInitThetaConst TInitThetaMixed)
      as [Hno Hy]; [by right|done|intros; apply conforms_initThetaConst|].
    split_and!; [done..|].
    destruct (run h (runMOFA data data_opts model_opts train_opts seed) s)
      as [[tr res] s'] eqn:Hrun. cbn [trace_of fst]. intros Hin.
    whole_run_theta Hrun Hin TInitThetaConst thetaConst_call thetaConst_call_tag
      (λ dim0 data0 z0 s0 tr0 res0 s0',
         init_nodes_thetaConst h dim0 data0 data_opts model_opts z0 s0 tr0 res0 s0'
                               Heq).
Qed.

Lemma theta_chosen_witness :
  (let tr := trace_of (ex_run "/tmp/test.h5" (ex_model_opts ones) (Some 7) at_1) in
   omap thetaMixed_call tr =
     [(0%nat, [("pa", num 1); ("pb", num 1); ("qa", num 1); ("qb", num 1);
               ("qE", num 1); ("sparsity", ones)])] ∧
   TInitThetaConst ∉ tags tr) ∧
  (let tr := trace_of (ex_run "/tmp/test.h5" (ex_model_opts zeros) (Some 7) at_1) in
   omap thetaConst_call tr = [(0%nat, [("value", num 1)])] ∧
   TInitThetaMixed ∉ tags tr) ∧
  (let tr := trace_of (ex_run "/tmp/test.h5" (ex_model_opts mixed) (Some 7) at_1) in
   omap thetaMixed_call tr =
     [(0%nat, [("pa", num 1); ("pb", num 1); ("qa", num 1); ("qb", num 1);
               ("qE", num 1); ("sparsity", mixed)])] ∧
   TInitThetaConst ∉ tags tr).
Proof.
  cbv zeta. split; [|split].
  - destruct (theta_chosen_by_distinct_values (world_handler registry)
                (ex_world at_1 ["/tmp"] 0) ex_data (ex_data_opts "/tmp/test.h5")
                (ex_model_opts ones) ex_train_opts (Some 7) ones [1; 1]%Qc
                eq_refl eq_refl) as [H _].
    destruct H as (Hno & Hy & Hargs);
      [left; split; [discriminate|repeat constructor]|].
    destruct Hargs as (init & kw & Hi & Hkw & Hc).
    { apply Hy. apply (bool_decide_unpack _). vm_compute. reflexivity. }
    vm_compute in Hi. injection Hi as <-.
    change (read_kwargs _ _ _) with
      (Some [("pa", num 1); ("pb", num 1); ("qa", num 1); ("qb", num 1);
             ("qE", num 1)]) in Hkw.
    injection Hkw as <-. split; [exact Hc|exact Hno].
  - destruct (theta_chosen_by_distinct_values (world_handler registry)
                (ex_world at_1 ["/tmp"] 0) ex_data (ex_data_opts "/tmp/test.h5")
                (ex_model_opts zeros) ex_train_opts (Some 7) zeros [0; 0]%Qc
                eq_refl eq_refl) as [_ H].
    destruct H as (Hno & Hy & Hargs); [split; [discriminate|repeat constructor]|].
    destruct Hargs as (init & kw & Hi & Hkw & Hc).
    { apply Hy. apply (bool_decide_unpack _). vm_compute. reflexivity. }
    vm_compute in Hi. injection Hi as <-.
    change (read_kwargs _ _ _) with (Some [("value", num 1)]) in Hkw.
    injection Hkw as <-. split; [exact Hc|exact Hno].
  - destruct (theta_chosen_by_distinct_values (world_handler registry)
                (ex_world at_1 ["/tmp"] 0) ex_data (ex_data_opts "/tmp/test.h5")
                (ex_model_opts mixed) ex_train_opts (Some 7) mixed [1; 0]%Qc
                eq_refl eq_refl) as [H _].
    destruct H as (Hno & Hy & Hargs).
    { right. exists 1%Qc, 0%Qc. split_and!; [repeat constructor..|discriminate]. }
    destruct Hargs as (init & kw & Hi & Hkw & Hc).
    { apply Hy. apply (bool_decide_unpack _). vm_compute. reflexivity. }
    vm_compute in Hi. injection Hi as <-.
    change (read_kwargs _ _ _) with
      (Some [("pa", num 1); ("pb", num 1); ("qa", num 1); ("qb", num 1);
             ("qE", num 1)]) in Hkw.
    injection Hkw as <-. split; [exact Hc|exact Hno].
Defined.

(** ** What [runMOFA] looks at in [train_opts] and in [data_opts] *)




Ltac same_data_keys H do1 :=
  repeat match goal with
         | |- context [do1 !! ?k] =>
             rewrite (H k) by (unfold data_keys_read; repeat constructor)
         end.

Lemma sanity_checks_same_read do1 do2 :
  same_data_read do1 do2 → sanity_checks do1 = sanity_checks do2.
Proof. intros H. unfold sanity_checks, getitem. by same_data_keys H do1. Qed.

Lemma init_nodes_same_data_read dim data do1 do2 model_opts z :
  same_data_read do1 do2 →
  init_nodes dim data do1 model_opts z = init_nodes dim data do2 model_opts z.
Proof. intros H. unfold init_nodes, initZ, getitem. by same_data_keys H do1. Qed.

Lemma save_same_data_read net data do1 do2 model_opts train_opts :
  same_data_read do1 do2 →
  save net data do1 model_opts train_opts = save net data do2 model_opts train_opts.
Proof. intros H. unfold save, getitem. by same_data_keys H do1. Qed.

Lemma parse_data_frame {S} (h : Handler S) data do1 do2 s :
  same_data_read do1 do2 →
  let r1 := run h (parse_data data do1) s in
  let r2 := run h (parse_data data do2) s in
  r1 = r2 ∨
  ∃ ans1 ans2,
    trace_of r1 = [Ev Data (MaskData data do1) ans1] ∧
    trace_of r2 = [Ev Data (MaskData data do2) ans2].
Proof.
  intros H. cbv zeta. unfold parse_data, py_or, contains, getitem.
  same_data_keys H do1.
  destruct (do2 !! "maskAtRandom") as [a|]; destruct (do2 !! "maskNSamples") as [n|];
    simpl; try (by left);
    try (destruct (pure_py_any a) as [[[] ->]|[e ->]]; simpl; try (by left));
    try (destruct (pure_py_any n) as [[[] ->]|[e' ->]]; simpl; try (by left)).
  all: right.
  all: destruct (h _ (MaskData data do1) s) as [[?|?] ?];
    destruct (h _ (MaskData data do2) s) as [[?|?] ?]; simpl; by eexists _, _.
Qed.

(** X14.  Of [data_opts], [runMOFA] looks at the entries under [outfile],
    [maskAtRandom], [maskNSamples], [covariates], [scale_covariates] and
    [view_names]; the dictionary as a whole is only handed to [maskData].
    Two runs on option dictionaries that agree on these keys, with the
    same collaborators in the same state, are the same run, or are the
    same up to the call of [maskData], which gets the one dictionary or the
    other. *)
Theorem data_opts_frame {S} (h : Handler S) (s : S) (data : Data)
    (do1 do2 model_opts train_opts : PyDict) (seed : option Z) :
  same_data_read do1 do2 →
  let r1 := run h (runMOFA data do1 model_opts train_opts seed) s in
  let r2 := run h (runMOFA data do2 model_opts train_opts seed) s in
  r1 = r2 ∨
  ∃ pre ans1 ans2 post1 post2,
    trace_of r1 = pre ++ Ev Data (MaskData data do1) ans1 :: post1 ∧
    trace_of r2 = pre ++ Ev Data (MaskData data do2) ans2 :: post2.
Proof.
  intros Hsame. cbv zeta. unfold runMOFA.
  both_stage. rewrite (sanity_checks_same_read _ _ Hsame). both_stage.
  rewrite !run_bind.
  match goal with
  | |- context [run h (parse_data data do1) ?s2] =>
      destruct (parse_data_frame h data do1 do2 s2 Hsame)
        as [Heq|(ans1 & ans2 & H1 & H2)]
  end.
  - rewrite <-Heq.
    match goal with
    | |- context [run ?h ?p ?s] => destruct (run h p s) as [[?tr [?e|?a]] ?s]
    end; cbv beta iota; [by left|].
    both_stage. rewrite (init_nodes_same_data_read _ _ _ _ _ _ Hsame).
    do 4 both_stage. rewrite (save_same_data_read _ _ _ _ _ _ Hsame). by left.
  - right.
    match goal with
    | |- context [run h (parse_data data do1) ?s2] =>
        destruct (run h (parse_data data do1) s2) as [[tra ra] sa];
        destruct (run h (parse_data data do2) s2) as [[trb rb] sb]
    end.
    cbn [trace_of fst] in H1, H2. subst tra trb.
    exists (tr ++ tr0), ans1, ans2.
    destruct ra as [ea|na], rb as [eb|nb]; cbv beta iota;
      repeat match goal with
             | |- context [run ?h ?p ?s] => destruct (run h p s) as [[? ?] ?]
             end;
      cbn [trace_of fst]; eexists _, _; rewrite <-!app_assoc; split; reflexivity.
Qed.

Lemma data_opts_frame_witness :
  let do2 := <["center" := VList [VBool false]]> (ex_data_opts "/tmp/test.h5") in
  ex_run "/tmp/test.h5" (ex_model_opts ones) (Some 7) at_1 =
  run (world_handler registry)
      (runMOFA ex_data do2 (ex_model_opts ones) ex_train_opts (Some 7))
      (ex_world at_1 ["/tmp"] 0).
Proof.
  cbv zeta.
  destruct (data_opts_frame (world_handler registry) (ex_world at_1 ["/tmp"] 0)
              ex_data (ex_data_opts "/tmp/test.h5")
              (<["center" := VList [VBool false]]> (ex_data_opts "/tmp/test.h5"))
              (ex_model_opts ones) ex_train_opts (Some 7))
    as [H|(pre & ans1 & ans2 & post1 & post2 & H1 & _)].
  - intros k Hk. rewrite lookup_insert_ne; [done|].
    intros <-. revert Hk. apply (bool_decide_unpack _). vm_compute. reflexivity.
  - exact H.
  - exfalso.
    assert (TMaskData ∈ tags (trace_of (ex_run "/tmp/test.h5" (ex_model_opts ones)
                                               (Some 7) at_1))) as Hin.
    { unfold ex_run. rewrite H1, tags_app, tags_cons, elem_of_app, elem_of_cons. auto. }
    revert Hin. apply (bool_decide_unpack _). vm_compute. reflexivity.
Defined.

(** ** The calls of a run, in order *)

(** X15.  The calls of every run of [runMOFA] are the beginning, and those
    of a run that returns are the whole, of this sequence: [time] (if no
    seed was given) and [s.random.seed]; [isdir], with [print] and
    [makedirs] if the directory is missing; [maskData] if masking is asked
    for; the first banner, [sleep] and the seed notice; [initModel],
    [initZ], [initSW], [initAlphaW_mk], [initTau], at most one of
    [initThetaMixed] and [initThetaConst], [initY]; [getNodes] and six
    times [addMarkovBlanket]; [getNodes] again and [BayesNet]; the second
    banner, [sleep] and [iterate]; the third banner, one more line and
    [saveModel]. *)
Theorem calls_in_order {S} (h : Handler S) (s : S) (data : Data)
    (data_opts model_opts train_opts : PyDict) (seed : option Z) :
  let r := run h (runMOFA data data_opts model_opts train_opts seed) s in
  ∃ seedw sanityw maskw thetaw,
    seedw ∈ [[TTime; TRandomSeed]; [TRandomSeed]] ∧
    sanityw ∈ [[TIsDir]; [TIsDir; TPrint; TMakeDirs]] ∧
    maskw ∈ [[]; [TMaskData]] ∧
    thetaw ∈ [[TInitThetaMixed]; [TInitThetaConst]; []] ∧
    tags (trace_of r) `prefix_of` call_sequence seedw sanityw maskw thetaw ∧
    (result_of r = inr tt →
     tags (trace_of r) = call_sequence seedw sanityw maskw thetaw).
Proof.
  cbv zeta.
  pose proof (conforms_runMOFA_any data data_opts model_opts train_opts seed
                _ _ (run_path h _ s)) as Hadm.
  assert (∀ w, w ∈ L_runMOFA L_set_seed L_theta →
            ∃ seedw sanityw maskw thetaw,
              seedw ∈ [[TTime; TRandomSeed]; [TRandomSeed]] ∧
              sanityw ∈ [[TIsDir]; [TIsDir; TPrint; TMakeDirs]] ∧
              maskw ∈ [[]; [TMaskData]] ∧
              thetaw ∈ [[TInitThetaMixed]; [TInitThetaConst]; []] ∧
              w = call_sequence seedw sanityw maskw thetaw) as Hdec.
  { intros w Hw.
    assert (w ∈ call_sequences) as Hin.
    { assert (lang_sub (L_runMOFA L_set_seed L_theta) call_sequences = true) as Hsub
        by (by vm_compute).
      unfold lang_sub in Hsub. rewrite forallb_forall in Hsub.
      apply list_elem_of_In, Hsub in Hw. by apply bool_decide_eq_true in Hw. }
    unfold call_sequences in Hin.
    apply list_elem_of_bind in Hin as (seedw & Hin & ?).
    apply list_elem_of_bind in Hin as (sanityw & Hin & ?).
    apply list_elem_of_bind in Hin as (maskw & Hin & ?).
    apply list_elem_of_bind in Hin as (thetaw & Hin & ?).
    apply list_elem_of_singleton in Hin.
    by exists seedw, sanityw, maskw, thetaw. }
  destruct (run h (runMOFA data data_opts model_opts train_opts seed) s)
    as [[tr [e|[]]] s']; cbn [trace_of result_of returned fst snd] in *.
  - destruct Hadm as (w & Hw & Hpre).
    destruct (Hdec w Hw) as (seedw & sanityw & maskw & thetaw & ? & ? & ? & ? & ->).
    exists seedw, sanityw, maskw, thetaw. by split_and!.
  - destruct (Hdec _ Hadm) as (seedw & sanityw & maskw & thetaw & ? & ? & ? & ? & Heq).
    exists seedw, sanityw, maskw, thetaw. rewrite Heq. by split_and!.
Qed.
